(** * Movie-discovery application: cache, metadata client, auth client, configuration

    A shallow embedding of the Python modules [tmdb_client.py],
    [firebase_auth.py], [config.py] and [ai_client.py].

    - JSON values are an inductive type; a Python [dict] is an association
      list in insertion order (keys of a real dict are unique; the
      operations below are total on any list and agree with Python on lists
      with unique keys).
    - A JSON number is a Python [int] ([JNum], exact) or a Python [float]
      ([JFloat], an IEEE double). The doubles of the model are those of
      integral value, the infinities and NaN; what [time.time()] returns
      is the double nearest to the clock's reading in whole seconds.
      Fractional doubles and the negative zero are outside the value
      domain.
    - Effects (the cache file, the clock, the HTTP transport, the
      in-memory session) are fields of one [world] record threaded through
      a state-and-exception monad. *)

From Stdlib Require Import ZArith List String Ascii Bool Lia DecimalString.
Import ListNotations.

Local Open Scope string_scope.
Local Open Scope Z_scope.

(** ** IEEE doubles of integral value *)

Module Double.

(** [Fin x] is the double of value [x]; it stands for a double when
    [round x = x] and [Z.abs x < huge]. *)
Inductive t : Type :=
| Fin (x : Z)
| Inf (negative : bool)
| NaN.

(** The gap between the doubles around [x]: 1 up to [2^53], then a power of two. *)
Definition ulp (x : Z) : Z := 2 ^ Z.max 0 (Z.log2 (Z.abs x) - 52).

(** The multiple of [u] nearest to [x], ties going to the even multiple. *)
Definition rne (x u : Z) : Z :=
  let q := x / u in
  let r := x mod u in
  if 2 * r <? u then q * u
  else if u <? 2 * r then (q + 1) * u
  else if Z.even q then q * u else (q + 1) * u.

(** The integer [x] rounded to 53 significant bits, to nearest, ties to even. *)
Definition round (x : Z) : Z := rne x (ulp x).

Definition huge : Z := 2 ^ 1024.

(** The correctly rounded double of the exact value [x], as an IEEE
    operation delivers it: an overflow gives an infinity. *)
Definition of_Z (x : Z) : t :=
  let r := round x in
  if huge <=? Z.abs r then Inf (r <? 0) else Fin r.

(** [float(n)] for a Python int, as the mixed operators convert it:
    [None] is the [OverflowError] "int too large to convert to float". *)
Definition of_int (n : Z) : option t :=
  let r := round n in
  if huge <=? Z.abs r then None else Some (Fin r).

(** [a + b] on doubles. *)
Definition add (a b : t) : t :=
  match a, b with
  | NaN, _ | _, NaN => NaN
  | Inf s, Inf s' => if Bool.eqb s s' then Inf s else NaN
  | Inf s, Fin _ => Inf s
  | Fin _, Inf s => Inf s
  | Fin x, Fin y => of_Z (x + y)
  end.

(** [a < b] on doubles. *)
Definition ltb (a b : t) : bool :=
  match a, b with
  | NaN, _ | _, NaN => false
  | Inf s, Inf s' => s && negb s'
  | Inf s, Fin _ => s
  | Fin _, Inf s => negb s
  | Fin x, Fin y => x <? y
  end.

(** [n < b] for a Python int [n]: Python compares the exact values. *)
Definition int_ltb (n : Z) (b : t) : bool :=
  match b with
  | NaN => false
  | Inf s => negb s
  | Fin y => n <? y
  end.

End Double.

(** ** JSON values *)

Set Warnings "-register-all".

Inductive json : Type :=
| JNull
| JBool (b : bool)
| JNum (n : Z)
| JStr (s : string)
| JList (l : list json)
| JObj (kvs : list (string * json))
| JFloat (f : Double.t).

Definition dict := list (string * json).

(** ** Python exceptions raised by the modelled code *)

Inductive exn : Type :=
| AttributeError
| TypeError
| KeyError
| OverflowError
| OSError
| JSONDecodeError
| RequestException (msg : string)
| ValueError (msg : string)
| TMDbError (msg : string)
| FirebaseAuthError (msg : json)
| ConfigError (msg : string).

Inductive result (A : Type) : Type :=
| Ok (a : A)
| Raise (e : exn).
Arguments Ok {A} a.
Arguments Raise {A} e.

(** ** The fragment of Python's data model used by the code *)

Module Py.

(** Truth value testing: [None], [False], [0], [0.0], [""], [[]] and [{}]
    are falsy. *)
Definition truthy (j : json) : bool :=
  match j with
  | JNull => false
  | JBool b => b
  | JNum n => negb (n =? 0)
  | JStr s => negb (String.eqb s "")
  | JList l => match l with [] => false | _ => true end
  | JObj kvs => match kvs with [] => false | _ => true end
  | JFloat f => match f with Double.Fin 0 => false | _ => true end
  end.

(** [a or b] *)
Definition or_ (a b : json) : json := if truthy a then a else b.

(** [d.get(k)] on a dict: first binding of [k]. *)
Fixpoint lookup (k : string) (d : dict) : option json :=
  match d with
  | [] => None
  | (k', v) :: d' => if String.eqb k k' then Some v else lookup k d'
  end.

(** [d.get(k, default)] on a dict. *)
Definition dget (k : string) (d : dict) (default : json) : json :=
  match lookup k d with Some v => v | None => default end.

(** [d[k] = v]: overwrite in place when [k] is bound, append otherwise. *)
Fixpoint set (k : string) (v : json) (d : dict) : dict :=
  match d with
  | [] => [(k, v)]
  | (k', v') :: d' =>
      if String.eqb k k' then (k', v) :: d' else (k', v') :: set k v d'
  end.

(** [del d[k]] *)
Fixpoint del (k : string) (d : dict) : dict :=
  match d with
  | [] => []
  | (k', v') :: d' =>
      if String.eqb k k' then del k d' else (k', v') :: del k d'
  end.

(** [list(d.keys())] *)
Definition keys (d : dict) : list string := map fst d.

(** [o.get(k, default)] on an arbitrary value: only a dict has [get]. *)
Definition get (o : json) (k : string) (default : json) : result json :=
  match o with
  | JObj d => Ok (dget k d default)
  | _ => Raise AttributeError
  end.

(** [o[k]] on an arbitrary value, with a string subscript. *)
Definition getitem (o : json) (k : string) : result json :=
  match o with
  | JObj d => match lookup k d with Some v => Ok v | None => Raise KeyError end
  | _ => Raise TypeError
  end.

(** [o.keys()] *)
Definition keys_of (o : json) : result (list string) :=
  match o with
  | JObj d => Ok (keys d)
  | _ => Raise AttributeError
  end.

(** The numbers among the values: an int (a bool counts as one) or a float. *)
Inductive num : Type :=
| NInt (n : Z)
| NFloat (f : Double.t).

Definition as_num (j : json) : option num :=
  match j with
  | JNum n => Some (NInt n)
  | JBool b => Some (NInt (if b then 1 else 0))
  | JFloat f => Some (NFloat f)
  | _ => None
  end.

(** [a + b]: exact on ints; on a float and an int the int is converted
    first, which raises [OverflowError] when it is too large. *)
Definition add (a b : json) : result json :=
  match as_num a, as_num b with
  | Some (NInt x), Some (NInt y) => Ok (JNum (x + y))
  | Some (NFloat x), Some (NFloat y) => Ok (JFloat (Double.add x y))
  | Some (NFloat x), Some (NInt y) =>
      match Double.of_int y with
      | Some f => Ok (JFloat (Double.add x f))
      | None => Raise OverflowError
      end
  | Some (NInt x), Some (NFloat y) =>
      match Double.of_int x with
      | Some f => Ok (JFloat (Double.add f y))
      | None => Raise OverflowError
      end
  | _, _ =>
      match a, b with
      | JStr s, JStr t => Ok (JStr (s ++ t))
      | JList l, JList m => Ok (JList (l ++ m)%list)
      | _, _ => Raise TypeError
      end
  end.

(** [a < now] where [now] is a float. *)
Definition lt_num (a : json) (now : Double.t) : result bool :=
  match as_num a with
  | Some (NInt x) => Ok (Double.int_ltb x now)
  | Some (NFloat f) => Ok (Double.ltb f now)
  | None => Raise TypeError
  end.

(** [for x in o]: the sequence a [for] loop walks through. *)
Definition iter (o : json) : result (list json) :=
  match o with
  | JList l => Ok l
  | JObj d => Ok (map (fun k => JStr k) (keys d))
  | JStr s => Ok (map (fun c => JStr (String c EmptyString)) (list_ascii_of_string s))
  | _ => Raise TypeError
  end.

Definition str_of_Z (n : Z) : string := NilZero.string_of_int (Z.to_int n).

Fixpoint join (sep : string) (l : list string) : string :=
  match l with
  | [] => ""
  | [x] => x
  | x :: l' => x ++ sep ++ join sep l'
  end.

Definition quote (s : string) : string := "'" ++ s ++ "'".

(** [s.rstrip("0")] *)
Fixpoint rstrip0 (s : string) : string :=
  match s with
  | EmptyString => EmptyString
  | String c s' =>
      let r := rstrip0 s' in
      if String.eqb r "" && Ascii.eqb c "0"%char then EmptyString else String c r
  end.

(** The decimal of fewest significant digits that [float] reads back as
    [a], the nearest to [a] among those; [a] is a double, [10^16 <= a]. *)
Definition shortest (a : Z) : Z :=
  let k := Z.of_nat (String.length (str_of_Z a)) in
  let try (n : Z) : option Z :=
    let s := 10 ^ (k - n) in
    let lo := (a / s) * s in
    let hi := lo + s in
    let oklo := Double.round lo =? a in
    let okhi := Double.round hi =? a in
    if oklo && okhi then Some (if a - lo <=? hi - a then lo else hi)
    else if oklo then Some lo
    else if okhi then Some hi
    else None in
  let fix first (ns : list Z) : Z :=
    match ns with
    | [] => a
    | n :: ns' => match try n with Some c => c | None => first ns' end
    end in
  first [1; 2; 3; 4; 5; 6; 7; 8; 9; 10; 11; 12; 13; 14; 15; 16; 17].

(** [repr(f)] for a float: plain digits and [".0"] below [1e16], the
    shortest digits in exponent notation from there on. *)
Definition repr_float (f : Double.t) : string :=
  match f with
  | Double.NaN => "nan"
  | Double.Inf negative => if negative then "-inf" else "inf"
  | Double.Fin x =>
      if Z.abs x <? 10 ^ 16 then str_of_Z x ++ ".0"
      else
        let c := str_of_Z (shortest (Z.abs x)) in
        let e := Z.of_nat (String.length c) - 1 in
        (if x <? 0 then "-" else "")
        ++ match rstrip0 c with
           | EmptyString => "0"
           | String d EmptyString => String d EmptyString
           | String d rest => String d ("." ++ rest)
           end
        ++ "e+" ++ str_of_Z e
  end.

(** [repr(j)]. A string is rendered between single quotes without
    escapes, which is what Python prints for a string with no quote,
    backslash or control character. *)
Fixpoint repr (j : json) : string :=
  match j with
  | JNull => "None"
  | JBool b => if b then "True" else "False"
  | JNum n => str_of_Z n
  | JStr s => quote s
  | JList l => "[" ++ join ", " (map repr l) ++ "]"
  | JObj kvs =>
      "{" ++ join ", " (map (fun kv => quote (fst kv) ++ ": " ++ repr (snd kv)) kvs) ++ "}"
  | JFloat f => repr_float f
  end.

(** [str(j)], as an f-string placeholder renders it. *)
Definition str (j : json) : string :=
  match j with
  | JStr s => s
  | _ => repr j
  end.

End Py.

(** ** The world: cache file, clock, HTTP transport, session *)

Inductive http_method : Type := GET | POST | PUT | PATCH.

Record request : Type := mkRequest {
  req_method : http_method;
  req_url : string;
  req_params : dict;
  req_json : json
}.

Record response : Type := mkResponse {
  status_code : Z;
  text : string;
  json_body : option json   (* [None]: the body is not JSON, [r.json()] raises *)
}.

Inductive reply : Type :=
| NetFail (msg : string)    (* a [requests.RequestException] *)
| Reply (r : response).

Inductive file : Type :=
| Missing
| Unparsable
| Content (j : json).

Record world : Type := mkWorld {
  cache_file : file;          (* BASE_DIR / 'tmdb_cache.json' *)
  fs_writable : bool;         (* whether opening the cache file for writing succeeds *)
  clock : Z;                  (* the clock's reading, in whole seconds *)
  server : request -> reply;  (* the remote providers *)
  http_log : list request;    (* requests issued so far, oldest first *)
  user : json                 (* [FirebaseAuthClient.user] *)
}.

Definition with_cache_file (f : file) (w : world) : world :=
  mkWorld f (fs_writable w) (clock w) (server w) (http_log w) (user w).

Definition with_clock (t : Z) (w : world) : world :=
  mkWorld (cache_file w) (fs_writable w) t (server w) (http_log w) (user w).

Definition with_log (l : list request) (w : world) : world :=
  mkWorld (cache_file w) (fs_writable w) (clock w) (server w) l (user w).

Definition with_user (u : json) (w : world) : world :=
  mkWorld (cache_file w) (fs_writable w) (clock w) (server w) (http_log w) u.

(** ** State-and-exception monad *)

Definition M (A : Type) : Type := world -> result A * world.

Definition ret {A} (a : A) : M A := fun w => (Ok a, w).

Definition bind {A B} (m : M A) (k : A -> M B) : M B :=
  fun w =>
    match m w with
    | (Ok a, w') => k a w'
    | (Raise e, w') => (Raise e, w')
    end.

Definition raise {A} (e : exn) : M A := fun w => (Raise e, w).

(** [try: m  except Exception: h] *)
Definition try_except {A} (m : M A) (h : exn -> M A) : M A :=
  fun w =>
    match m w with
    | (Ok a, w') => (Ok a, w')
    | (Raise e, w') => h e w'
    end.

Definition lift {A} (r : result A) : M A := fun w => (r, w).

Declare Scope monad_scope.
Delimit Scope monad_scope with monad.
Notation "x <- m ;; k" := (bind m (fun x => k))
  (at level 61, m at next level, right associativity) : monad_scope.
Notation "m ;;; k" := (bind m (fun _ => k))
  (at level 61, right associativity) : monad_scope.
Local Open Scope monad_scope.

(** *** Primitive effects *)

(** The reading of the clock; [time.time()] is the double [Double.of_Z] makes of it. *)
Definition time_time : M Z := fun w => (Ok (clock w), w).

Definition cache_exists : M bool :=
  fun w => (Ok (match cache_file w with Missing => false | _ => true end), w).

(** [with open(CACHE_FILE, 'r') as f: json.load(f)] *)
Definition json_load : M json :=
  fun w =>
    match cache_file w with
    | Missing => (Raise OSError, w)
    | Unparsable => (Raise JSONDecodeError, w)
    | Content j => (Ok j, w)
    end.

(** [with open(CACHE_FILE, 'w') as f: json.dump(j, f)] *)
Definition json_dump (j : json) : M unit :=
  fun w =>
    if fs_writable w then (Ok tt, with_cache_file (Content j) w)
    else (Raise OSError, w).

(** One call of [requests.get/post/put/patch] or [_session.get]. *)
Definition http (r : request) : M response :=
  fun w =>
    let w' := with_log (http_log w ++ [r])%list w in
    match server w r with
    | NetFail msg => (Raise (RequestException msg), w')
    | Reply resp => (Ok resp, w')
    end.

(** [r.json()] *)
Definition resp_json (r : response) : M json :=
  match json_body r with
  | Some j => ret j
  | None => raise JSONDecodeError
  end.

(** *** The exception monad of effect-free blocks *)

Definition rbind {A B} (r : result A) (k : A -> result B) : result B :=
  match r with
  | Ok a => k a
  | Raise e => Raise e
  end.

Notation "'let?' x ':=' r 'in' k" := (rbind r (fun x => k))
  (at level 10, x name, r at level 100, k at level 200).

(** [a or b] where both operands may raise. *)
Definition or_else (a b : result json) : result json :=
  let? x := a in if Py.truthy x then Ok x else b.

(** A [for] loop (or comprehension) that appends at most one item per
    element and stops at the first exception. *)
Fixpoint collect {A : Type} (f : json -> result (option A)) (l : list json)
  : result (list A) :=
  match l with
  | [] => Ok []
  | x :: l' =>
      let? r := f x in
      let? rs := collect f l' in
      Ok (match r with Some y => y :: rs | None => rs end)
  end.

Definition of_opt (o : option string) : json :=
  match o with
  | Some s => JStr s
  | None => JNull
  end.

(** ** config.py *)

Module config.

(** The process environment after [load_dotenv(env_path)]. *)
Definition environ := string -> option string.

Definition getenv (env : environ) (name : string) (default : option string)
  : option string :=
  match env name with
  | Some v => Some v
  | None => default
  end.

Definition _get (env : environ) (name : string) (required : bool)
  (default : option string) : result (option string) :=
  let value := getenv env name default in
  if required && negb (Py.truthy (of_opt value))
  then Raise (ConfigError ("Missing required environment variable: " ++ name))
  else Ok value.

(** The names the module binds once its body has run. *)
Record module : Type := mkModule {
  OMDB_API_KEY : option string;
  FIREBASE_API_KEY : option string;
  FIREBASE_DB_URL : option string;
  PERPLEXITY_API_KEY : option string
}.

(** Running the module body ([import config]). *)
Definition import (env : environ) : result module :=
  let? omdb := _get env "OMDB_API_KEY" true None in
  let? fb_key := _get env "FIREBASE_API_KEY" true None in
  let? fb_url := _get env "FIREBASE_DB_URL" true None in
  let? pplx := _get env "PERPLEXITY_API_KEY" false None in
  Ok (mkModule omdb fb_key fb_url pplx).

(** [from config import name], for the names the other modules ask
    for; [BASE_DIR] is a path and is not modelled as a string. *)
Definition from_import (m : module) (name : string) : option (option string) :=
  if String.eqb name "OMDB_API_KEY" then Some (OMDB_API_KEY m)
  else if String.eqb name "FIREBASE_API_KEY" then Some (FIREBASE_API_KEY m)
  else if String.eqb name "FIREBASE_DB_URL" then Some (FIREBASE_DB_URL m)
  else if String.eqb name "PERPLEXITY_API_KEY" then Some (PERPLEXITY_API_KEY m)
  else None.

End config.

(** ** tmdb_client.py *)

Module tmdb_client.

(** Module initialisation, lines 10-16: the guarded import from [config]
    and the fallback to the environment. Returns
    [(TMDB_API_KEY, OMDB_API_KEY)]. *)
Definition import (env : config.environ) : option string * option string :=
  let fallback := (config.getenv env "TMDB_API_KEY" None,
                   config.getenv env "OMDB_API_KEY" None) in
  match config.import env with
  | Raise _ => fallback
  | Ok m =>
      match config.from_import m "TMDB_API_KEY", config.from_import m "OMDB_API_KEY" with
      | Some t, Some o => (t, o)
      | _, _ => fallback       (* ImportError: cannot import name *)
      end
  end.

Definition API_BASE : string := "https://api.themoviedb.org/3".
Definition IMAGE_BASE : string := "https://image.tmdb.org/t/p".
Definition POSTER_SIZE : string := "w500".
(** ** tmdb_client.py: the TTL response cache *)

Definition CACHE_TTL : Z := 60 * 60.

(** The test of the pruning loop:
    [e.get('ts', 0) + e.get('ttl', CACHE_TTL) < now], where [now] is the
    clock's reading and the comparison is with the float [time.time()]
    made of it. *)
Definition expired (now : Z) (e : json) : result bool :=
  match Py.get e "ts" (JNum 0) with
  | Raise x => Raise x
  | Ok ts =>
      match Py.get e "ttl" (JNum CACHE_TTL) with
      | Raise x => Raise x
      | Ok ttl =>
          match Py.add ts ttl with
          | Raise x => Raise x
          | Ok s => Py.lt_num s (Double.of_Z now)
          end
      end
  end.

(** The loop [for k in keys: ...] of [_load_cache], on the dict [data]
    and the flag [changed]. *)
Fixpoint prune (now : Z) (ks : list string) (data : dict) (changed : bool)
  : result (dict * bool) :=
  match ks with
  | [] => Ok (data, changed)
  | k :: ks' =>
      let e := Py.dget k data JNull in
      if negb (Py.truthy e) then prune now ks' data changed
      else
        match expired now e with
        | Raise x => Raise x
        | Ok true => prune now ks' (Py.del k data) true
        | Ok false => prune now ks' data changed
        end
  end.

Definition _load_cache : M dict :=
  try_except
    (ex <- cache_exists ;;
     if ex : bool then
       data <- json_load ;;
       now <- time_time ;;
       keys <- lift (Py.keys_of data) ;;
       match data with
       | JObj d =>
           r <- lift (prune now keys d false) ;;
           (if snd r : bool then json_dump (JObj (fst r)) else ret tt) ;;;
           ret (fst r)
       | _ => raise AttributeError
       end
     else ret [])
    (fun _ => ret []).

Definition _save_cache (cache : dict) : M unit :=
  try_except (json_dump (JObj cache)) (fun _ => ret tt).

Definition _cache_get (key : string) : M json :=
  c <- _load_cache ;;
  let entry := Py.dget key c JNull in
  if negb (Py.truthy entry) then ret JNull
  else lift (Py.get entry "value" JNull).

(** [{'ts': time.time(), 'ttl': ttl, 'value': value}] at the clock's
    reading [ts]: the timestamp is a float, the ttl an int. *)
Definition mk_entry (ts ttl : Z) (value : json) : json :=
  JObj [("ts", JFloat (Double.of_Z ts)); ("ttl", JNum ttl); ("value", value)].

Definition _cache_set (key : string) (value : json) (ttl : Z) : M unit :=
  c <- _load_cache ;;
  now <- time_time ;;
  _save_cache (Py.set key (mk_entry now ttl value) c).


(** *** The metadata client proper *)

Section Client.

(** The module globals bound at import time. *)
Variables TMDB_API_KEY OMDB_API_KEY : option string.

(** [p.update(params)] *)
Definition update (p params : dict) : dict :=
  fold_left (fun acc kv => Py.set (fst kv) (snd kv) acc) params p.

(** [_session.get(url, params=p, timeout=10)] is one call of the
    transport; the retries of the mounted adapter happen inside it. *)
Definition _req (path : string) (params : dict) : M json :=
  if negb (Py.truthy (of_opt TMDB_API_KEY)) then raise (TMDbError "TMDB_API_KEY not set")
  else
    let url := API_BASE ++ path in
    let p := [("api_key", of_opt TMDB_API_KEY)] in
    let p := if Py.truthy (JObj params) then update p params else p in
    r <- try_except (http (mkRequest GET url p JNull))
           (fun e => match e with
                     | RequestException m => raise (TMDbError ("Network error: " ++ m))
                     | _ => raise e
                     end) ;;
    if negb (status_code r =? 200) then
      msg <- try_except
               (j <- resp_json r ;;
                s <- lift (Py.get j "status_message" JNull) ;;
                ret (Py.or_ s j))
               (fun _ => ret (JStr (text r))) ;;
      raise (TMDbError ("TMDB " ++ Py.str_of_Z (status_code r) ++ ": " ++ Py.str msg))
    else
      try_except (resp_json r) (fun _ => raise (TMDbError "Failed to decode JSON")).

Definition _poster_url (path : json) : json :=
  if negb (Py.truthy path) then JNull
  else JStr (IMAGE_BASE ++ "/" ++ POSTER_SIZE ++ Py.str path).

(** [x == s] for a string literal [s]. *)
Definition eq_str (x : json) (s : string) : bool :=
  match x with
  | JStr t => String.eqb t s
  | _ => false
  end.

(** Body of the loop of the multi branch of [search_multi]. *)
Definition multi_item (it : json) : result (option json) :=
  let? typ := Py.get it "media_type" JNull in
  if negb (eq_str typ "movie" || eq_str typ "tv") then Ok None
  else
    let? title := (if eq_str typ "movie" then Py.get it "title" JNull
                   else Py.get it "name" JNull) in
    let? id := Py.get it "id" JNull in
    let? release := or_else (Py.get it "release_date" JNull)
                            (Py.get it "first_air_date" JNull) in
    let? overview := Py.get it "overview" JNull in
    let? poster_path := Py.get it "poster_path" JNull in
    let? popularity := Py.get it "popularity" JNull in
    Ok (Some (JObj [("type", typ);
                    ("id", id);
                    ("title", title);
                    ("release_date", release);
                    ("overview", overview);
                    ("poster", _poster_url poster_path);
                    ("popularity", popularity);
                    ("tmdb_raw", it)])).

(** Body of the loop of the single-kind branch of [search_multi]. *)
Definition single_item (kind : string) (it : json) : result (option json) :=
  let? title := or_else (Py.get it "title" JNull) (Py.get it "name" JNull) in
  let? id := Py.get it "id" JNull in
  let? release := or_else (Py.get it "release_date" JNull)
                          (Py.get it "first_air_date" JNull) in
  let? overview := Py.get it "overview" JNull in
  let? poster_path := Py.get it "poster_path" JNull in
  let? popularity := Py.get it "popularity" JNull in
  Ok (Some (JObj [("type", JStr kind);
                  ("id", id);
                  ("title", title);
                  ("release_date", release);
                  ("overview", overview);
                  ("poster", _poster_url poster_path);
                  ("popularity", popularity);
                  ("tmdb_raw", it)])).

Definition search_params (query : string) (page : Z) : dict :=
  [("query", JStr query); ("page", JNum page); ("include_adult", JBool false)].

Definition search_key (query kind : string) (page : Z) : string :=
  "search:" ++ kind ++ ":" ++ query ++ ":" ++ Py.str_of_Z page.

Definition search_multi (query kind : string) (page : Z) : M json :=
  let key := search_key query kind page in
  cached <- _cache_get key ;;
  match cached with
  | JNull =>
      results <-
        (if String.eqb kind "multi" || String.eqb kind "both" then
           data <- _req "/search/multi" (search_params query page) ;;
           items <- lift (Py.get data "results" (JList [])) ;;
           its <- lift (Py.iter items) ;;
           lift (collect multi_item its)
         else
           let path := if String.eqb kind "movie" then "/search/movie" else "/search/tv" in
           data <- _req path (search_params query page) ;;
           items <- lift (Py.get data "results" (JList [])) ;;
           its <- lift (Py.iter items) ;;
           lift (collect (single_item kind) its)) ;;
      _cache_set key (JList results) CACHE_TTL ;;;
      ret (JList results)
  | _ => ret cached
  end.

Definition _get_awards_from_omdb (imdb_id : json) : M json :=
  if negb (Py.truthy imdb_id) || negb (Py.truthy (of_opt OMDB_API_KEY)) then ret JNull
  else
    let url := "http://www.omdbapi.com/" in
    try_except
      (r <- http (mkRequest GET url
                    [("i", imdb_id); ("apikey", of_opt OMDB_API_KEY)] JNull) ;;
       if negb (status_code r =? 200) then ret JNull
       else
         j <- resp_json r ;;
         lift (Py.get j "Awards" JNull))
      (fun _ => ret JNull).

(** [[g.get('name') for g in data.get('genres', [])]] *)
Definition genre_names (data : json) : result json :=
  let? gs := Py.get data "genres" (JList []) in
  let? l := Py.iter gs in
  let? names := collect (fun g => let? n := Py.get g "name" JNull in Ok (Some n)) l in
  Ok (JList names).

(** The dict literal [out] of [get_movie_details]. *)
Definition movie_out (data : json) : result dict :=
  let? id := Py.get data "id" JNull in
  let? title := Py.get data "title" JNull in
  let? overview := Py.get data "overview" JNull in
  let? poster_path := Py.get data "poster_path" JNull in
  let? backdrop_path := Py.get data "backdrop_path" JNull in
  let? genres := genre_names data in
  let? runtime := Py.get data "runtime" JNull in
  let? rating := Py.get data "vote_average" JNull in
  let? credits := Py.get data "credits" (JObj []) in
  let? ext := Py.get data "external_ids" (JObj []) in
  let? imdb_id := Py.get ext "imdb_id" JNull in
  Ok [("type", JStr "movie");
      ("id", id);
      ("title", title);
      ("overview", overview);
      ("poster", _poster_url poster_path);
      ("backdrop", _poster_url backdrop_path);
      ("genres", genres);
      ("runtime", runtime);
      ("rating", rating);
      ("credits", credits);
      ("imdb_id", imdb_id)].

Definition movie_key (tmdb_id : Z) : string := "movie:" ++ Py.str_of_Z tmdb_id.

Definition get_movie_details (tmdb_id : Z) : M json :=
  let key := movie_key tmdb_id in
  cached <- _cache_get key ;;
  match cached with
  | JNull =>
      data <- _req ("/movie/" ++ Py.str_of_Z tmdb_id)
                [("append_to_response", JStr "credits,external_ids")] ;;
      out <- lift (movie_out data) ;;
      out <- (if Py.truthy (Py.dget "imdb_id" out JNull) && Py.truthy (of_opt OMDB_API_KEY)
              then
                id <- lift (Py.getitem (JObj out) "imdb_id") ;;
                aw <- _get_awards_from_omdb id ;;
                ret (Py.set "awards" aw out)
              else ret out) ;;
      _cache_set key (JObj out) CACHE_TTL ;;;
      ret (JObj out)
  | _ => ret cached
  end.

(** Body of the loop of [get_trending]. *)
Definition trending_item (media_type : string) (r : json) : result (option json) :=
  let? title := or_else (Py.get r "title" JNull) (Py.get r "name" JNull) in
  let? release := or_else (or_else (Py.get r "release_date" JNull)
                                   (Py.get r "first_air_date" JNull))
                          (Ok (JStr "")) in
  let? id := Py.get r "id" JNull in
  let? mt := (if negb (String.eqb media_type "all")
              then or_else (Py.get r "media_type" JNull) (Ok (JStr media_type))
              else Py.get r "media_type" JNull) in
  let? poster_path := Py.get r "poster_path" JNull in
  let? poster := (let? c := Py.get r "poster_path" JNull in
                  if Py.truthy c
                  then let? p := Py.getitem r "poster_path" in
                       Py.add (JStr "https://image.tmdb.org/t/p/w342") p
                  else Ok JNull) in
  let? popularity := Py.get r "popularity" JNull in
  let? vote_average := Py.get r "vote_average" JNull in
  Ok (Some (JObj [("id", id);
                  ("media_type", mt);
                  ("title", title);
                  ("release_date", release);
                  ("poster_path", poster_path);
                  ("poster", poster);
                  ("popularity", popularity);
                  ("vote_average", vote_average);
                  ("raw", r)])).

Definition get_trending (media_type time_window : string) (page : Z) : M json :=
  if negb (String.eqb media_type "all" || String.eqb media_type "movie"
           || String.eqb media_type "tv")
  then raise (ValueError "media_type must be 'all', 'movie' or 'tv'")
  else if negb (String.eqb time_window "day" || String.eqb time_window "week")
  then raise (ValueError "time_window must be 'day' or 'week'")
  else
    let path := "/trending/" ++ media_type ++ "/" ++ time_window in
    data <- _req path [("page", JNum page)] ;;
    results <- lift (Py.get data "results" (JList [])) ;;
    rs <- lift (Py.iter results) ;;
    items <- lift (collect (trending_item media_type) rs) ;;
    ret (JList items).

(** The dict literal [out] of [get_tv_details]. *)
Definition tv_out (data : json) : result dict :=
  let? id := Py.get data "id" JNull in
  let? title := Py.get data "name" JNull in
  let? overview := Py.get data "overview" JNull in
  let? poster_path := Py.get data "poster_path" JNull in
  let? backdrop_path := Py.get data "backdrop_path" JNull in
  let? genres := genre_names data in
  let? rating := Py.get data "vote_average" JNull in
  let? credits := Py.get data "credits" (JObj []) in
  let? ext := Py.get data "external_ids" (JObj []) in
  let? imdb_id := Py.get ext "imdb_id" JNull in
  Ok [("type", JStr "tv");
      ("id", id);
      ("title", title);
      ("overview", overview);
      ("poster", _poster_url poster_path);
      ("backdrop", _poster_url backdrop_path);
      ("genres", genres);
      ("runtime", JNull);
      ("rating", rating);
      ("credits", credits);
      ("imdb_id", imdb_id)].

Definition tv_key (tmdb_id : Z) : string := "tv:" ++ Py.str_of_Z tmdb_id.

Definition get_tv_details (tmdb_id : Z) : M json :=
  let key := tv_key tmdb_id in
  cached <- _cache_get key ;;
  match cached with
  | JNull =>
      data <- _req ("/tv/" ++ Py.str_of_Z tmdb_id)
                [("append_to_response", JStr "credits,external_ids")] ;;
      out <- lift (tv_out data) ;;
      out <- (if Py.truthy (Py.dget "imdb_id" out JNull) && Py.truthy (of_opt OMDB_API_KEY)
              then
                id <- lift (Py.getitem (JObj out) "imdb_id") ;;
                aw <- _get_awards_from_omdb id ;;
                ret (Py.set "awards" aw out)
              else ret out) ;;
      _cache_set key (JObj out) CACHE_TTL ;;;
      ret (JObj out)
  | _ => ret cached
  end.

Definition get_details (kind : string) (tmdb_id : Z) : M json :=
  if String.eqb kind "movie" then get_movie_details tmdb_id
  else if String.eqb kind "tv" then get_tv_details tmdb_id
  else raise (TMDbError "kind must be movie or tv").

Definition get_trending_week (media_type : string) (page : Z) : M json :=
  get_trending media_type "week" page.

Definition get_trending_day (media_type : string) (page : Z) : M json :=
  get_trending media_type "day" page.

End Client.

End tmdb_client.

(** ** firebase_auth.py *)

Module firebase_auth.

(** [s.rstrip("/")] *)
Fixpoint rstrip_slash (s : string) : string :=
  match s with
  | EmptyString => EmptyString
  | String c s' =>
      let r := rstrip_slash s' in
      if String.eqb r "" && Ascii.eqb c "/"%char then EmptyString else String c r
  end.

Section FirebaseAuthClient.

(** [self.api_key] and [self.db_url] as [__init__] leaves them;
    [self.user] lives in the world. *)
Variables api_key db_url : string.

Definition get_user : M json := fun w => (Ok (user w), w).
Definition set_user (u : json) : M unit := fun w => (Ok tt, with_user u w).

Definition credentials (email password : string) : json :=
  JObj [("email", JStr email); ("password", JStr password);
        ("returnSecureToken", JBool true)].

Definition id_token : M json :=
  u <- get_user ;;
  if Py.truthy u then lift (Py.get u "idToken" JNull) else ret JNull.

Definition user_id : M json :=
  u <- get_user ;;
  if Py.truthy u then lift (Py.get u "localId" JNull) else ret JNull.

Definition _user_path (path : string) : M string :=
  uid <- user_id ;;
  if negb (Py.truthy uid) then raise (FirebaseAuthError (JStr "No authenticated user"))
  else
    uid <- user_id ;;
    ret (db_url ++ "/users/" ++ Py.str uid ++ "/" ++ path ++ ".json").

Definition _init_user_profile : M unit :=
  tok <- id_token ;;
  if negb (Py.truthy tok) then ret tt
  else
    uid <- user_id ;;
    if negb (Py.truthy uid) then ret tt
    else
      url <- _user_path "" ;;
      u <- get_user ;;
      email <- lift (Py.get u "email" JNull) ;;
      let payload := JObj [("email", email); ("watchlist", JObj [])] in
      tok <- id_token ;;
      http (mkRequest PATCH (url ++ "?auth=" ++ Py.str tok) [] payload) ;;;
      ret tt.

Definition sign_up (email password : string) : M json :=
  let url := "https://identitytoolkit.googleapis.com/v1/accounts:signUp?key=" ++ api_key in
  resp <- http (mkRequest POST url [] (credentials email password)) ;;
  data <- resp_json resp ;;
  if negb (status_code resp =? 200) then
    e <- lift (Py.get data "error" (JObj [])) ;;
    m <- lift (Py.get e "message" (JStr "Sign up failed")) ;;
    raise (FirebaseAuthError m)
  else
    set_user data ;;;
    _init_user_profile ;;;
    ret data.

Definition sign_in (email password : string) : M json :=
  let url := "https://identitytoolkit.googleapis.com/v1/accounts:signInWithPassword?key="
             ++ api_key in
  resp <- http (mkRequest POST url [] (credentials email password)) ;;
  data <- resp_json resp ;;
  if negb (status_code resp =? 200) then
    e <- lift (Py.get data "error" (JObj [])) ;;
    m <- lift (Py.get e "message" (JStr "Sign in failed")) ;;
    raise (FirebaseAuthError m)
  else
    set_user data ;;;
    ret data.

Definition sign_out : M unit := set_user JNull.

Definition is_authenticated : M bool :=
  u <- get_user ;;
  ret (match u with JNull => false | _ => true end).

Definition add_to_watchlist (imdb_id : string) (movie_data : json) : M unit :=
  tok <- id_token ;;
  if negb (Py.truthy tok) then raise (FirebaseAuthError (JStr "User not authenticated"))
  else
    p <- _user_path ("watchlist/" ++ imdb_id) ;;
    tok <- id_token ;;
    let url := p ++ "?auth=" ++ Py.str tok in
    resp <- http (mkRequest PUT url [] movie_data) ;;
    if negb ((status_code resp =? 200) || (status_code resp =? 204))
    then raise (FirebaseAuthError (JStr "Failed to save to watchlist"))
    else ret tt.

Definition get_watchlist : M json :=
  tok <- id_token ;;
  if negb (Py.truthy tok) then raise (FirebaseAuthError (JStr "User not authenticated"))
  else
    p <- _user_path "watchlist" ;;
    tok <- id_token ;;
    let url := p ++ "?auth=" ++ Py.str tok in
    resp <- http (mkRequest GET url [] JNull) ;;
    if negb (status_code resp =? 200)
    then raise (FirebaseAuthError (JStr "Failed to fetch watchlist"))
    else
      data <- resp_json resp ;;
      ret (Py.or_ data (JObj [])).

Definition get_user_email : M json :=
  u <- get_user ;;
  if Py.truthy u then lift (Py.get u "email" JNull) else ret JNull.

End FirebaseAuthClient.

End firebase_auth.

(** ** ai_client.py *)

Module ai_client.

(** A Python [str] is held as its UTF-8 encoding. The characters that
    [str.strip()] removes are the white space of [str.isspace]: the ASCII
    ones, U+0009 to U+000D and U+001C to U+0020, ... *)
Definition is_space (c : ascii) : bool :=
  let n := Z.of_nat (nat_of_ascii c) in
  ((9 <=? n) && (n <=? 13)) || ((28 <=? n) && (n <=? 32)).

(** ... U+0085 and U+00A0, of two bytes (C2 85, C2 A0), ... *)
Definition is_space2 (a b : ascii) : bool :=
  let x := Z.of_nat (nat_of_ascii a) in
  let y := Z.of_nat (nat_of_ascii b) in
  (x =? 194) && ((y =? 133) || (y =? 160)).

(** ... and U+1680 (E1 9A 80), U+2000 to U+200A (E2 80 80 to E2 80 8A),
    U+2028, U+2029 and U+202F (E2 80 A8, A9, AF), U+205F (E2 81 9F) and
    U+3000 (E3 80 80), of three bytes. *)
Definition is_space3 (a b c : ascii) : bool :=
  let x := Z.of_nat (nat_of_ascii a) in
  let y := Z.of_nat (nat_of_ascii b) in
  let z := Z.of_nat (nat_of_ascii c) in
  ((x =? 225) && (y =? 154) && (z =? 128))
  || ((x =? 226) && (y =? 128)
      && (((128 <=? z) && (z <=? 138)) || (z =? 168) || (z =? 169) || (z =? 175)))
  || ((x =? 226) && (y =? 129) && (z =? 159))
  || ((x =? 227) && (y =? 128) && (z =? 128)).

(** [s.strip() != ""]: some character of [s] is not white space. *)
Fixpoint strip_nonempty (s : string) : bool :=
  match s with
  | EmptyString => false
  | String a s1 =>
      if is_space a then strip_nonempty s1
      else
        match s1 with
        | EmptyString => true
        | String b s2 =>
            if is_space2 a b then strip_nonempty s2
            else
              match s2 with
              | EmptyString => true
              | String c s3 => if is_space3 a b c then strip_nonempty s3 else true
              end
        end
  end.

Definition is_enabled (PERPLEXITY_API_KEY : option string) : bool :=
  match PERPLEXITY_API_KEY with
  | None => false
  | Some k => strip_nonempty k
  end.

End ai_client.

(** ** main.py: application start-up *)

Module main.

(** What the import chain of [main.py] binds: [ui] imports
    [firebase_auth] (which imports [config]), then [ai_client], then
    [tmdb_client]; [AppUI()] builds the [FirebaseAuthClient] from the
    defaults [FIREBASE_API_KEY] and [FIREBASE_DB_URL]. *)
Record app : Type := mkApp {
  auth_api_key : option string;
  auth_db_url : option string;
  ai_key : option string;
  tmdb_key : option string;
  omdb_key : option string
}.

Definition startup (env : config.environ) : result app :=
  let? cfg := config.import env in
  let keys := tmdb_client.import env in
  Ok (mkApp (config.FIREBASE_API_KEY cfg)
            (option_map firebase_auth.rstrip_slash (config.FIREBASE_DB_URL cfg))
            (config.PERPLEXITY_API_KEY cfg)
            (fst keys) (snd keys)).

End main.
(** ** Vocabulary of the statements *)

Import tmdb_client.

(** What the pruning loop decides for one stored value: [true] when the
    loop keeps it without raising. *)
Definition kept (now : Z) (e : json) : bool :=
  if negb (Py.truthy e) then true
  else match expired now e with Ok false => true | _ => false end.

(** A stored value on which the expiry test cannot raise. *)
Definition entry_typed (e : json) : bool :=
  negb (Py.truthy e) || match expired 0 e with Ok _ => true | Raise _ => false end.


(** A time or duration on which the arithmetic of doubles is exact. *)
Definition exact_time (x : Z) : Prop := Z.abs x < 2 ^ 53.

(** [k in ks] *)
Definition mem (k : string) (ks : list string) : bool := existsb (String.eqb k) ks.

(** [_load_cache] in closed form: the dict it returns and the world it leaves. *)
Definition load_result (w : world) : dict * world :=
  match cache_file w with
  | Content (JObj d) =>
      match prune (clock w) (Py.keys d) d false with
      | Ok (d', true) =>
          if fs_writable w then (d', with_cache_file (Content (JObj d')) w) else ([], w)
      | Ok (d', false) => (d', w)
      | Raise _ => ([], w)
      end
  | _ => ([], w)
  end.

(** The round trip of the cache at one input: [set] succeeds and a [get]
    in the world it leaves returns the value. *)
Definition cache_roundtrip (w : world) (key : string) (value : json) (ttl : Z) : Prop :=
  exists w1 w2,
    _cache_set key value ttl w = (Ok tt, w1) /\ _cache_get key w1 = (Ok value, w2).


Definition no_server : request -> reply := fun _ => NetFail "unreachable".

(** An empty, writable cache at time 100. *)
Definition w_fresh : world := mkWorld Missing true 100 no_server [] JNull.

(** A cache holding one entry written at time 0 with a ttl of 10, read at time [t]. *)
Definition w_entry (t : Z) : world :=
  mkWorld (Content (JObj [("k", mk_entry 0 10 (JNum 7))])) true t no_server [] JNull.

(** The request [_req] sends for [path] and [params] under the key [k]. *)
Definition tmdb_request (k path : string) (params : dict) : request :=
  mkRequest GET (API_BASE ++ path)
    (if Py.truthy (JObj params) then update [("api_key", JStr k)] params
     else [("api_key", JStr k)])
    JNull.

(** The world once [r] has been sent. *)
Definition sent (r : request) (w : world) : world :=
  with_log (http_log w ++ [r])%list w.

(** Field [k] of a normalized item. *)
Definition field (item : json) (k : string) : json :=
  match item with
  | JObj d => Py.dget k d JNull
  | _ => JNull
  end.

Definition is_obj (j : json) : bool :=
  match j with
  | JObj _ => true
  | _ => false
  end.

Definition valid_media_type (s : string) : bool :=
  String.eqb s "all" || String.eqb s "movie" || String.eqb s "tv".

Definition valid_time_window (s : string) : bool :=
  String.eqb s "day" || String.eqb s "week".

(** A raw trending record: an object whose [poster_path] is a string or null. *)
Definition trending_record_ok (r : json) : bool :=
  match r with
  | JObj d => match Py.dget "poster_path" d JNull with
              | JStr _ | JNull => true
              | _ => false
              end
  | _ => false
  end.

(** The absolute poster URL [get_trending] derives from a raw record. *)
Definition trending_poster (r : json) : json :=
  match field r "poster_path" with
  | JStr p => if String.eqb p "" then JNull
              else JStr ("https://image.tmdb.org/t/p/w342" ++ p)
  | _ => JNull
  end.

(** What relates a raw trending record to its normalized item. *)
Definition trending_normalized (r item : json) : Prop :=
  field item "raw" = r
  /\ field item "poster" = trending_poster r
  /\ field item "poster_path" = field r "poster_path"
  /\ field item "id" = field r "id"
  /\ field item "title" = Py.or_ (field r "title") (field r "name").

(** The raw provider item is a movie or a tv show. *)
Definition is_movie_or_tv (it : json) : bool :=
  eq_str (field it "media_type") "movie" || eq_str (field it "media_type") "tv".

(** What relates a raw search item to its normalized summary. *)
Definition search_normalized (type : json) (it item : json) : Prop :=
  field item "tmdb_raw" = it
  /\ field item "type" = type
  /\ field item "id" = field it "id"
  /\ field item "poster" = _poster_url (field it "poster_path").

Definition multi_normalized (it item : json) : Prop :=
  search_normalized (field it "media_type") it item.

Definition type_movie_or_tv (item : json) : Prop :=
  field item "type" = JStr "movie" \/ field item "type" = JStr "tv".

(** A provider that answers every request with status 200 and [body]. *)
Definition const_server (body : json) : request -> reply :=
  fun _ => Reply (mkResponse 200 "" (Some body)).

(** An empty, writable cache at time 100 in front of [const_server body]. *)
Definition w_serving (body : json) : world :=
  mkWorld Missing true 100 (const_server body) [] JNull.

Definition trending_rows : list json :=
  [JObj [("id", JNum 603); ("title", JStr "The Matrix");
         ("poster_path", JStr "/m.jpg"); ("media_type", JStr "movie")];
   JObj [("id", JNum 1399); ("name", JStr "Game of Thrones");
         ("poster_path", JNull); ("media_type", JStr "tv")]].

Definition search_rows : list json :=
  [JObj [("id", JNum 603); ("title", JStr "The Matrix"); ("media_type", JStr "movie")];
   JObj [("id", JNum 6384); ("name", JStr "Keanu Reeves"); ("media_type", JStr "person")];
   JObj [("id", JNum 1399); ("name", JStr "Game of Thrones"); ("media_type", JStr "tv")]].

Definition results_body (rows : list json) : json := JObj [("results", JList rows)].

(** The request [_get_awards_from_omdb] sends under the key [k]. *)
Definition omdb_request (k : string) (imdb_id : json) : request :=
  mkRequest GET "http://www.omdbapi.com/" [("i", imdb_id); ("apikey", JStr k)] JNull.

(** The awards value read off the secondary provider's reply. *)
Definition awards_of (rp : reply) : json :=
  match rp with
  | NetFail _ => JNull
  | Reply r =>
      if status_code r =? 200 then
        match json_body r with
        | Some (JObj j) => Py.dget "Awards" j JNull
        | _ => JNull
        end
      else JNull
  end.

Definition matrix_body : json :=
  JObj [("id", JNum 603); ("title", JStr "The Matrix");
        ("external_ids", JObj [("imdb_id", JStr "tt0133093")])].

(** The metadata provider answers; the secondary provider is unreachable. *)
Definition omdb_down_server : request -> reply :=
  fun rq => if String.eqb (req_url rq) "http://www.omdbapi.com/"
            then NetFail "timed out"
            else Reply (mkResponse 200 "" (Some matrix_body)).

Definition w_omdb_down : world := mkWorld Missing true 100 omdb_down_server [] JNull.

(** Both providers answer. *)
Definition omdb_up_server : request -> reply :=
  fun rq => if String.eqb (req_url rq) "http://www.omdbapi.com/"
            then Reply (mkResponse 200 "" (Some (JObj [("Awards", JStr "Won 4 Oscars")])))
            else Reply (mkResponse 200 "" (Some matrix_body)).

Definition w_omdb_up : world := mkWorld Missing true 100 omdb_up_server [] JNull.

(** The request [sign_in] posts. *)
Definition sign_in_request (api_key email password : string) : request :=
  mkRequest POST
    ("https://identitytoolkit.googleapis.com/v1/accounts:signInWithPassword?key=" ++ api_key)
    [] (firebase_auth.credentials email password).

(** The identity provider's answer to a wrong password. *)
Definition wrong_password : response :=
  mkResponse 400 ""
    (Some (JObj [("error", JObj [("code", JNum 400);
                                 ("message", JStr "INVALID_PASSWORD")])])).

Definition w_wrong_password : world :=
  mkWorld Missing true 100 (fun _ => Reply wrong_password) [] JNull.

(** The variable [name] is unset or empty in the environment. *)
Definition missing (env : config.environ) (name : string) : bool :=
  negb (Py.truthy (of_opt (env name))).

(** An environment with every key but the metadata provider's and the
    AI provider's. *)
Definition env_no_tmdb : config.environ :=
  fun name =>
    if String.eqb name "OMDB_API_KEY" then Some "omdbkey"
    else if String.eqb name "FIREBASE_API_KEY" then Some "fbkey"
    else if String.eqb name "FIREBASE_DB_URL" then Some "https://db.example.com/"
    else None.

(** ** Vocabulary of the further properties *)

(** [w1] differs from [w] in the cache file at most. *)
Definition same_outside_cache (w w1 : world) : Prop :=
  fs_writable w1 = fs_writable w /\ clock w1 = clock w /\ server w1 = server w
  /\ http_log w1 = http_log w /\ user w1 = user w.

(** [w1] differs from [w] in the request log at most. *)
Definition same_outside_log (w w1 : world) : Prop :=
  cache_file w1 = cache_file w /\ fs_writable w1 = fs_writable w /\ clock w1 = clock w
  /\ server w1 = server w /\ user w1 = user w.

(** A store with a live entry and a value that is not an entry at all. *)
Definition store_malformed : dict :=
  [("movie:603", mk_entry 90 3600 (JStr "cached")); ("junk", JNum 5)].

Definition w_malformed : world :=
  mkWorld (Content (JObj store_malformed)) true 100 no_server [] JNull.

(** A store with a live and an expired entry at time 100. *)
Definition store_mixed : dict :=
  [("movie:603", mk_entry 90 3600 (JStr "cached")); ("old", mk_entry 0 10 (JNum 7))].

(** The same store on a file that cannot be written. *)
Definition w_readonly : world :=
  mkWorld (Content (JObj store_mixed)) false 100 no_server [] JNull.

Definition w_mixed : world :=
  mkWorld (Content (JObj store_mixed)) true 100 no_server [] JNull.

(** The provider's answer to an invalid API key. *)
Definition unauthorized : response :=
  mkResponse 401 ""
    (Some (JObj [("status_code", JNum 7);
                 ("status_message", JStr "Invalid API key: You must be granted a valid key.")])).

Definition w_unauthorized : world :=
  mkWorld Missing true 100 (fun _ => Reply unauthorized) [] JNull.

(** The shape shared by [search_multi], [get_movie_details] and
    [get_tv_details]: look the key up, compute and store on a miss. *)
Definition cache_aside {A : Type} (key : string) (f : A -> json) (compute : M A) : M json :=
  cached <- _cache_get key ;;
  match cached with
  | JNull =>
      x <- compute ;;
      _cache_set key (f x) CACHE_TTL ;;;
      ret (f x)
  | _ => ret cached
  end.

(** The fetch-and-normalize part of [search_multi]. *)
Definition search_fetch (key : option string) (query kind : string) (page : Z)
  : M (list json) :=
  if String.eqb kind "multi" || String.eqb kind "both" then
    data <- _req key "/search/multi" (search_params query page) ;;
    items <- lift (Py.get data "results" (JList [])) ;;
    its <- lift (Py.iter items) ;;
    lift (collect multi_item its)
  else
    let path := if String.eqb kind "movie" then "/search/movie" else "/search/tv" in
    data <- _req key path (search_params query page) ;;
    items <- lift (Py.get data "results" (JList [])) ;;
    its <- lift (Py.iter items) ;;
    lift (collect (single_item kind) its).

(** The awards step of [get_movie_details] and [get_tv_details]. *)
Definition enrich (omdb : option string) (out : dict) : M dict :=
  if Py.truthy (Py.dget "imdb_id" out JNull) && Py.truthy (of_opt omdb)
  then
    id <- lift (Py.getitem (JObj out) "imdb_id") ;;
    aw <- _get_awards_from_omdb omdb id ;;
    ret (Py.set "awards" aw out)
  else ret out.

(** The fetch-and-normalize part of the two detail functions. *)
Definition details_fetch (tmdb omdb : option string) (path : string)
    (outf : json -> result dict) : M dict :=
  data <- _req tmdb path [("append_to_response", JStr "credits,external_ids")] ;;
  out <- lift (outf data) ;;
  enrich omdb out.

(** The cache key of [get_details kind tmdb_id]. *)
Definition details_key (kind : string) (tmdb_id : Z) : string :=
  kind ++ ":" ++ Py.str_of_Z tmdb_id.

(** The endpoint [search_multi] queries for [kind]. *)
Definition search_path (kind : string) : string :=
  if String.eqb kind "multi" || String.eqb kind "both" then "/search/multi"
  else if String.eqb kind "movie" then "/search/movie" else "/search/tv".

(** The endpoint [get_details] queries. *)
Definition details_path (kind : string) (tmdb_id : Z) : string :=
  "/" ++ kind ++ "/" ++ Py.str_of_Z tmdb_id.

Definition details_params : dict := [("append_to_response", JStr "credits,external_ids")].

(** The dict literal [get_details] builds for [kind]. *)
Definition details_out (kind : string) : json -> result dict :=
  if String.eqb kind "movie" then movie_out else tv_out.

(** The requests a detail call sends after the metadata request: one to
    the secondary provider when an external identifier and a key are there. *)
Definition awards_requests (omdb : option string) (out : dict) : list request :=
  match omdb with
  | Some ok =>
      if Py.truthy (Py.dget "imdb_id" out JNull) && Py.truthy (JStr ok)
      then [omdb_request ok (Py.dget "imdb_id" out JNull)]
      else []
  | None => []
  end.

(** The detail object once the awards step has run. *)
Definition enriched (omdb : option string) (sv : request -> reply) (out : dict) : dict :=
  match omdb with
  | Some ok =>
      if Py.truthy (Py.dget "imdb_id" out JNull) && Py.truthy (JStr ok)
      then Py.set "awards" (awards_of (sv (omdb_request ok (Py.dget "imdb_id" out JNull)))) out
      else out
  | None => out
  end.

Definition got_thrones_body : json :=
  JObj [("id", JNum 1399); ("name", JStr "Game of Thrones");
        ("episode_run_time", JList [JNum 60]);
        ("external_ids", JObj [("imdb_id", JStr "tt0944947")])].

Definition tv_server : request -> reply :=
  fun rq => if String.eqb (req_url rq) "http://www.omdbapi.com/"
            then Reply (mkResponse 200 "" (Some (JObj [("Awards", JStr "Won 59 Emmys")])))
            else Reply (mkResponse 200 "" (Some got_thrones_body)).

Definition w_tv : world := mkWorld Missing true 100 tv_server [] JNull.

(** A world whose cache holds a live value under a search key. *)
Definition w_cached_search : world :=
  mkWorld (Content (JObj [("search:multi:matrix:1", mk_entry 90 3600 (JStr "stale"))]))
    true 100 no_server [] JNull.

(** The fields of a trending item that depend on the requested media type. *)
Definition trending_fields (media_type : string) (r item : json) : Prop :=
  field item "media_type"
  = (if String.eqb media_type "all" then field r "media_type"
     else Py.or_ (field r "media_type") (JStr media_type))
  /\ field item "release_date"
     = Py.or_ (Py.or_ (field r "release_date") (field r "first_air_date")) (JStr "")
  /\ field item "popularity" = field r "popularity"
  /\ field item "vote_average" = field r "vote_average".

(** The summary [search_multi] builds in its single-kind branch. *)
Definition single_fields (kind : string) (it item : json) : Prop :=
  field item "type" = JStr kind
  /\ field item "title" = Py.or_ (field it "title") (field it "name")
  /\ field item "release_date" = Py.or_ (field it "release_date") (field it "first_air_date")
  /\ field item "overview" = field it "overview"
  /\ field item "tmdb_raw" = it.

(** The summary [search_multi] builds in its combined branch. *)
Definition multi_fields (it item : json) : Prop :=
  field item "title"
  = (if eq_str (field it "media_type") "movie" then field it "title" else field it "name")
  /\ field item "release_date" = Py.or_ (field it "release_date") (field it "first_air_date")
  /\ field item "overview" = field it "overview"
  /\ field item "popularity" = field it "popularity".

(** The URL of a document of the signed-in user, with its auth token. *)
Definition user_url (db_url : string) (uid : json) (path : string) (tok : json) : string :=
  (db_url ++ "/users/" ++ Py.str uid ++ "/" ++ path ++ ".json") ++ "?auth=" ++ Py.str tok.

(** The request [sign_up] posts. *)
Definition sign_up_request (api_key email password : string) : request :=
  mkRequest POST
    ("https://identitytoolkit.googleapis.com/v1/accounts:signUp?key=" ++ api_key)
    [] (firebase_auth.credentials email password).

(** The request that seeds the profile of a new user. *)
Definition profile_request (db_url : string) (sess : dict) : request :=
  mkRequest PATCH
    (user_url db_url (Py.dget "localId" sess JNull) "" (Py.dget "idToken" sess JNull))
    [] (JObj [("email", Py.dget "email" sess JNull); ("watchlist", JObj [])]).

(** A session as the identity provider returns it. *)
Definition neo_session : dict :=
  [("idToken", JStr "tok123"); ("email", JStr "neo@example.com");
   ("refreshToken", JStr "r456"); ("localId", JStr "uid789")].

(** The identity provider accepts; the database answers [null]. *)
Definition firebase_server : request -> reply :=
  fun rq =>
    match req_method rq with
    | POST => Reply (mkResponse 200 "" (Some (JObj neo_session)))
    | _ => Reply (mkResponse 200 "null" (Some JNull))
    end.

Definition w_firebase : world := mkWorld Missing true 100 firebase_server [] JNull.

Definition w_signed_in : world :=
  mkWorld Missing true 100 firebase_server [] (JObj neo_session).

(** The identity provider accepts; the database cannot be reached. *)
Definition db_down_server : request -> reply :=
  fun rq =>
    match req_method rq with
    | POST => Reply (mkResponse 200 "" (Some (JObj neo_session)))
    | _ => NetFail "connection refused"
    end.

Definition w_db_down : world := mkWorld Missing true 100 db_down_server [] JNull.

(** The identity provider's answer to an address already in use. *)
Definition email_exists : response :=
  mkResponse 400 ""
    (Some (JObj [("error", JObj [("code", JNum 400); ("message", JStr "EMAIL_EXISTS")])])).

Definition w_email_exists : world :=
  mkWorld Missing true 100 (fun _ => Reply email_exists) [] JNull.

(** A gateway answering with an HTML error page. *)
Definition w_bad_gateway : world :=
  mkWorld Missing true 100
    (fun _ => Reply (mkResponse 502 "<html>Bad Gateway</html>" None)) [] JNull.

(** A session is stored and the identity provider answers a wrong password. *)
Definition w_stale_session : world :=
  mkWorld Missing true 100 (fun _ => Reply wrong_password) [] (JObj neo_session).

(** An environment with the secondary key only. *)
Definition env_omdb_only : config.environ :=
  fun name => if String.eqb name "OMDB_API_KEY" then Some "omdbkey" else None.

(** * Proofs *)

(** ** Rounding to a double *)

Module DoubleFacts.
Import Double.

Lemma ulp_pos x : 0 < ulp x.
Proof. unfold ulp. apply Z.pow_pos_nonneg; lia. Qed.

Lemma rne_mult u k : 0 < u -> rne (k * u) u = k * u.
Proof.
  intros Hu. unfold rne. rewrite Z.div_mul by lia. rewrite Z.mod_mul by lia.
  simpl. destruct (0 <? u) eqn:E; [reflexivity|]. apply Z.ltb_ge in E. lia.
Qed.

Lemma rne_bounds x u : 0 < u -> (x / u) * u <= rne x u <= (x / u + 1) * u.
Proof.
  intros Hu. unfold rne.
  destruct (2 * (x mod u) <? u); [nia|].
  destruct (u <? 2 * (x mod u)); [nia|].
  destruct (Z.even (x / u)); nia.
Qed.

Lemma rne_mono u a b : 0 < u -> a <= b -> rne a u <= rne b u.
Proof.
  intros Hu Hab.
  assert (Hq : a / u <= b / u) by (apply Z.div_le_mono; lia).
  destruct (Z.eq_dec (a / u) (b / u)) as [E|N].
  - assert (Hr : a mod u <= b mod u).
    { rewrite !Z.mod_eq by lia. rewrite E. nia. }
    unfold rne. rewrite E.
    destruct (2 * (a mod u) <? u) eqn:E1; destruct (2 * (b mod u) <? u) eqn:E2;
      destruct (u <? 2 * (a mod u)) eqn:E3; destruct (u <? 2 * (b mod u)) eqn:E4;
      destruct (Z.even (b / u)); try lia; try nia.
  - assert (H1 := rne_bounds a u Hu). assert (H2 := rne_bounds b u Hu). nia.
Qed.

Lemma round_small x : Z.abs x < 2 ^ 53 -> round x = x.
Proof.
  intros H. unfold round, ulp.
  assert (Hl : Z.log2 (Z.abs x) <= 52).
  { destruct (Z.eq_dec (Z.abs x) 0) as [->|N]; [simpl; lia|].
    assert (Z.log2 (Z.abs x) < 53) by (apply Z.log2_lt_pow2; lia). lia. }
  replace (Z.max 0 (Z.log2 (Z.abs x) - 52)) with 0 by lia.
  change (2 ^ 0) with 1. replace x with (x * 1) at 1 by lia.
  rewrite rne_mult; lia.
Qed.

Lemma rne_nonneg x u : 0 < u -> 0 <= x -> 0 <= rne x u.
Proof.
  intros Hu Hx. assert (H := rne_bounds x u Hu).
  assert (0 <= x / u) by (apply Z.div_pos; lia). nia.
Qed.

Lemma round_nonneg x : 0 <= x -> 0 <= round x.
Proof. intros. apply rne_nonneg; auto. apply ulp_pos. Qed.

Lemma rne_opp x u : 0 < u -> rne (- x) u = - rne x u.
Proof.
  intros Hu. unfold rne.
  destruct (Z.eq_dec (x mod u) 0) as [E|N].
  - rewrite Z.div_opp_l_z by lia. rewrite Z.mod_opp_l_z by lia. rewrite E.
    simpl. destruct (0 <? u) eqn:E0; lia.
  - rewrite Z.div_opp_l_nz by lia. rewrite Z.mod_opp_l_nz by lia.
    assert (Hm := Z.mod_pos_bound x u Hu).
    assert (Hev : Z.even (- (x / u) - 1) = negb (Z.even (x / u))).
    { replace (- (x / u) - 1) with (- (Z.succ (x / u))) by lia.
      rewrite Z.even_opp, Z.even_succ, <- Z.negb_even. reflexivity. }
    rewrite Hev.
    destruct (2 * (u - x mod u) <? u) eqn:E1; destruct (2 * (x mod u) <? u) eqn:E2;
      destruct (u <? 2 * (u - x mod u)) eqn:E3; destruct (u <? 2 * (x mod u)) eqn:E4;
      destruct (Z.even (x / u)); simpl; lia.
Qed.

Lemma ulp_opp x : ulp (- x) = ulp x.
Proof. unfold ulp. now rewrite Z.abs_opp. Qed.

Lemma round_opp x : round (- x) = - round x.
Proof. unfold round. rewrite ulp_opp. apply rne_opp, ulp_pos. Qed.

(** A power of two that is at least the unit is a multiple of it. *)
Lemma rne_pow2 e n : 0 <= e <= n -> rne (2 ^ n) (2 ^ e) = 2 ^ n.
Proof.
  intros H. replace (2 ^ n) with (2 ^ (n - e) * 2 ^ e) at 1 2.
  - apply rne_mult. apply Z.pow_pos_nonneg; lia.
  - rewrite <- Z.pow_add_r by lia. f_equal. lia.
Qed.

Lemma round_mono_nonneg a b : 0 <= a -> a <= b -> round a <= round b.
Proof.
  intros Ha Hab. unfold round, ulp.
  rewrite !Z.abs_eq by lia.
  assert (Hl : Z.log2 a <= Z.log2 b) by (apply Z.log2_le_mono; lia).
  remember (Z.max 0 (Z.log2 a - 52)) as ea eqn:Hea.
  remember (Z.max 0 (Z.log2 b - 52)) as eb eqn:Heb.
  destruct (Z.eq_dec ea eb) as [E|N].
  - rewrite E. apply rne_mono; [apply Z.pow_pos_nonneg; lia | lia].
  - assert (Hlt : Z.log2 a < Z.log2 b) by lia.
    assert (Hb53 : 53 <= Z.log2 b) by lia.
    assert (Hapos : a < 2 ^ (Z.log2 a + 1)).
    { destruct (Z.eq_dec a 0) as [->|Na]; [simpl; lia|].
      replace (Z.log2 a + 1) with (Z.succ (Z.log2 a)) by lia.
      apply Z.log2_spec. lia. }
    assert (Hb0 : 0 < b).
    { destruct (Z_le_gt_dec b 0) as [Hle|]; [|lia].
      rewrite (Z.log2_nonpos b Hle) in Hb53. lia. }
    assert (Hbpos : 2 ^ Z.log2 b <= b) by (apply Z.log2_spec; lia).
    assert (Hmid : 2 ^ (Z.log2 a + 1) <= 2 ^ Z.log2 b).
    { apply Z.pow_le_mono_r; try lia. }
    assert (H0a : 0 <= Z.log2 a) by apply Z.log2_nonneg.
    transitivity (2 ^ (Z.log2 a + 1)).
    + rewrite <- (rne_pow2 ea (Z.log2 a + 1)) by lia.
      apply rne_mono; [apply Z.pow_pos_nonneg; lia | lia].
    + transitivity (2 ^ Z.log2 b); [exact Hmid|].
      rewrite <- (rne_pow2 eb (Z.log2 b)) at 1 by lia.
      apply rne_mono; [apply Z.pow_pos_nonneg; lia | lia].
Qed.

Lemma round_mono a b : a <= b -> round a <= round b.
Proof.
  intros Hab. destruct (Z_le_gt_dec 0 a) as [Ha|Ha].
  - now apply round_mono_nonneg.
  - destruct (Z_le_gt_dec 0 b) as [Hb|Hb].
    + assert (H1 := round_nonneg b Hb).
      assert (H2 := round_nonneg (- a) ltac:(lia)). rewrite round_opp in H2. lia.
    + assert (H := round_mono_nonneg (- b) (- a) ltac:(lia) ltac:(lia)).
      rewrite !round_opp in H. lia.
Qed.

Lemma rne_is_mult x u : exists k, rne x u = k * u.
Proof.
  unfold rne. destruct (_ <? _); [eauto|]. destruct (_ <? _); [eauto|].
  destruct (Z.even _); eauto.
Qed.

Lemma round_idem_nonneg x : 0 <= x -> round (round x) = round x.
Proof.
  intros Hx. destruct (Z_lt_ge_dec x (2 ^ 53)) as [Hs|Hb].
  - rewrite (round_small x) by (rewrite Z.abs_eq; lia). apply round_small.
    rewrite Z.abs_eq; lia.
  - assert (Hx0 : 0 < x) by (assert (0 < 2 ^ 53) by (apply Z.pow_pos_nonneg; lia); lia).
    assert (Hl : 53 <= Z.log2 x) by (apply Z.log2_le_pow2; lia).
    destruct (Z.log2_spec x Hx0) as [Hlo Hhi].
    set (l := Z.log2 x) in *.
    assert (Hu : ulp x = 2 ^ (l - 52)).
    { unfold ulp. rewrite Z.abs_eq by lia. fold l. f_equal. lia. }
    assert (Hup : 0 < 2 ^ (l - 52)) by (apply Z.pow_pos_nonneg; lia).
    assert (Hy1 : 2 ^ l <= round x).
    { unfold round. rewrite Hu. rewrite <- (rne_pow2 (l - 52) l) at 1 by lia.
      apply rne_mono; lia. }
    assert (Hy2 : round x <= 2 ^ (Z.succ l)).
    { unfold round. rewrite Hu.
      rewrite <- (rne_pow2 (l - 52) (Z.succ l)) at 1 by lia.
      apply rne_mono; lia. }
    destruct (Z.eq_dec (round x) (2 ^ Z.succ l)) as [E|N].
    + rewrite E. unfold round, ulp.
      assert (0 < 2 ^ Z.succ l) by (apply Z.pow_pos_nonneg; lia).
      rewrite Z.abs_eq by lia. rewrite Z.log2_pow2 by lia.
      apply rne_pow2. lia.
    + assert (Hly : Z.log2 (round x) = l).
      { apply Z.log2_unique; lia. }
      assert (Hpos : 0 < 2 ^ l) by (apply Z.pow_pos_nonneg; lia).
      unfold round at 1. unfold ulp. rewrite Z.abs_eq by lia. rewrite Hly.
      replace (Z.max 0 (l - 52)) with (l - 52) by lia.
      destruct (rne_is_mult x (2 ^ (l - 52))) as [k Hk].
      unfold round. rewrite Hu, Hk. now apply rne_mult.
Qed.

Lemma round_idem x : round (round x) = round x.
Proof.
  destruct (Z_le_gt_dec 0 x) as [H|H]; [now apply round_idem_nonneg|].
  assert (Hi := round_idem_nonneg (- x) ltac:(lia)).
  rewrite !round_opp in Hi. lia.
Qed.

Example round_2_53_plus_1 : round (2 ^ 53 + 1) = 2 ^ 53.
Proof. vm_compute. reflexivity. Qed.
Example round_2_53_plus_3 : round (2 ^ 53 + 3) = 2 ^ 53 + 4.
Proof. vm_compute. reflexivity. Qed.
Example round_v29 : round (round (2 ^ 53 + 2) + 1) = 2 ^ 53 + 4.
Proof. vm_compute. reflexivity. Qed.
Example of_int_big : of_int (2 ^ 1024) = None.
Proof. vm_compute. reflexivity. Qed.
Example of_int_edge : of_int (2 ^ 1024 - 2 ^ 970) = None.
Proof. vm_compute. reflexivity. Qed.
Example of_int_edge' : of_int (2 ^ 1024 - 2 ^ 970 - 1) = Some (Fin (2 ^ 1024 - 2 ^ 971)).
Proof. vm_compute. reflexivity. Qed.

(** A double stays put, or grows, when a nonnegative double is added. *)
Lemma add_nonneg_not_less c n f :
  of_int n = Some f -> 0 <= n -> ltb (add (of_Z c) f) (of_Z c) = false.
Proof.
  unfold of_int. intros H Hn.
  destruct (huge <=? Z.abs (round n)) eqn:Eh; [discriminate|]. inversion H; subst f; clear H.
  assert (Hrn := round_nonneg n Hn).
  unfold of_Z.
  destruct (huge <=? Z.abs (round c)) eqn:Ec.
  - simpl. now destruct (round c <? 0).
  - cbn [add]. unfold of_Z.
    assert (Hm : round c <= round (round c + round n)).
    { rewrite <- (round_idem c) at 1. apply round_mono. lia. }
    destruct (huge <=? Z.abs (round (round c + round n))) eqn:Es; cbn [ltb].
    + apply Z.leb_le in Es. apply Z.leb_gt in Ec.
      destruct (round (round c + round n) <? 0) eqn:E0; [|reflexivity].
      apply Z.ltb_lt in E0. lia.
    + apply Z.ltb_ge. exact Hm.
Qed.

(** Below [2^53] the arithmetic of doubles is exact. *)
Lemma of_Z_small x : Z.abs x < 2 ^ 53 -> of_Z x = Fin x.
Proof.
  intros H. unfold of_Z. rewrite (round_small x H).
  assert (Hh : 2 ^ 53 < huge) by (vm_compute; reflexivity).
  destruct (huge <=? Z.abs x) eqn:E; [apply Z.leb_le in E; lia | reflexivity].
Qed.

Lemma of_int_small x : Z.abs x < 2 ^ 53 -> of_int x = Some (Fin x).
Proof.
  intros H. unfold of_int. rewrite (round_small x H).
  assert (Hh : 2 ^ 53 < huge) by (vm_compute; reflexivity).
  destruct (huge <=? Z.abs x) eqn:E; [apply Z.leb_le in E; lia | reflexivity].
Qed.

End DoubleFacts.

(** ** Dicts and the pruning loop *)

Section CacheFacts.

Variable now : Z.

Lemma lookup_set_same k v d : Py.lookup k (Py.set k v d) = Some v.
Proof.
  induction d as [|[k' v'] d IH]; simpl.
  - now rewrite String.eqb_refl.
  - destruct (String.eqb k k') eqn:E; simpl; rewrite E; auto.
Qed.

Lemma lookup_set_other k k' v d :
  String.eqb k' k = false -> Py.lookup k' (Py.set k v d) = Py.lookup k' d.
Proof.
  intros Hne. induction d as [|[k0 v0] d IH]; simpl.
  - now rewrite Hne.
  - destruct (String.eqb k k0) eqn:E; simpl.
    + apply String.eqb_eq in E; subst k0. now rewrite Hne.
    + now rewrite IH.
Qed.

Lemma lookup_del_same k d : Py.lookup k (Py.del k d) = None.
Proof.
  induction d as [|[k' v'] d IH]; simpl; auto.
  destruct (String.eqb k k') eqn:E; simpl; auto. now rewrite E.
Qed.

Lemma lookup_del_other k k' d :
  String.eqb k' k = false -> Py.lookup k' (Py.del k d) = Py.lookup k' d.
Proof.
  intros Hne. induction d as [|[k0 v0] d IH]; simpl; auto.
  destruct (String.eqb k k0) eqn:E; simpl.
  - apply String.eqb_eq in E; subst k0. now rewrite Hne.
  - now rewrite IH.
Qed.

Lemma lookup_keys k d : Py.lookup k d <> None -> In k (Py.keys d).
Proof.
  induction d as [|[k' v'] d IH]; simpl; [congruence|].
  destruct (String.eqb k k') eqn:E.
  - apply String.eqb_eq in E. auto.
  - auto.
Qed.

Lemma mem_In k ks : mem k ks = true <-> In k ks.
Proof.
  unfold mem. rewrite existsb_exists. split.
  - intros [x [Hin E]]. apply String.eqb_eq in E. now subst.
  - intros H. exists k. split; auto. apply String.eqb_refl.
Qed.

Lemma kept_null : kept now JNull = true.
Proof. reflexivity. Qed.

(** The loop leaves a store alone when every key it visits is kept. *)
Lemma prune_kept ks d ch :
  (forall k, In k ks -> kept now (Py.dget k d JNull) = true) ->
  prune now ks d ch = Ok (d, ch).
Proof.
  induction ks as [|k ks IH]; intros H; simpl; auto.
  assert (Hk := H k (or_introl eq_refl)). unfold kept in Hk.
  destruct (negb (Py.truthy (Py.dget k d JNull))).
  - apply IH. intros; apply H; now right.
  - destruct (expired now (Py.dget k d JNull)) as [[|]|]; try discriminate.
    apply IH. intros; apply H; now right.
Qed.

(** What a successful run of the loop leaves bound. *)
Lemma prune_lookup ks : forall d ch d' ch',
  prune now ks d ch = Ok (d', ch') ->
  forall k,
    Py.lookup k d' =
      if mem k ks && negb (kept now (Py.dget k d JNull))
      then None else Py.lookup k d.
Proof.
  induction ks as [|k0 ks IH]; intros d ch d' ch' H k; simpl in H.
  - inversion H; subst. reflexivity.
  - unfold mem; simpl. fold (mem k ks).
    destruct (negb (Py.truthy (Py.dget k0 d JNull))) eqn:Et.
    + rewrite (IH _ _ _ _ H k).
      destruct (String.eqb k k0) eqn:E; simpl; auto.
      apply String.eqb_eq in E; subst k0.
      unfold kept. rewrite Et. simpl. now rewrite andb_false_r.
    + destruct (expired now (Py.dget k0 d JNull)) as [[|]|] eqn:Ex; try discriminate.
      * rewrite (IH _ _ _ _ H k).
        destruct (String.eqb k k0) eqn:E; simpl.
        -- apply String.eqb_eq in E; subst k0.
           unfold Py.dget at 1. rewrite lookup_del_same.
           rewrite kept_null, andb_false_r.
           unfold kept. now rewrite Et, Ex.
        -- unfold Py.dget. now rewrite (lookup_del_other k0 k d E).
      * rewrite (IH _ _ _ _ H k).
        destruct (String.eqb k k0) eqn:E; simpl; auto.
        apply String.eqb_eq in E; subst k0.
        unfold kept. rewrite Et, Ex. simpl. now rewrite andb_false_r.
Qed.

(** The flag stays down only when nothing was deleted. *)
Lemma prune_unchanged ks : forall d ch d',
  prune now ks d ch = Ok (d', false) -> d' = d /\ ch = false.
Proof.
  induction ks as [|k0 ks IH]; intros d ch d' H; simpl in H.
  - inversion H; auto.
  - destruct (negb (Py.truthy (Py.dget k0 d JNull))); [now apply IH|].
    destruct (expired now (Py.dget k0 d JNull)) as [[|]|]; try discriminate.
    + apply IH in H. destruct H; discriminate.
    + now apply IH.
Qed.

(** After a successful run every key of the result is kept. *)
Lemma prune_all_kept d d' ch' :
  prune now (Py.keys d) d false = Ok (d', ch') ->
  forall k, kept now (Py.dget k d' JNull) = true.
Proof.
  intros H k. unfold Py.dget. rewrite (prune_lookup _ _ _ _ _ H k).
  destruct (mem k (Py.keys d)) eqn:Em; simpl.
  - destruct (kept now (Py.dget k d JNull)) eqn:Ek; simpl; auto.
  - destruct (Py.lookup k d) eqn:El; auto.
    assert (In k (Py.keys d)) by (apply lookup_keys; congruence).
    apply mem_In in H0. congruence.
Qed.



(** Whether the expiry test raises does not depend on the time. *)
Lemma expired_typed e :
  Py.truthy e = true -> entry_typed e = true -> exists b, expired now e = Ok b.
Proof.
  unfold entry_typed. intros Ht. rewrite Ht. simpl.
  unfold expired.
  destruct (Py.get e "ts" (JNum 0)); [|discriminate].
  destruct (Py.get e "ttl" (JNum CACHE_TTL)); [|discriminate].
  destruct (Py.add a a0); [|discriminate].
  unfold Py.lt_num. destruct (Py.as_num a1) as [[|]|]; [eauto | eauto | discriminate].
Qed.


Lemma expired_entry ts ttl v :
  expired now (mk_entry ts ttl v)
  = match Double.of_int ttl with
    | Some f => Ok (Double.ltb (Double.add (Double.of_Z ts) f) (Double.of_Z now))
    | None => Raise OverflowError
    end.
Proof.
  unfold expired, mk_entry, Py.get, Py.dget, Py.lookup.
  cbn [String.eqb Ascii.eqb Bool.eqb]. unfold Py.add, Py.as_num.
  destruct (Double.of_int ttl); reflexivity.
Qed.

Lemma kept_entry ts ttl v :
  kept now (mk_entry ts ttl v)
  = match Double.of_int ttl with
    | Some f => negb (Double.ltb (Double.add (Double.of_Z ts) f) (Double.of_Z now))
    | None => false
    end.
Proof.
  unfold kept. change (Py.truthy (mk_entry ts ttl v)) with true. cbn [negb].
  rewrite expired_entry.
  destruct (Double.of_int ttl); [|reflexivity].
  now destruct (Double.ltb _ _).
Qed.

(** An entry is typed as soon as its ttl converts to a float. *)
Lemma entry_typed_mk ts ttl v :
  Double.of_int ttl <> None -> entry_typed (mk_entry ts ttl v) = true.
Proof.
  intros H. unfold entry_typed. change (Py.truthy (mk_entry ts ttl v)) with true.
  cbn [negb orb]. unfold expired, mk_entry, Py.get, Py.dget, Py.lookup.
  cbn [String.eqb Ascii.eqb Bool.eqb]. unfold Py.add, Py.as_num.
  destruct (Double.of_int ttl); [reflexivity | contradiction].
Qed.

End CacheFacts.

(** An entry with a nonnegative ttl is live at the time it is written. *)
Lemma kept_entry_fresh c ttl v :
  Double.of_int ttl <> None -> 0 <= ttl -> kept c (mk_entry c ttl v) = true.
Proof.
  intros Hc Hn. rewrite kept_entry.
  destruct (Double.of_int ttl) as [f|] eqn:E; [|contradiction].
  now rewrite (DoubleFacts.add_nonneg_not_less c ttl f E Hn).
Qed.

(** Where the arithmetic of doubles is exact, so is the expiry test. *)
Lemma kept_entry_exact now ts ttl v :
  exact_time ts -> exact_time ttl -> exact_time (ts + ttl) -> exact_time now ->
  kept now (mk_entry ts ttl v) = negb (ts + ttl <? now).
Proof.
  unfold exact_time. intros H1 H2 H3 H4. rewrite kept_entry.
  rewrite (DoubleFacts.of_int_small ttl H2), (DoubleFacts.of_Z_small ts H1),
    (DoubleFacts.of_Z_small now H4).
  cbn [Double.add]. rewrite (DoubleFacts.of_Z_small (ts + ttl) H3). reflexivity.
Qed.

Lemma of_int_exact ttl : exact_time ttl -> Double.of_int ttl <> None.
Proof. intros H. rewrite (DoubleFacts.of_int_small ttl H). discriminate. Qed.

(** ** [_load_cache], [_cache_get] and [_cache_set] in closed form *)

Lemma load_cache_eq w :
  _load_cache w = (Ok (fst (load_result w)), snd (load_result w)).
Proof.
  unfold _load_cache, load_result, try_except, bind, cache_exists, json_load,
    time_time, lift, ret, raise, json_dump.
  destruct (cache_file w) as [| |j] eqn:E; simpl; rewrite ?E; simpl; auto.
  destruct j; simpl; auto.
  destruct (prune (clock w) (Py.keys kvs) kvs false) as [[d' [|]]|]; simpl; auto.
  destruct (fs_writable w); reflexivity.
Qed.

Lemma cache_get_eq key w :
  _cache_get key w =
    (let e := Py.dget key (fst (load_result w)) JNull in
     if negb (Py.truthy e) then Ok JNull else Py.get e "value" JNull,
     snd (load_result w)).
Proof.
  unfold _cache_get, bind. rewrite load_cache_eq. simpl.
  destruct (negb (Py.truthy (Py.dget key (fst (load_result w)) JNull))); reflexivity.
Qed.

Lemma cache_set_eq key value ttl w :
  _cache_set key value ttl w =
    (Ok tt,
     let w1 := snd (load_result w) in
     if fs_writable w1
     then with_cache_file
            (Content (JObj (Py.set key (mk_entry (clock w1) ttl value) (fst (load_result w))))) w1
     else w1).
Proof.
  unfold _cache_set, bind. rewrite load_cache_eq. unfold time_time, _save_cache,
    try_except, json_dump, ret.
  destruct (fs_writable (snd (load_result w))); reflexivity.
Qed.

(** Loading touches nothing but the cache file. *)
Lemma load_result_frame w :
  let w1 := snd (load_result w) in
  fs_writable w1 = fs_writable w /\ clock w1 = clock w /\ server w1 = server w
  /\ http_log w1 = http_log w /\ user w1 = user w.
Proof.
  unfold load_result. destruct (cache_file w) as [| |[]]; simpl; auto 6.
  destruct (prune _ _ _ _) as [[d' [|]]|]; simpl; auto 6.
  destruct (fs_writable w) eqn:E; simpl; auto 6.
Qed.

(** Every value of a loaded store is kept at the time of the load. *)
Lemma load_result_kept w k :
  kept (clock w) (Py.dget k (fst (load_result w)) JNull) = true.
Proof.
  unfold load_result. destruct (cache_file w) as [| |[]]; simpl; auto.
  destruct (prune _ _ _ _) as [[d' ch]|] eqn:E; simpl; auto.
  assert (H := prune_all_kept _ _ _ _ E k).
  destruct ch; simpl; auto. destruct (fs_writable w); simpl; auto.
Qed.

(** A store whose values are all kept is loaded as it is. *)
Lemma load_result_stable w d :
  cache_file w = Content (JObj d) ->
  (forall k, kept (clock w) (Py.dget k d JNull) = true) ->
  load_result w = (d, w).
Proof.
  intros Hf Hk. unfold load_result. rewrite Hf.
  rewrite prune_kept; auto.
Qed.

Lemma with_cache_file_same w : with_cache_file (cache_file w) w = w.
Proof. now destruct w. Qed.

(** A load never brings a key back, and returns what the file binds or nothing. *)
Lemma load_result_lookup w d k :
  cache_file w = Content (JObj d) ->
  Py.lookup k (fst (load_result w)) = None
  \/ Py.lookup k (fst (load_result w)) = Py.lookup k d.
Proof.
  intros Hf. unfold load_result. rewrite Hf.
  destruct (prune _ _ _ _) as [[d' ch]|] eqn:E; simpl; auto.
  assert (H := prune_lookup _ _ _ _ _ _ E k).
  assert (Hd : Py.lookup k d' = None \/ Py.lookup k d' = Py.lookup k d).
  { rewrite H. destruct (_ && _); auto. }
  destruct ch; simpl; auto. destruct (fs_writable w); simpl; auto.
Qed.


(** ** The claims on the cache *)

(** C1 (as stated, refuted): with a negative ttl the entry is already
    expired when it is read back, so [_cache_get] reports absent right
    after [_cache_set]. *)
Lemma cache_roundtrip_negative_ttl : ~ cache_roundtrip w_fresh "k" (JNum 1) (-1).
Proof.
  intros [w1 [w2 [Hs Hg]]].
  vm_compute in Hs. inversion Hs; subst w1; clear Hs.
  vm_compute in Hg. discriminate.
Qed.

(** C1 (amended): for every key, value and ttl >= 0 that is not too
    large to be converted to a float, when the cache file can be written
    and no time passes, [_cache_set] followed by [_cache_get] on the
    same key returns the stored value unchanged. *)
Theorem cache_set_get_roundtrip (w : world) (key : string) (value : json) (ttl : Z) :
  fs_writable w = true -> 0 <= ttl -> Double.of_int ttl <> None ->
  cache_roundtrip w key value ttl.
Proof.
  intros Hw Httl Hconv. unfold cache_roundtrip.
  rewrite cache_set_eq. cbv zeta.
  destruct (load_result_frame w) as [Hfw [Hck _]]. cbv zeta in Hfw, Hck.
  rewrite Hfw, Hw.
  set (c := fst (load_result w)). set (w1 := snd (load_result w)) in *.
  set (c' := Py.set key (mk_entry (clock w1) ttl value) c).
  eexists. exists (with_cache_file (Content (JObj c')) w1). split; [reflexivity|].
  rewrite cache_get_eq.
  assert (Hk : forall k, kept (clock w1) (Py.dget k c' JNull) = true).
  { intros k. unfold Py.dget, c'. destruct (String.eqb k key) eqn:E.
    - apply String.eqb_eq in E; subst k. rewrite lookup_set_same.
      now apply kept_entry_fresh.
    - rewrite lookup_set_other by exact E. rewrite Hck. apply (load_result_kept w k). }
  rewrite (load_result_stable (with_cache_file (Content (JObj c')) w1) c' eq_refl Hk).
  simpl fst. simpl snd. unfold Py.dget, c'. rewrite lookup_set_same. reflexivity.
Qed.

Lemma cache_set_get_roundtrip_witness :
  fs_writable w_fresh = true /\ 0 <= 3600 /\ Double.of_int 3600 <> None
  /\ cache_roundtrip w_fresh "movie:603" (JObj [("title", JStr "The Matrix")]) 3600.
Proof.
  split; [reflexivity|]. split; [lia|]. split; [vm_compute; discriminate|].
  apply (cache_set_get_roundtrip w_fresh "movie:603"); [reflexivity | lia |].
  vm_compute. discriminate.
Defined.

(** A ttl too large to be converted to a float makes the expiry test
    raise [OverflowError] on the new entry; the load then gives up and
    [_cache_get] reports absent. *)
Lemma cache_roundtrip_overflowing_ttl : ~ cache_roundtrip w_fresh "k" (JNum 1) (2 ^ 1024).
Proof.
  intros [w1 [w2 [Hs Hg]]].
  vm_compute in Hs. inversion Hs; subst w1; clear Hs.
  vm_compute in Hg. discriminate.
Qed.





(** C10: with a writable cache file, after [_cache_set key None] the call
    [_cache_get key] returns [None], which is also what it returns for a
    key that was never stored: a cached null and a miss look the same. *)
Theorem cache_null_is_a_miss (w : world) (key : string) (ttl : Z) :
  fs_writable w = true ->
  exists w1 w2,
    _cache_set key JNull ttl w = (Ok tt, w1)
    /\ _cache_get key w1 = (Ok JNull, w2)
    /\ _cache_get key (with_cache_file Missing w) = (Ok JNull, with_cache_file Missing w).
Proof.
  intros Hw. rewrite cache_set_eq. cbv zeta.
  destruct (load_result_frame w) as [Hfw _]. cbv zeta in Hfw. rewrite Hfw, Hw.
  set (c := fst (load_result w)). set (w1 := snd (load_result w)) in *.
  set (c' := Py.set key (mk_entry (clock w1) ttl JNull) c).
  eexists. eexists. split; [reflexivity|]. split; [|reflexivity].
  rewrite cache_get_eq. cbv zeta. f_equal.
  destruct (load_result_lookup (with_cache_file (Content (JObj c')) w1) c' key eq_refl)
    as [Hn|Hn]; unfold Py.dget; rewrite Hn.
  - reflexivity.
  - unfold c'. rewrite lookup_set_same. reflexivity.
Qed.

Lemma cache_null_is_a_miss_witness :
  fs_writable w_fresh = true
  /\ exists w1 w2,
      _cache_set "search:movie:zzzz:1" JNull 3600 w_fresh = (Ok tt, w1)
      /\ _cache_get "search:movie:zzzz:1" w1 = (Ok JNull, w2)
      /\ _cache_get "search:movie:zzzz:1" (with_cache_file Missing w_fresh)
         = (Ok JNull, with_cache_file Missing w_fresh).
Proof.
  split; [reflexivity|].
  apply (cache_null_is_a_miss w_fresh "search:movie:zzzz:1" 3600). reflexivity.
Defined.

(** ** The metadata client *)

Lemma cache_get_frame key w r w1 :
  _cache_get key w = (r, w1) ->
  server w1 = server w /\ http_log w1 = http_log w /\ fs_writable w1 = fs_writable w
  /\ clock w1 = clock w /\ user w1 = user w.
Proof.
  rewrite cache_get_eq. intros H. inversion H; subst.
  destruct (load_result_frame w) as [? [? [? [? ?]]]]. auto 6.
Qed.

Lemma cache_set_frame key value ttl w :
  exists w1, _cache_set key value ttl w = (Ok tt, w1)
             /\ server w1 = server w /\ http_log w1 = http_log w /\ user w1 = user w.
Proof.
  rewrite cache_set_eq. eexists. split; [reflexivity|].
  destruct (load_result_frame w) as [? [? [? [? ?]]]]. cbv zeta in *.
  destruct (fs_writable (snd (load_result w))); simpl; auto.
Qed.

(** A request answered with status 200 and a JSON body returns that body. *)
Lemma req_ok k path params w r j :
  k <> "" ->
  server w (tmdb_request k path params) = Reply r ->
  status_code r = 200 ->
  json_body r = Some j ->
  _req (Some k) path params w = (Ok j, sent (tmdb_request k path params) w).
Proof.
  intros Hk Hs H200 Hj. unfold _req. change (of_opt (Some k)) with (JStr k).
  assert (Ht : Py.truthy (JStr k) = true).
  { simpl. apply negb_true_iff. now apply String.eqb_neq. }
  rewrite Ht. cbn [negb].
  unfold sent, tmdb_request in *. unfold bind, try_except, http. cbv beta zeta.
  rewrite Hs. cbv beta iota. rewrite H200. cbn [negb Z.eqb Pos.eqb].
  unfold resp_json. rewrite Hj. reflexivity.
Qed.

(** Without a key, [_req] fails before anything is sent. *)
Lemma req_no_key key path params w :
  Py.truthy (of_opt key) = false ->
  _req key path params w = (Raise (TMDbError "TMDB_API_KEY not set"), w).
Proof. intros H. unfold _req. rewrite H. reflexivity. Qed.

Ltac break_if :=
  match goal with
  | |- context [if ?b then _ else _] => destruct b eqn:?
  end.

(** One well-formed raw record is normalized without raising. *)
Lemma trending_item_ok mt r :
  trending_record_ok r = true ->
  exists item, trending_item mt r = Ok (Some item) /\ trending_normalized r item.
Proof.
  destruct r as [| | | | |d|]; try discriminate. intros Hok.
  unfold trending_record_ok in Hok.
  unfold trending_item, trending_normalized, trending_poster, or_else, Py.or_,
    Py.get, Py.getitem, rbind, field.
  unfold Py.dget in Hok.
  assert (Hp : Py.dget "poster_path" d JNull
               = match Py.lookup "poster_path" d with Some v => v | None => JNull end)
    by reflexivity.
  destruct (Py.lookup "poster_path" d) as [[| | |p| | |]|]; try discriminate;
    rewrite Hp; cbn [Py.truthy]; try destruct (String.eqb p "") eqn:?;
    cbn [negb]; repeat break_if;
    (eexists; split; [reflexivity|]; cbn; auto).
Qed.

(** The loop of [get_trending] normalizes the records one by one, in order. *)
Lemma trending_items_ok mt rs :
  forallb trending_record_ok rs = true ->
  exists items,
    collect (trending_item mt) rs = Ok items /\ Forall2 trending_normalized rs items.
Proof.
  induction rs as [|r rs IH]; simpl; intros H.
  - exists []. split; auto.
  - apply andb_prop in H as [Hr Hrs].
    destruct (trending_item_ok mt r Hr) as [item [Hi Hn]].
    destruct (IH Hrs) as [items [Hc Hf]].
    exists (item :: items). rewrite Hi. simpl. rewrite Hc. simpl. auto.
Qed.

(** C3: [get_trending] rejects a [media_type] outside {all, movie, tv} or
    a [time_window] outside {day, week} with a [ValueError] and leaves the
    world, hence the request log, untouched; for valid arguments, when the
    provider answers 200 with well-formed records, it sends one request
    and returns one normalized item per record, in the provider's order,
    each with the derived absolute poster URL and the raw record. *)
Theorem get_trending_spec (key : option string) (media_type time_window : string)
    (page : Z) (w : world) :
  (valid_media_type media_type && valid_time_window time_window = false ->
   exists msg,
     get_trending key media_type time_window page w = (Raise (ValueError msg), w))
  /\ (valid_media_type media_type && valid_time_window time_window = true ->
      forall k r data rs,
        key = Some k -> k <> "" ->
        let rq := tmdb_request k ("/trending/" ++ media_type ++ "/" ++ time_window)
                    [("page", JNum page)] in
        server w rq = Reply r ->
        status_code r = 200 ->
        json_body r = Some (JObj data) ->
        Py.dget "results" data (JList []) = JList rs ->
        forallb trending_record_ok rs = true ->
        exists items,
          get_trending key media_type time_window page w = (Ok (JList items), sent rq w)
          /\ Forall2 trending_normalized rs items).
Proof.
  unfold valid_media_type, valid_time_window, get_trending. split.
  - intros H.
    destruct (negb ((media_type =? "all")%string || (media_type =? "movie")%string
                    || (media_type =? "tv")%string)) eqn:E1;
      [unfold raise; eauto|].
    apply (proj1 (negb_false_iff _)) in E1. rewrite E1 in H. simpl in H. rewrite H.
    cbn [negb]. unfold raise. eauto.
  - intros H k r data rs -> Hk Hs H200 Hj Hres Hok.
    apply andb_prop in H as [H1 H2]. rewrite H1, H2. cbn [negb].
    destruct (trending_items_ok media_type rs Hok) as [items [Hc Hf]].
    exists items. split; [|exact Hf].
    unfold bind. rewrite (req_ok k _ _ w r (JObj data) Hk Hs H200 Hj).
    unfold lift, ret, Py.get. rewrite Hres. simpl Py.iter. cbv iota beta.
    rewrite Hc. reflexivity.
Qed.

Lemma get_trending_spec_witness :
  (exists msg,
     get_trending (Some "key") "bogus" "week" 1 w_fresh = (Raise (ValueError msg), w_fresh))
  /\ (exists items,
        get_trending (Some "key") "all" "week" 1 (w_serving (results_body trending_rows))
        = (Ok (JList items),
           sent (tmdb_request "key" "/trending/all/week" [("page", JNum 1)])
                (w_serving (results_body trending_rows)))
        /\ Forall2 trending_normalized trending_rows items).
Proof.
  split.
  - apply (proj1 (get_trending_spec (Some "key") "bogus" "week" 1 w_fresh)). reflexivity.
  - apply (proj2 (get_trending_spec (Some "key") "all" "week" 1
                    (w_serving (results_body trending_rows))) eq_refl
             "key" (mkResponse 200 "" (Some (results_body trending_rows)))
             [("results", JList trending_rows)] trending_rows eq_refl);
      try reflexivity. discriminate.
Defined.

Lemma bind_ok {A B} (m : M A) (k : A -> M B) w a w1 :
  m w = (Ok a, w1) -> bind m k w = k a w1.
Proof. intros H. unfold bind. now rewrite H. Qed.

Lemma eq_str_true x s : eq_str x s = true -> x = JStr s.
Proof.
  destruct x; simpl; try discriminate. intros H. apply String.eqb_eq in H. now subst.
Qed.

(** One raw item that is an object: dropped unless it is a movie or a tv show. *)
Lemma multi_item_ok it :
  is_obj it = true ->
  if is_movie_or_tv it
  then exists item, multi_item it = Ok (Some item)
                    /\ multi_normalized it item /\ type_movie_or_tv item
  else multi_item it = Ok None.
Proof.
  destruct it as [| | | | |d|]; try discriminate. intros _.
  unfold is_movie_or_tv, multi_item, multi_normalized, search_normalized,
    type_movie_or_tv, or_else, Py.get, rbind, field.
  destruct (eq_str (Py.dget "media_type" d JNull) "movie") eqn:Em.
  - apply eq_str_true in Em. cbn [orb negb]. repeat break_if;
      (eexists; split; [reflexivity|]; cbn; auto).
  - destruct (eq_str (Py.dget "media_type" d JNull) "tv") eqn:Et; cbn [orb negb].
    + apply eq_str_true in Et. repeat break_if;
        (eexists; split; [reflexivity|]; cbn; auto).
    + reflexivity.
Qed.

Lemma multi_items_ok its :
  forallb is_obj its = true ->
  exists results,
    collect multi_item its = Ok results
    /\ Forall2 multi_normalized (filter is_movie_or_tv its) results
    /\ Forall type_movie_or_tv results.
Proof.
  induction its as [|it its IH]; simpl; intros H.
  - exists []. auto.
  - apply andb_prop in H as [Hi His].
    destruct (IH His) as [rs [Hc [Hf Ht]]].
    assert (Hm := multi_item_ok it Hi).
    destruct (is_movie_or_tv it).
    + destruct Hm as [item [Hm [Hn Hty]]].
      exists (item :: rs). rewrite Hm. simpl. rewrite Hc. simpl. auto.
    + exists rs. rewrite Hm. simpl. rewrite Hc. simpl. auto.
Qed.

(** The fetch-and-normalize part of either branch of [search_multi]. *)
Lemma search_branch_ok k path params (body : json -> result (option json))
    w r data its results :
  k <> "" ->
  server w (tmdb_request k path params) = Reply r ->
  status_code r = 200 ->
  json_body r = Some (JObj data) ->
  Py.dget "results" data (JList []) = JList its ->
  collect body its = Ok results ->
  (data <- _req (Some k) path params ;;
   items <- lift (Py.get data "results" (JList [])) ;;
   its <- lift (Py.iter items) ;;
   lift (collect body its)) w
  = (Ok results, sent (tmdb_request k path params) w).
Proof.
  intros Hk Hs H200 Hj Hres Hc.
  erewrite bind_ok by (apply (req_ok k path params w r (JObj data) Hk Hs H200 Hj)).
  unfold bind, lift, Py.get. rewrite Hres. simpl Py.iter. cbv iota beta.
  rewrite Hc. reflexivity.
Qed.

(** A run of [search_multi] through the combined endpoint, which serves
    the kinds ["multi"] and ["both"]. *)
Lemma search_combined_run (query kind : string) (page : Z)
    (w w1 : world) (k : string) (r : response) (data : dict) (its : list json) :
  String.eqb kind "multi" || String.eqb kind "both" = true ->
  k <> "" ->
  _cache_get (search_key query kind page) w = (Ok JNull, w1) ->
  server w (tmdb_request k "/search/multi" (search_params query page)) = Reply r ->
  status_code r = 200 ->
  json_body r = Some (JObj data) ->
  Py.dget "results" data (JList []) = JList its ->
  forallb is_obj its = true ->
  exists results w',
    search_multi (Some k) query kind page w = (Ok (JList results), w')
    /\ http_log w' = (http_log w
                      ++ [tmdb_request k "/search/multi" (search_params query page)])%list
    /\ Forall2 multi_normalized (filter is_movie_or_tv its) results
    /\ Forall type_movie_or_tv results.
Proof.
  intros Hkind Hk Hget Hs H200 Hj Hres Hobj.
  destruct (cache_get_frame _ _ _ _ Hget) as [Hsv [Hlog _]].
  destruct (multi_items_ok its Hobj) as [results [Hc [Hf Ht]]].
  set (rq := tmdb_request k "/search/multi" (search_params query page)) in *.
  destruct (cache_set_frame (search_key query kind page) (JList results) CACHE_TTL
              (sent rq w1)) as [w2 [Hset [_ [Hlog2 _]]]].
  rewrite <- Hsv in Hs.
  assert (Hbr := search_branch_ok k "/search/multi" (search_params query page)
                   multi_item w1 r data its results Hk Hs H200 Hj Hres Hc).
  fold rq in Hbr.
  exists results, w2. split; [|split; [|split]]; auto.
  - unfold search_multi. rewrite (bind_ok _ _ _ _ _ Hget). cbv iota beta.
    rewrite Hkind. rewrite (bind_ok _ _ _ _ _ Hbr).
    rewrite (bind_ok _ _ _ _ _ Hset). reflexivity.
  - rewrite Hlog2. simpl. now rewrite Hlog.
Qed.

(** C4: on a cache miss, whatever well-formed answer the provider gives
    to the combined search, [search_multi] with [kind = "multi"] returns
    exactly the normalized movie and tv items, in the provider's order:
    items of other media types are dropped. *)
Theorem search_multi_filters (key : option string) (query : string) (page : Z)
    (w w1 : world) (k : string) (r : response) (data : dict) (its : list json) :
  key = Some k -> k <> "" ->
  _cache_get (search_key query "multi" page) w = (Ok JNull, w1) ->
  server w (tmdb_request k "/search/multi" (search_params query page)) = Reply r ->
  status_code r = 200 ->
  json_body r = Some (JObj data) ->
  Py.dget "results" data (JList []) = JList its ->
  forallb is_obj its = true ->
  exists results w',
    search_multi key query "multi" page w = (Ok (JList results), w')
    /\ http_log w' = (http_log w
                      ++ [tmdb_request k "/search/multi" (search_params query page)])%list
    /\ Forall2 multi_normalized (filter is_movie_or_tv its) results
    /\ Forall type_movie_or_tv results.
Proof.
  intros -> Hk Hget Hs H200 Hj Hres Hobj.
  now apply (search_combined_run query "multi" page w w1 k r data its).
Qed.

Lemma search_multi_filters_witness :
  exists results w',
    search_multi (Some "key") "matrix" "multi" 1 (w_serving (results_body search_rows))
    = (Ok (JList results), w')
    /\ http_log w' = (http_log (w_serving (results_body search_rows))
                      ++ [tmdb_request "key" "/search/multi"
                            (search_params "matrix" 1)])%list
    /\ Forall2 multi_normalized (filter is_movie_or_tv search_rows) results
    /\ Forall type_movie_or_tv results.
Proof.
  apply (search_multi_filters (Some "key") "matrix" 1
           (w_serving (results_body search_rows)) (w_serving (results_body search_rows))
           "key" (mkResponse 200 "" (Some (results_body search_rows)))
           [("results", JList search_rows)] search_rows eq_refl);
    try reflexivity. discriminate.
Defined.

Lemma single_item_ok kind it :
  is_obj it = true ->
  exists item, single_item kind it = Ok (Some item)
               /\ search_normalized (JStr kind) it item.
Proof.
  destruct it as [| | | | |d|]; try discriminate. intros _.
  unfold single_item, search_normalized, or_else, Py.get, rbind, field.
  repeat break_if; (eexists; split; [reflexivity|]; cbn; auto).
Qed.

Lemma single_items_ok kind its :
  forallb is_obj its = true ->
  exists results,
    collect (single_item kind) its = Ok results
    /\ Forall2 (search_normalized (JStr kind)) its results.
Proof.
  induction its as [|it its IH]; simpl; intros H.
  - exists []. auto.
  - apply andb_prop in H as [Hi His].
    destruct (IH His) as [rs [Hc Hf]].
    destruct (single_item_ok kind it Hi) as [item [Hm Hn]].
    exists (item :: rs). rewrite Hm. simpl. rewrite Hc. simpl. auto.
Qed.

(** C8 (as stated, refuted): the kind ["both"], outside {movie, tv, multi},
    is not rejected; the combined search endpoint is queried and the call
    returns normally. *)
Lemma search_both_not_rejected :
  exists results w',
    search_multi (Some "key") "matrix" "both" 1 (w_serving (results_body search_rows))
    = (Ok (JList results), w')
    /\ http_log w' = [tmdb_request "key" "/search/multi" (search_params "matrix" 1)].
Proof.
  eexists. eexists. split.
  - vm_compute. reflexivity.
  - reflexivity.
Qed.

(** C8 (amended): [search_multi] accepts the kind ["both"] next to
    {movie, tv, multi} and serves it exactly like ["multi"]: on a cache
    miss and a well-formed answer it raises nothing, sends one request to
    the combined search endpoint and returns the normalized movie and tv
    items in the provider's order. *)
Theorem search_both_served_as_multi (key : option string) (query : string) (page : Z)
    (w w1 : world) (k : string) (r : response) (data : dict) (its : list json) :
  key = Some k -> k <> "" ->
  _cache_get (search_key query "both" page) w = (Ok JNull, w1) ->
  server w (tmdb_request k "/search/multi" (search_params query page)) = Reply r ->
  status_code r = 200 ->
  json_body r = Some (JObj data) ->
  Py.dget "results" data (JList []) = JList its ->
  forallb is_obj its = true ->
  exists results w',
    search_multi key query "both" page w = (Ok (JList results), w')
    /\ http_log w' = (http_log w
                      ++ [tmdb_request k "/search/multi" (search_params query page)])%list
    /\ Forall2 multi_normalized (filter is_movie_or_tv its) results
    /\ Forall type_movie_or_tv results.
Proof.
  intros -> Hk Hget Hs H200 Hj Hres Hobj.
  now apply (search_combined_run query "both" page w w1 k r data its).
Qed.

Lemma search_both_served_as_multi_witness :
  exists results w',
    search_multi (Some "key") "matrix" "both" 1 (w_serving (results_body search_rows))
    = (Ok (JList results), w')
    /\ http_log w' = (http_log (w_serving (results_body search_rows))
                      ++ [tmdb_request "key" "/search/multi"
                            (search_params "matrix" 1)])%list
    /\ Forall2 multi_normalized (filter is_movie_or_tv search_rows) results
    /\ Forall type_movie_or_tv results.
Proof.
  apply (search_both_served_as_multi (Some "key") "matrix" 1
           (w_serving (results_body search_rows)) (w_serving (results_body search_rows))
           "key" (mkResponse 200 "" (Some (results_body search_rows)))
           [("results", JList search_rows)] search_rows eq_refl);
    try reflexivity. discriminate.
Defined.

(** What the code does with any other kind: a value that is none of
    movie, multi and both is sent to the tv search endpoint, nothing is
    raised, and the items carry the supplied kind as their type. *)
Lemma search_other_kind_uses_tv (query kind : string)
    (page : Z) (w w1 : world) (k : string) (r : response) (data : dict)
    (its : list json) :
  kind <> "movie" -> kind <> "multi" -> kind <> "both" -> k <> "" ->
  _cache_get (search_key query kind page) w = (Ok JNull, w1) ->
  server w (tmdb_request k "/search/tv" (search_params query page)) = Reply r ->
  status_code r = 200 ->
  json_body r = Some (JObj data) ->
  Py.dget "results" data (JList []) = JList its ->
  forallb is_obj its = true ->
  exists results w',
    search_multi (Some k) query kind page w = (Ok (JList results), w')
    /\ http_log w' = (http_log w
                      ++ [tmdb_request k "/search/tv" (search_params query page)])%list
    /\ Forall2 (search_normalized (JStr kind)) its results.
Proof.
  intros Hmovie Hmulti Hboth Hk Hget Hs H200 Hj Hres Hobj.
  destruct (cache_get_frame _ _ _ _ Hget) as [Hsv [Hlog _]].
  rewrite <- Hsv in Hs.
  apply String.eqb_neq in Hmovie, Hmulti, Hboth.
  destruct (single_items_ok kind its Hobj) as [results [Hc Hf]].
  set (rq := tmdb_request k "/search/tv" (search_params query page)) in *.
  assert (Hbr := search_branch_ok k "/search/tv" (search_params query page)
                   (single_item kind) w1 r data its results Hk Hs H200 Hj Hres Hc).
  fold rq in Hbr.
  destruct (cache_set_frame (search_key query kind page) (JList results) CACHE_TTL
              (sent rq w1)) as [w2 [Hset [_ [Hlog2 _]]]].
  exists results, w2. split; [|split]; auto.
  - unfold search_multi. rewrite (bind_ok _ _ _ _ _ Hget). cbv iota beta.
    rewrite Hmulti, Hboth, Hmovie. cbn [orb]. cbv zeta.
    rewrite (bind_ok _ _ _ _ _ Hbr). rewrite (bind_ok _ _ _ _ _ Hset). reflexivity.
  - rewrite Hlog2. simpl. now rewrite Hlog.
Qed.

Example search_bogus_kind :
  exists results w',
    search_multi (Some "key") "matrix" "bogus" 1 (w_serving (results_body search_rows))
    = (Ok (JList results), w')
    /\ http_log w' = [tmdb_request "key" "/search/tv" (search_params "matrix" 1)]
    /\ Forall (fun item => field item "type" = JStr "bogus") results.
Proof.
  eexists. eexists. split; [vm_compute; reflexivity|]. split; [reflexivity|].
  repeat constructor.
Qed.

(** The awards lookup returns in every world: it never raises. *)
Lemma awards_total omdb imdb_id w :
  exists aw w', _get_awards_from_omdb omdb imdb_id w = (Ok aw, w').
Proof.
  unfold _get_awards_from_omdb.
  destruct (negb (Py.truthy imdb_id) || negb (Py.truthy (of_opt omdb))).
  - unfold ret. eauto.
  - unfold try_except, bind, http, resp_json, lift. unfold ret, raise.
    destruct (server w _) as [msg|r]; [cbv beta iota; eauto|].
    destruct (negb (status_code r =? 200)); [cbv beta iota; eauto|].
    destruct (json_body r) as [j|]; [|cbv beta iota; eauto].
    cbv beta iota.
    destruct (Py.get j "Awards" JNull); cbv beta iota; eauto.
Qed.

Lemma awards_eq ok imdb_id w :
  ok <> "" -> Py.truthy imdb_id = true ->
  _get_awards_from_omdb (Some ok) imdb_id w
  = (Ok (awards_of (server w (omdb_request ok imdb_id))), sent (omdb_request ok imdb_id) w).
Proof.
  intros Hk Hid. unfold _get_awards_from_omdb. change (of_opt (Some ok)) with (JStr ok).
  assert (Ht : Py.truthy (JStr ok) = true).
  { simpl. apply negb_true_iff. now apply String.eqb_neq. }
  rewrite Hid, Ht. cbn [negb orb].
  unfold awards_of, sent, omdb_request, try_except, bind, http, resp_json, lift.
  unfold ret, raise.
  destruct (server w _) as [msg|r]; [reflexivity|].
  destruct (status_code r =? 200); cbn [negb]; [|reflexivity].
  destruct (json_body r) as [[]|]; reflexivity.
Qed.

Lemma movie_out_no_awards data out :
  movie_out data = Ok out -> Py.lookup "awards" out = None.
Proof.
  unfold movie_out. destruct data; try discriminate.
  unfold Py.get at 1 2 3 4 5. unfold rbind at 1 2 3 4 5.
  destruct (genre_names (JObj kvs)); [|discriminate].
  unfold Py.get at 1 2 3 4. unfold rbind at 1 2 3 4 5.
  destruct (Py.get _ "imdb_id" JNull); [|discriminate].
  unfold rbind. intros H. inversion H. reflexivity.
Qed.

(** C6 (as stated, refuted): with a valid external identifier and the
    secondary-provider key configured, the awards field is null when the
    secondary provider cannot be reached. *)
Lemma awards_null_when_omdb_down :
  exists detail w',
    get_movie_details (Some "key") (Some "omdbkey") 603 w_omdb_down = (Ok (JObj detail), w')
    /\ Py.lookup "imdb_id" detail = Some (JStr "tt0133093")
    /\ Py.lookup "awards" detail = Some JNull.
Proof.
  eexists. eexists. split; [vm_compute; reflexivity|]. split; reflexivity.
Qed.

(** C6 (amended): on a cache miss and a well-formed answer of the
    metadata provider, [get_movie_details] returns normally whatever the
    secondary provider does. With an external identifier and the
    secondary key configured the detail object has an [awards] field: the
    [Awards] value of the secondary provider's answer when that answer
    has status 200 and a JSON object body, null otherwise. With the key
    absent, or without an external identifier, the object has no
    [awards] field. The enrichment step itself never raises. *)
Theorem movie_details_awards (tmdb omdb : option string) (tmdb_id : Z)
    (w w1 : world) (k : string) (r : response) (data : json) (out : dict) :
  tmdb = Some k -> k <> "" ->
  _cache_get (movie_key tmdb_id) w = (Ok JNull, w1) ->
  server w (tmdb_request k ("/movie/" ++ Py.str_of_Z tmdb_id)
              [("append_to_response", JStr "credits,external_ids")]) = Reply r ->
  status_code r = 200 ->
  json_body r = Some data ->
  movie_out data = Ok out ->
  (exists detail w',
     get_movie_details tmdb omdb tmdb_id w = (Ok (JObj detail), w')
     /\ (Py.truthy (Py.dget "imdb_id" out JNull) && Py.truthy (of_opt omdb) = false ->
         detail = out /\ Py.lookup "awards" detail = None)
     /\ (forall ok,
           omdb = Some ok -> ok <> "" ->
           Py.truthy (Py.dget "imdb_id" out JNull) = true ->
           Py.lookup "awards" detail
           = Some (awards_of (server w (omdb_request ok (Py.dget "imdb_id" out JNull))))))
  /\ (forall imdb_id w0, exists aw w0', _get_awards_from_omdb omdb imdb_id w0 = (Ok aw, w0')).
Proof.
  intros -> Hk Hget Hs H200 Hj Hout. split; [|intros; apply awards_total].
  destruct (cache_get_frame _ _ _ _ Hget) as [Hsv _]. rewrite <- Hsv in Hs.
  set (rq := tmdb_request k ("/movie/" ++ Py.str_of_Z tmdb_id)
               [("append_to_response", JStr "credits,external_ids")]) in *.
  assert (Hreq := req_ok k ("/movie/" ++ Py.str_of_Z tmdb_id)
                    [("append_to_response", JStr "credits,external_ids")]
                    w1 r data Hk Hs H200 Hj).
  fold rq in Hreq.
  assert (Hna := movie_out_no_awards data out Hout).
  unfold get_movie_details. rewrite (bind_ok _ _ _ _ _ Hget). cbv iota beta.
  rewrite (bind_ok _ _ _ _ _ Hreq). unfold lift at 1. unfold bind at 1. rewrite Hout.
  destruct (Py.truthy (Py.dget "imdb_id" out JNull)) eqn:Eid;
    [destruct (Py.truthy (of_opt omdb)) eqn:Eom|]; cbn [andb].
  - (* enrichment attempted *)
    assert (Hgi : Py.getitem (JObj out) "imdb_id" = Ok (Py.dget "imdb_id" out JNull)).
    { unfold Py.getitem, Py.dget in *. destruct (Py.lookup "imdb_id" out); auto.
      discriminate. }
    destruct omdb as [ok|]; [|discriminate].
    assert (Hok : ok <> "").
    { intros ->. discriminate. }
    assert (Haw := awards_eq ok (Py.dget "imdb_id" out JNull) (sent rq w1) Hok Eid).
    change (server (sent rq w1)) with (server w1) in Haw. rewrite Hsv in Haw.
    set (aw := awards_of _) in Haw.
    destruct (cache_set_frame (movie_key tmdb_id) (JObj (Py.set "awards" aw out)) CACHE_TTL
                (sent (omdb_request ok (Py.dget "imdb_id" out JNull)) (sent rq w1)))
      as [w2 [Hset _]].
    exists (Py.set "awards" aw out), w2. split; [|split].
    + unfold bind at 1. unfold bind at 1. unfold lift. rewrite Hgi.
      unfold bind at 1. rewrite Haw. unfold ret at 1.
      rewrite (bind_ok _ _ _ _ _ Hset). reflexivity.
    + discriminate.
    + intros ok' E _ _. inversion E; subst ok'. apply lookup_set_same.
  - (* key absent *)
    destruct (cache_set_frame (movie_key tmdb_id) (JObj out) CACHE_TTL (sent rq w1))
      as [w2 [Hset _]].
    exists out, w2. split; [|split]; auto.
    + unfold bind at 1. unfold ret at 1. rewrite (bind_ok _ _ _ _ _ Hset). reflexivity.
    + intros ok -> Hok _. simpl in Eom. apply negb_false_iff, String.eqb_eq in Eom.
      contradiction.
  - (* no external identifier *)
    destruct (cache_set_frame (movie_key tmdb_id) (JObj out) CACHE_TTL (sent rq w1))
      as [w2 [Hset _]].
    exists out, w2. split; [|split]; auto.
    + unfold bind at 1. unfold ret at 1. rewrite (bind_ok _ _ _ _ _ Hset). reflexivity.
    + intros; discriminate.
Qed.

Lemma movie_details_awards_witness :
  exists detail w',
    get_movie_details (Some "key") (Some "omdbkey") 603 w_omdb_up = (Ok (JObj detail), w')
    /\ Py.lookup "awards" detail = Some (JStr "Won 4 Oscars").
Proof.
  edestruct (movie_details_awards (Some "key") (Some "omdbkey") 603 w_omdb_up w_omdb_up
               "key" (mkResponse 200 "" (Some matrix_body)) matrix_body)
    as [[detail [w' [H1 [_ H3]]]] _]; try reflexivity; [discriminate|].
  exists detail, w'. split; [exact H1|].
  rewrite (H3 "omdbkey" eq_refl); [reflexivity | discriminate | reflexivity].
Defined.

(** ** The auth and watchlist client *)

Import firebase_auth.

(** C5: when no id token is held, [get_watchlist] and [add_to_watchlist]
    fail with [FirebaseAuthError "User not authenticated"] and leave the
    world as it was: no HTTP request is issued. *)
Theorem watchlist_requires_session (db_url imdb_id : string) (movie_data : json)
    (w : world) (tok : json) :
  id_token w = (Ok tok, w) ->
  Py.truthy tok = false ->
  get_watchlist db_url w = (Raise (FirebaseAuthError (JStr "User not authenticated")), w)
  /\ add_to_watchlist db_url imdb_id movie_data w
     = (Raise (FirebaseAuthError (JStr "User not authenticated")), w).
Proof.
  intros Htok Hf. split.
  - unfold get_watchlist. rewrite (bind_ok _ _ _ _ _ Htok). now rewrite Hf.
  - unfold add_to_watchlist. rewrite (bind_ok _ _ _ _ _ Htok). now rewrite Hf.
Qed.

Lemma watchlist_requires_session_witness :
  get_watchlist "https://db.example.com" w_fresh
  = (Raise (FirebaseAuthError (JStr "User not authenticated")), w_fresh)
  /\ add_to_watchlist "https://db.example.com" "tt0133093"
       (JObj [("title", JStr "The Matrix")]) w_fresh
     = (Raise (FirebaseAuthError (JStr "User not authenticated")), w_fresh).
Proof.
  apply (watchlist_requires_session "https://db.example.com" "tt0133093"
           (JObj [("title", JStr "The Matrix")]) w_fresh JNull); reflexivity.
Defined.

(** C9 (as stated, refuted): a 502 answer whose body is not JSON makes
    [sign_in] raise [JSONDecodeError], which is no auth error; and a
    failed sign-in over a stored session leaves that session stored. *)
Lemma sign_in_not_always_auth_error :
  (exists r w',
      server w_bad_gateway (sign_in_request "fbkey" "neo@example.com" "secret") = Reply r
      /\ status_code r <> 200
      /\ sign_in "fbkey" "neo@example.com" "secret" w_bad_gateway
         = (Raise JSONDecodeError, w')
      /\ forall m, Raise JSONDecodeError <> Raise (A := json) (FirebaseAuthError m))
  /\ (exists r w',
        server w_stale_session (sign_in_request "fbkey" "neo@example.com" "wrong") = Reply r
        /\ status_code r <> 200
        /\ sign_in "fbkey" "neo@example.com" "wrong" w_stale_session
           = (Raise (FirebaseAuthError (JStr "INVALID_PASSWORD")), w')
        /\ user w' = JObj neo_session
        /\ user w' <> JNull).
Proof.
  split.
  - eexists. eexists. split; [reflexivity|]. split; [discriminate|].
    split; [vm_compute; reflexivity | discriminate].
  - eexists. eexists. split; [reflexivity|]. split; [discriminate|].
    split; [vm_compute; reflexivity|]. split; [reflexivity | discriminate].
Qed.

(** C9 (amended): when the provider answers a sign-in with a status other
    than 200 and a JSON object whose [error] member is absent or an
    object, [sign_in] raises [FirebaseAuthError] carrying the [message]
    member of that [error] object, or ["Sign in failed"] when [error] or
    [message] is absent. [self.user] is left as it was: unset when it
    was unset, and a session stored before stays stored. *)
Theorem sign_in_failure (api_key email password : string) (w : world)
    (r : response) (data err : dict) :
  server w (sign_in_request api_key email password) = Reply r ->
  status_code r <> 200 ->
  json_body r = Some (JObj data) ->
  Py.dget "error" data (JObj []) = JObj err ->
  exists w',
    sign_in api_key email password w
    = (Raise (FirebaseAuthError
                (match Py.lookup "message" err with
                 | Some m => m
                 | None => JStr "Sign in failed"
                 end)), w')
    /\ user w' = user w
    /\ (user w = JNull -> user w' = JNull).
Proof.
  intros Hs Hne Hj He. unfold sign_in_request in Hs.
  unfold sign_in, bind, http. rewrite Hs. cbv beta iota.
  unfold resp_json. rewrite Hj. unfold ret at 1. cbv beta iota.
  apply Z.eqb_neq in Hne. rewrite Hne. cbn [negb].
  unfold lift, Py.get. rewrite He. unfold raise, Py.dget.
  eexists. split; [reflexivity|]. split; [reflexivity | exact (fun H => H)].
Qed.

Lemma sign_in_failure_witness :
  exists w',
    sign_in "fbkey" "neo@example.com" "wrong" w_wrong_password
    = (Raise (FirebaseAuthError (JStr "INVALID_PASSWORD")), w')
    /\ user w' = JNull.
Proof.
  destruct (sign_in_failure "fbkey" "neo@example.com" "wrong" w_wrong_password wrong_password
              [("error", JObj [("code", JNum 400); ("message", JStr "INVALID_PASSWORD")])]
              [("code", JNum 400); ("message", JStr "INVALID_PASSWORD")]
              eq_refl ltac:(discriminate) eq_refl eq_refl) as [w' [H [_ Hu]]].
  exists w'. split; [exact H | exact (Hu eq_refl)].
Defined.

(** ** Configuration and start-up *)

(** [config] binds no [TMDB_API_KEY], so the guarded import of
    [tmdb_client] always falls back to the environment. *)
Lemma tmdb_import_fallback env :
  tmdb_client.import env = (env "TMDB_API_KEY", env "OMDB_API_KEY").
Proof.
  unfold tmdb_client.import, config.getenv.
  destruct (config.import env); simpl;
    destruct (env "TMDB_API_KEY"), (env "OMDB_API_KEY"); reflexivity.
Qed.

(** C7 (as stated, refuted): start-up succeeds although the
    metadata-provider key is absent. *)
Lemma startup_without_tmdb_key :
  missing env_no_tmdb "TMDB_API_KEY" = true
  /\ exists app, main.startup env_no_tmdb = Ok app.
Proof. split; [reflexivity|]. eexists. vm_compute. reflexivity. Qed.

(** C7 (amended): start-up fails, with a [ConfigError], exactly when the
    secondary-provider key, the identity-provider key or the database
    base URL is absent. Absence of the metadata-provider key does not
    fail start-up: every metadata request then fails with
    [TMDbError "TMDB_API_KEY not set"] before anything is sent. Absence of
    the AI-provider key does not fail start-up either and only makes
    [ai_client.is_enabled] false. *)
Theorem startup_configuration (env : config.environ) :
  ((exists msg, main.startup env = Raise (ConfigError msg))
   <-> missing env "OMDB_API_KEY" || missing env "FIREBASE_API_KEY"
       || missing env "FIREBASE_DB_URL" = true)
  /\ (missing env "OMDB_API_KEY" || missing env "FIREBASE_API_KEY"
      || missing env "FIREBASE_DB_URL" = false ->
      exists app,
        main.startup env = Ok app
        /\ (missing env "TMDB_API_KEY" = true ->
            forall path params w,
              _req (main.tmdb_key app) path params w
              = (Raise (TMDbError "TMDB_API_KEY not set"), w))
        /\ (missing env "PERPLEXITY_API_KEY" = true ->
            ai_client.is_enabled (main.ai_key app) = false)).
Proof.
  unfold main.startup. rewrite tmdb_import_fallback.
  unfold config.import, config._get, config.getenv, missing, rbind.
  destruct (env "OMDB_API_KEY") as [[|c1 s1]|];
    destruct (env "FIREBASE_API_KEY") as [[|c2 s2]|];
    destruct (env "FIREBASE_DB_URL") as [[|c3 s3]|];
    cbn [of_opt Py.truthy String.eqb negb andb orb];
    (split;
     [ split; [ intros [msg H]; try reflexivity; discriminate H
              | intros H; try discriminate H; eexists; reflexivity ]
     | intros H; try discriminate H ]).
  eexists. split; [reflexivity|]. cbn [main.tmdb_key main.ai_key fst snd]. split.
  - intros Hm path params w. apply req_no_key. unfold of_opt in *.
    destruct (env "TMDB_API_KEY"); [apply negb_true_iff in Hm; exact Hm | reflexivity].
  - intros Hm. unfold ai_client.is_enabled.
    destruct (env "PERPLEXITY_API_KEY") as [[|c s]|]; simpl in *; auto. discriminate.
Qed.

Lemma startup_configuration_witness :
  exists app,
    main.startup env_no_tmdb = Ok app
    /\ (forall path params w,
          _req (main.tmdb_key app) path params w
          = (Raise (TMDbError "TMDB_API_KEY not set"), w))
    /\ ai_client.is_enabled (main.ai_key app) = false.
Proof.
  destruct (proj2 (startup_configuration env_no_tmdb) eq_refl) as [app [H1 [H2 H3]]].
  exists app. split; [exact H1|]. split; [apply H2 | apply H3]; reflexivity.
Defined.

(** * Further properties of the code *)

(** ** The cache *)

Lemma expired_any_time n1 n2 e b :
  expired n1 e = Ok b -> exists b', expired n2 e = Ok b'.
Proof.
  unfold expired.
  destruct (Py.get e "ts" (JNum 0)); [|discriminate].
  destruct (Py.get e "ttl" (JNum CACHE_TTL)); [|discriminate].
  destruct (Py.add a a0); [|discriminate].
  unfold Py.lt_num. destruct (Py.as_num a1) as [[|]|]; [eauto | eauto | discriminate].
Qed.

Lemma kept_typed now e : kept now e = true -> entry_typed e = true.
Proof.
  unfold kept, entry_typed. destruct (negb (Py.truthy e)); auto. simpl.
  destruct (expired now e) as [b|] eqn:E; [|discriminate]. intros _.
  destruct (expired_any_time now 0 e b E) as [b' ->]. reflexivity.
Qed.

(** A kept value that is truthy is an object: reading its [value] cannot raise. *)
Lemma kept_get_value now e :
  kept now e = true -> Py.truthy e = true -> exists v, Py.get e "value" JNull = Ok v.
Proof.
  unfold kept. intros H Ht. rewrite Ht in H. simpl in H.
  destruct e; simpl; eauto; discriminate.
Qed.

(** The loop does not raise when every value it can meet is typed. *)
Lemma prune_total_lookup now ks : forall d ch,
  (forall k, entry_typed (Py.dget k d JNull) = true) ->
  exists d' ch', prune now ks d ch = Ok (d', ch').
Proof.
  induction ks as [|k0 ks IH]; intros d ch Ht; simpl; eauto.
  destruct (negb (Py.truthy (Py.dget k0 d JNull))) eqn:Et; auto.
  apply negb_false_iff in Et.
  destruct (expired_typed now _ Et (Ht k0)) as [b Hb]. rewrite Hb.
  destruct b; auto. apply IH. intros k. unfold Py.dget.
  destruct (String.eqb k k0) eqn:E.
  - apply String.eqb_eq in E; subst. now rewrite lookup_del_same.
  - rewrite lookup_del_other by exact E. apply Ht.
Qed.

(** The loop raises as soon as the store binds one untyped value. *)
Lemma prune_raises now ks : forall d ch k e,
  In k ks -> Py.lookup k d = Some e -> entry_typed e = false ->
  exists x, prune now ks d ch = Raise x.
Proof.
  induction ks as [|k0 ks IH]; intros d ch k e Hin Hl Hty; [destruct Hin|].
  assert (Hraise : Py.truthy e = true /\ exists x, expired now e = Raise x).
  { unfold entry_typed in Hty. apply orb_false_iff in Hty as [Ht Hx].
    apply negb_false_iff in Ht. split; auto.
    destruct (expired now e) as [b|x] eqn:E; eauto.
    destruct (expired_any_time now 0 e b E) as [b' Hb]. rewrite Hb in Hx. discriminate. }
  destruct Hraise as [Ht [x Hx]]. simpl.
  destruct (String.eqb k k0) eqn:E.
  - apply String.eqb_eq in E; subst k0. unfold Py.dget. rewrite Hl, Ht, Hx. simpl. eauto.
  - assert (Hin' : In k ks).
    { destruct Hin as [->|]; auto. rewrite String.eqb_refl in E. discriminate. }
    destruct (negb (Py.truthy (Py.dget k0 d JNull))); [eapply IH; eauto|].
    destruct (expired now (Py.dget k0 d JNull)) as [[|]|]; eauto.
    eapply IH; eauto. now rewrite lookup_del_other.
Qed.

(** Loading from a writable file a store whose values are typed. *)
Lemma load_result_typed_lookup w d :
  cache_file w = Content (JObj d) -> fs_writable w = true ->
  (forall k, entry_typed (Py.dget k d JNull) = true) ->
  exists d',
    load_result w = (d', with_cache_file (Content (JObj d')) w)
    /\ (forall k, Py.lookup k d' =
                    if mem k (Py.keys d) && negb (kept (clock w) (Py.dget k d JNull))
                    then None else Py.lookup k d).
Proof.
  intros Hf Hw Ht.
  destruct (prune_total_lookup (clock w) (Py.keys d) d false Ht) as [d' [ch E]].
  exists d'. split.
  - unfold load_result. rewrite Hf, E, Hw. destruct ch; auto.
    apply prune_unchanged in E as [-> _]. now rewrite <- Hf, with_cache_file_same.
  - intros k. eapply prune_lookup; eauto.
Qed.

(** What [_cache_set] leaves on a writable file, and how it is loaded
    back at any later time. *)
Lemma cache_set_then_load w key value ttl :
  fs_writable w = true ->
  Double.of_int ttl <> None ->
  let c := fst (load_result w) in
  let c' := Py.set key (mk_entry (clock w) ttl value) c in
  let w1 := with_cache_file (Content (JObj c')) (snd (load_result w)) in
  _cache_set key value ttl w = (Ok tt, w1)
  /\ forall t, exists d',
       load_result (with_clock t w1) = (d', with_cache_file (Content (JObj d')) (with_clock t w1))
       /\ Py.lookup key d' = (if kept t (mk_entry (clock w) ttl value)
                              then Some (mk_entry (clock w) ttl value) else None)
       /\ forall k, String.eqb k key = false ->
                    Py.lookup k d' = (if kept t (Py.dget k c JNull) then Py.lookup k c else None).
Proof.
  intros Hw Hconv c c' w1.
  destruct (load_result_frame w) as [Hfw [Hck _]]. cbv zeta in Hfw, Hck.
  split.
  - rewrite cache_set_eq. cbv zeta. rewrite Hfw, Hw, Hck. reflexivity.
  - intros t.
    assert (Hty : forall k, entry_typed (Py.dget k c' JNull) = true).
    { intros k. unfold Py.dget, c'. destruct (String.eqb k key) eqn:E.
      - apply String.eqb_eq in E; subst k. rewrite lookup_set_same.
        now apply entry_typed_mk.
      - rewrite lookup_set_other by exact E.
        apply (kept_typed (clock w)). apply (load_result_kept w k). }
    destruct (load_result_typed_lookup (with_clock t w1) c' eq_refl) as [d' [Hr Hl]]; auto.
    { subst w1. simpl. now rewrite Hfw. }
    exists d'. split; [exact Hr|]. split.
    + rewrite Hl. unfold Py.dget, c'. rewrite lookup_set_same.
      assert (Hm : mem key (Py.keys (Py.set key (mk_entry (clock w) ttl value) c)) = true).
      { apply mem_In, lookup_keys. rewrite lookup_set_same. discriminate. }
      rewrite Hm. simpl clock.
      destruct (kept t (mk_entry (clock w) ttl value)); reflexivity.
    + intros k E. rewrite Hl. unfold Py.dget at 1. unfold c'.
      rewrite (lookup_set_other key k _ c E).
      fold (Py.dget k c JNull). simpl clock.
      destruct (kept t (Py.dget k c JNull)); [now rewrite andb_false_r|].
      rewrite andb_true_r.
      destruct (mem k (Py.keys (Py.set key (mk_entry (clock w) ttl value) c))) eqn:Em; auto.
      destruct (Py.lookup k c) eqn:El; auto.
      assert (Hin : In k (Py.keys (Py.set key (mk_entry (clock w) ttl value) c))).
      { apply lookup_keys. rewrite (lookup_set_other key k _ c E), El. discriminate. }
      apply mem_In in Hin. congruence.
Qed.

Lemma same_outside_cache_load w : same_outside_cache w (snd (load_result w)).
Proof. exact (load_result_frame w). Qed.

Lemma cache_never_raises_set key value ttl w :
  exists w1, _cache_set key value ttl w = (Ok tt, w1) /\ same_outside_cache w w1.
Proof.
  rewrite cache_set_eq. cbv zeta. eexists. split; [reflexivity|].
  assert (H := same_outside_cache_load w).
  destruct (fs_writable (snd (load_result w))); auto.
Qed.

(** No cache operation raises, whatever the cache file holds, and none
    touches the clock, the transport, the request log or the session. *)
Theorem cache_never_raises (key : string) (value : json) (ttl : Z) (w : world) :
  (exists c w1, _load_cache w = (Ok c, w1) /\ same_outside_cache w w1)
  /\ (exists v w1, _cache_get key w = (Ok v, w1) /\ same_outside_cache w w1)
  /\ (exists w1, _cache_set key value ttl w = (Ok tt, w1) /\ same_outside_cache w w1).
Proof.
  split; [|split].
  - rewrite load_cache_eq. eexists. eexists. split; [reflexivity|].
    apply same_outside_cache_load.
  - rewrite cache_get_eq. cbv zeta.
    destruct (negb (Py.truthy (Py.dget key (fst (load_result w)) JNull))) eqn:Et.
    + eexists. eexists. split; [reflexivity | apply same_outside_cache_load].
    + apply negb_false_iff in Et.
      destruct (kept_get_value _ _ (load_result_kept w key) Et) as [v Hv].
      rewrite Hv. eexists. eexists. split; [reflexivity | apply same_outside_cache_load].
  - rewrite cache_set_eq. cbv zeta. eexists. split; [reflexivity|].
    assert (H := same_outside_cache_load w).
    destruct (fs_writable (snd (load_result w))); auto.
Qed.

Lemma load_result_idempotent w : load_result (snd (load_result w)) = load_result w.
Proof.
  destruct (load_result w) as [c w1] eqn:H. assert (H0 := H). simpl.
  unfold load_result in H.
  destruct (cache_file w) as [| |[]] eqn:Ef; try (inversion H; subst; exact H0).
  destruct (prune (clock w) (Py.keys kvs) kvs false) as [[d' [|]]|] eqn:E;
    try (inversion H; subst; exact H0).
  destruct (fs_writable w); inversion H; subst; [|exact H0].
  apply load_result_stable; [reflexivity|].
  intros k. simpl. eapply prune_all_kept; eauto.
Qed.

(** Loading is idempotent: a second load at the same time returns the
    same dict and leaves the world, hence the file, as the first load
    left it. *)
Theorem load_cache_idempotent (w : world) :
  exists c w1, _load_cache w = (Ok c, w1) /\ _load_cache w1 = (Ok c, w1).
Proof.
  rewrite load_cache_eq. eexists. eexists. split; [reflexivity|].
  rewrite load_cache_eq, load_result_idempotent. reflexivity.
Qed.

(** A key the cache file does not bind is reported absent, whatever
    else the file holds, be it missing, unparsable or not an object. *)
Theorem cache_get_unbound_key (w : world) (key : string) :
  (forall d, cache_file w = Content (JObj d) -> Py.lookup key d = None) ->
  exists w1, _cache_get key w = (Ok JNull, w1).
Proof.
  intros H. rewrite cache_get_eq. cbv zeta. eexists.
  assert (Hl : Py.lookup key (fst (load_result w)) = None).
  { destruct (cache_file w) as [| |[]] eqn:Ef;
      try (unfold load_result; rewrite Ef; reflexivity).
    destruct (load_result_lookup w kvs key Ef) as [Hn|Hn]; [exact Hn|].
    rewrite Hn. now apply H. }
  unfold Py.dget. rewrite Hl. reflexivity.
Qed.

Lemma cache_get_unbound_key_witness :
  exists w1, _cache_get "tv:1399" (w_entry 5) = (Ok JNull, w1).
Proof.
  apply (cache_get_unbound_key (w_entry 5) "tv:1399").
  intros d H. inversion H. reflexivity.
Defined.

(** When the file cannot be written, an expired entry cannot be pruned:
    the load then gives up and every key, live ones included, is
    reported absent, the world being left as it was. The times are ones
    a float holds exactly, so that [timestamp + ttl < now] is what the
    code's float comparison decides. *)
Theorem cache_readonly_expired_entry (w : world) (d : dict) (k : string)
    (ts ttl : Z) (v : json) (key : string) :
  fs_writable w = false ->
  cache_file w = Content (JObj d) ->
  Py.lookup k d = Some (mk_entry ts ttl v) ->
  exact_time ts -> exact_time ttl -> exact_time (ts + ttl) -> exact_time (clock w) ->
  ts + ttl < clock w ->
  _cache_get key w = (Ok JNull, w).
Proof.
  intros Hw Hf Hl E1 E2 E3 E4 Hlt. rewrite cache_get_eq.
  assert (Hr : load_result w = ([], w)).
  { unfold load_result. rewrite Hf, Hw.
    destruct (prune (clock w) (Py.keys d) d false) as [[d' [|]]|] eqn:E; auto.
    exfalso. assert (Hk := prune_lookup _ _ _ _ _ _ E k).
    apply prune_unchanged in E as [-> _].
    assert (Hm : mem k (Py.keys d) = true)
      by (apply mem_In, lookup_keys; congruence).
    unfold Py.dget in Hk. rewrite Hl, Hm in Hk.
    rewrite (kept_entry_exact (clock w) ts ttl v E1 E2 E3 E4), negb_involutive in Hk.
    apply Z.ltb_lt in Hlt. rewrite Hlt in Hk. discriminate. }
  rewrite Hr. reflexivity.
Qed.

Lemma cache_readonly_expired_entry_witness :
  _cache_get "movie:603" w_readonly = (Ok JNull, w_readonly)
  /\ _cache_get "movie:603" w_mixed <> (Ok JNull, w_mixed).
Proof.
  split.
  - apply (cache_readonly_expired_entry w_readonly store_mixed "old" 0 10 (JNum 7));
      reflexivity.
  - vm_compute. discriminate.
Defined.

(** Beyond the exact range the float comparison no longer decides
    [timestamp + ttl < now]: the clock reading [2^53 + 1] is the float
    [2^53], so an entry stamped [2^53] with ttl 0 is not seen as expired
    and is still served. *)
Example cache_entry_beyond_exact_range :
  let w := mkWorld (Content (JObj [("k", mk_entry (2 ^ 53) 0 (JNum 7))])) false
             (2 ^ 53 + 1) no_server [] JNull in
  2 ^ 53 + 0 < clock w /\ _cache_get "k" w = (Ok (JNum 7), w).
Proof. split; [reflexivity | vm_compute; reflexivity]. Qed.

(** One stored value on which the expiry test raises disables the whole
    cache: every key is reported absent and the file is left alone; the
    next [_cache_set] then replaces the store by its single new entry. *)
Theorem cache_malformed_entry (w : world) (d : dict) (k : string) (e : json) :
  cache_file w = Content (JObj d) ->
  Py.lookup k d = Some e ->
  entry_typed e = false ->
  (forall key, _cache_get key w = (Ok JNull, w))
  /\ (fs_writable w = true ->
      forall key value ttl,
        _cache_set key value ttl w
        = (Ok tt, with_cache_file
                    (Content (JObj [(key, mk_entry (clock w) ttl value)])) w)).
Proof.
  intros Hf Hl Hty.
  assert (Hr : load_result w = ([], w)).
  { unfold load_result. rewrite Hf.
    destruct (prune_raises (clock w) (Py.keys d) d false k e) as [x Hx]; auto.
    - apply lookup_keys. congruence.
    - now rewrite Hx. }
  split.
  - intros key. rewrite cache_get_eq, Hr. reflexivity.
  - intros Hw key value ttl. rewrite cache_set_eq, Hr. simpl. now rewrite Hw.
Qed.

Lemma cache_malformed_entry_witness :
  (forall key, _cache_get key w_malformed = (Ok JNull, w_malformed))
  /\ (fs_writable w_malformed = true ->
      forall key value ttl,
        _cache_set key value ttl w_malformed
        = (Ok tt, with_cache_file
                    (Content (JObj [(key, mk_entry (clock w_malformed) ttl value)]))
                    w_malformed)).
Proof.
  apply (cache_malformed_entry w_malformed store_malformed "junk" (JNum 5)); reflexivity.
Defined.

(** Storing under one key, with a ttl that is not too large to be
    converted to a float, does not change what is read under another. *)
Theorem cache_set_other_key (w : world) (key key' : string) (value : json) (ttl : Z) :
  fs_writable w = true ->
  Double.of_int ttl <> None ->
  key' <> key ->
  exists w1,
    _cache_set key value ttl w = (Ok tt, w1)
    /\ fst (_cache_get key' w1) = fst (_cache_get key' w).
Proof.
  intros Hw Hconv Hne.
  destruct (cache_set_then_load w key value ttl Hw Hconv) as [Hset Hload].
  eexists. split; [exact Hset|].
  destruct (Hload (clock w)) as [d' [Hr [_ Hother]]].
  apply String.eqb_neq in Hne.
  assert (Hck : with_clock (clock w)
                  (with_cache_file
                     (Content (JObj (Py.set key (mk_entry (clock w) ttl value)
                                       (fst (load_result w)))))
                     (snd (load_result w)))
                = with_cache_file
                    (Content (JObj (Py.set key (mk_entry (clock w) ttl value)
                                      (fst (load_result w)))))
                    (snd (load_result w))).
  { destruct (load_result_frame w) as [_ [Hc _]]. cbv zeta in Hc.
    unfold with_clock, with_cache_file. simpl. now rewrite Hc. }
  rewrite Hck in Hr.
  rewrite !cache_get_eq. cbv zeta. simpl fst. rewrite Hr. simpl fst.
  unfold Py.dget. rewrite (Hother key' Hne).
  fold (Py.dget key' (fst (load_result w)) JNull).
  now rewrite (load_result_kept w key').
Qed.

Lemma cache_set_other_key_witness :
  exists w1,
    _cache_set "search:movie:dune:1" (JList []) 3600 w_mixed = (Ok tt, w1)
    /\ fst (_cache_get "movie:603" w1) = fst (_cache_get "movie:603" w_mixed).
Proof.
  apply (cache_set_other_key w_mixed "search:movie:dune:1" "movie:603");
    [reflexivity | vm_compute; discriminate | discriminate].
Defined.

(** A ttl that cannot be converted to a float disables the cache: the
    expiry test raises on the new entry at every later load, and a key
    that was served before is reported absent. *)
Example cache_set_overflowing_ttl :
  fst (_cache_get "movie:603" w_mixed) = Ok (JStr "cached")
  /\ exists w1,
      _cache_set "k" (JNum 1) (2 ^ 1024) w_mixed = (Ok tt, w1)
      /\ fst (_cache_get "movie:603" w1) = Ok JNull.
Proof.
  split; [vm_compute; reflexivity|].
  eexists. split; [vm_compute; reflexivity | vm_compute; reflexivity].
Qed.

(** The lifetime of an entry: stored at time [t] with [ttl], it is
    served at every time up to [t + ttl] included and reported absent
    afterwards, for times and a ttl that a float holds exactly. *)
Theorem cache_entry_lifetime (w : world) (key : string) (value : json) (ttl t' : Z) :
  fs_writable w = true ->
  exact_time (clock w) -> exact_time ttl -> exact_time (clock w + ttl) -> exact_time t' ->
  exists w1,
    _cache_set key value ttl w = (Ok tt, w1)
    /\ fst (_cache_get key (with_clock t' w1))
       = Ok (if clock w + ttl <? t' then JNull else value).
Proof.
  intros Hw E1 E2 E3 E4.
  destruct (cache_set_then_load w key value ttl Hw (of_int_exact ttl E2)) as [Hset Hload].
  eexists. split; [exact Hset|].
  destruct (Hload t') as [d' [Hr [Hkey _]]].
  rewrite cache_get_eq. cbv zeta. simpl fst. rewrite Hr. simpl fst.
  unfold Py.dget. rewrite Hkey.
  rewrite (kept_entry_exact t' (clock w) ttl value E1 E2 E3 E4).
  destruct (clock w + ttl <? t'); reflexivity.
Qed.

Lemma cache_entry_lifetime_witness :
  exists w1,
    _cache_set "movie:603" (JStr "cached") 3600 w_fresh = (Ok tt, w1)
    /\ fst (_cache_get "movie:603" (with_clock 3701 w1))
       = Ok (if clock w_fresh + 3600 <? 3701 then JNull else JStr "cached").
Proof.
  apply (cache_entry_lifetime w_fresh "movie:603" (JStr "cached") 3600 3701);
    [reflexivity | | | |]; apply Z.ltb_lt; reflexivity.
Defined.

(** Beyond the exact range the sum is rounded: an entry stored at
    [2^53 + 2] with ttl 1 expires after [2^53 + 4], the float nearest to
    [2^53 + 3], and is still served at that time. *)
Example cache_entry_lifetime_rounded :
  let w := mkWorld Missing true (2 ^ 53 + 2) no_server [] JNull in
  exists w1,
    _cache_set "k" (JNum 7) 1 w = (Ok tt, w1)
    /\ clock w + 1 < 2 ^ 53 + 4
    /\ fst (_cache_get "k" (with_clock (2 ^ 53 + 4) w1)) = Ok (JNum 7).
Proof.
  eexists. split; [vm_compute; reflexivity|].
  split; [reflexivity | vm_compute; reflexivity].
Qed.

(** ** The metadata client *)

Lemma same_outside_log_refl w : same_outside_log w w.
Proof. unfold same_outside_log. auto. Qed.

Lemma same_outside_log_sent rq w : same_outside_log w (sent rq w).
Proof. unfold same_outside_log, sent. simpl. auto. Qed.

Lemma same_outside_log_trans w w1 w2 :
  same_outside_log w w1 -> same_outside_log w1 w2 -> same_outside_log w w2.
Proof.
  unfold same_outside_log. intros [? [? [? [? ?]]]] [? [? [? [? ?]]]].
  repeat split; congruence.
Qed.

(** The outcomes of [_req]: a value or a [TMDbError], after at most one request. *)
Lemma req_cases key path params w :
  exists r w1,
    _req key path params w = (r, w1)
    /\ ((exists j, r = Ok j) \/ (exists msg, r = Raise (TMDbError msg)))
    /\ (w1 = w \/ exists rq, w1 = sent rq w).
Proof.
  unfold _req. destruct (negb (Py.truthy (of_opt key))).
  - unfold raise. eexists. eexists. split; [reflexivity|]. split; eauto.
  - cbv zeta. unfold bind, try_except, http. cbv beta.
    match goal with |- context [server w ?rq] => set (q := rq) end.
    fold (sent q w).
    destruct (server w q) as [msg|r]; cbv beta iota.
    + unfold raise. eexists. eexists. split; [reflexivity|]. split; eauto.
    + destruct (negb (status_code r =? 200)).
      * unfold resp_json. destruct (json_body r) as [j|]; unfold ret, raise, lift.
        -- destruct (Py.get j "status_message" JNull); cbv beta iota;
             (eexists; eexists; split; [reflexivity|]; split; eauto).
        -- cbv beta iota. eexists. eexists. split; [reflexivity|]. split; eauto.
      * unfold resp_json. destruct (json_body r) as [j|]; unfold ret, raise;
          cbv beta iota; (eexists; eexists; split; [reflexivity|]; split; eauto).
Qed.

Lemma req_frame key path params w r w1 :
  _req key path params w = (r, w1) -> same_outside_log w w1.
Proof.
  intros H. destruct (req_cases key path params w) as [r' [w' [H' [_ Hw]]]].
  rewrite H in H'. inversion H'; subst.
  destruct Hw as [->|[rq ->]];
    [apply same_outside_log_refl | apply same_outside_log_sent].
Qed.

(** [_req] raises nothing but [TMDbError]: transport failures, bad
    statuses and undecodable bodies are all converted. It sends at most
    one request and touches nothing but the request log. *)
Theorem req_raises_only_TMDbError (key : option string) (path : string)
    (params : dict) (w : world) :
  exists r w1,
    _req key path params w = (r, w1)
    /\ ((exists j, r = Ok j) \/ (exists msg, r = Raise (TMDbError msg)))
    /\ (http_log w1 = http_log w \/ exists rq, http_log w1 = (http_log w ++ [rq])%list)
    /\ same_outside_log w w1.
Proof.
  destruct (req_cases key path params w) as [r [w1 [H [Hr Hw]]]].
  exists r, w1. split; [exact H|]. split; [exact Hr|]. split.
  - destruct Hw as [->|[rq ->]]; [auto | right; exists rq; reflexivity].
  - eapply req_frame; eauto.
Qed.

(** The message of the [TMDbError]: the transport's message after
    ["Network error: "]; for a status other than 200, the status and the
    provider's [status_message], or the raw text of a body that is not
    JSON; a fixed message for a 200 answer that is not JSON. *)
Theorem req_error_messages (k path : string) (params : dict) (w : world) :
  k <> "" ->
  let rq := tmdb_request k path params in
  (forall msg, server w rq = NetFail msg ->
     _req (Some k) path params w = (Raise (TMDbError ("Network error: " ++ msg)), sent rq w))
  /\ (forall r data m,
        server w rq = Reply r -> status_code r <> 200 ->
        json_body r = Some (JObj data) ->
        Py.dget "status_message" data JNull = JStr m -> m <> "" ->
        _req (Some k) path params w
        = (Raise (TMDbError ("TMDB " ++ Py.str_of_Z (status_code r) ++ ": " ++ m)), sent rq w))
  /\ (forall r,
        server w rq = Reply r -> status_code r <> 200 -> json_body r = None ->
        _req (Some k) path params w
        = (Raise (TMDbError ("TMDB " ++ Py.str_of_Z (status_code r) ++ ": " ++ text r)),
           sent rq w))
  /\ (forall r,
        server w rq = Reply r -> status_code r = 200 -> json_body r = None ->
        _req (Some k) path params w = (Raise (TMDbError "Failed to decode JSON"), sent rq w)).
Proof.
  intros Hk rq.
  assert (Ht : Py.truthy (JStr k) = true).
  { simpl. apply negb_true_iff. now apply String.eqb_neq. }
  assert (Hu : forall (P : M json),
             (if negb (Py.truthy (of_opt (Some k)))
              then raise (TMDbError "TMDB_API_KEY not set") else P) = P).
  { intros P. change (of_opt (Some k)) with (JStr k). now rewrite Ht. }
  unfold _req. rewrite Hu. cbv zeta. change (of_opt (Some k)) with (JStr k).
  fold (tmdb_request k path params). fold rq.
  unfold bind, try_except, http. cbv beta. fold (sent rq w).
  split; [|split; [|split]].
  - intros msg Hs. rewrite Hs. reflexivity.
  - intros r data m Hs Hne Hj Hm Hmne. rewrite Hs. cbv beta iota.
    apply Z.eqb_neq in Hne. rewrite Hne. cbn [negb].
    unfold resp_json. rewrite Hj. unfold ret, lift, Py.get. rewrite Hm. cbv beta iota.
    unfold Py.or_. assert (Htm : Py.truthy (JStr m) = true).
    { simpl. apply negb_true_iff. now apply String.eqb_neq. }
    rewrite Htm. reflexivity.
  - intros r Hs Hne Hj. rewrite Hs. cbv beta iota.
    apply Z.eqb_neq in Hne. rewrite Hne. cbn [negb].
    unfold resp_json. rewrite Hj. reflexivity.
  - intros r Hs H200 Hj. rewrite Hs. cbv beta iota. rewrite H200. cbn [negb Z.eqb Pos.eqb].
    unfold resp_json. rewrite Hj. reflexivity.
Qed.

Lemma req_error_messages_witness :
  _req (Some "key") "/trending/all/week" [("page", JNum 1)] w_unauthorized
  = (Raise (TMDbError "TMDB 401: Invalid API key: You must be granted a valid key."),
     sent (tmdb_request "key" "/trending/all/week" [("page", JNum 1)]) w_unauthorized).
Proof.
  assert (Hk : "key" <> "") by discriminate.
  destruct (req_error_messages "key" "/trending/all/week" [("page", JNum 1)]
              w_unauthorized Hk) as [_ [H _]].
  apply (H unauthorized
           [("status_code", JNum 7);
            ("status_message", JStr "Invalid API key: You must be granted a valid key.")]
           "Invalid API key: You must be granted a valid key.");
    try reflexivity; discriminate.
Defined.

Lemma bind_inv_ok {A B} (m : M A) (k : A -> M B) w b w2 :
  bind m k w = (Ok b, w2) -> exists a w1, m w = (Ok a, w1) /\ k a w1 = (Ok b, w2).
Proof.
  unfold bind. destruct (m w) as [[a|e] w1]; [eauto | discriminate].
Qed.

Lemma bind_assoc {A B C} (m : M A) (f : A -> M B) (g : B -> M C) w :
  bind (bind m f) g w = bind m (fun x => bind (f x) g) w.
Proof. unfold bind. destruct (m w) as [[a|e] w1]; reflexivity. Qed.

Lemma bind_raise {A B} (m : M A) (k : A -> M B) w e w1 :
  m w = (Raise e, w1) -> bind m k w = (Raise e, w1).
Proof. intros H. unfold bind. now rewrite H. Qed.

(** Storing with a non-negative ttl that a float can hold, then
    reading at once. *)
Lemma cache_set_then_get w key v ttl :
  fs_writable w = true -> 0 <= ttl -> Double.of_int ttl <> None ->
  exists w1,
    _cache_set key v ttl w = (Ok tt, w1)
    /\ _cache_get key w1 = (Ok v, w1)
    /\ same_outside_cache w w1.
Proof.
  intros Hw Httl Hconv. rewrite cache_set_eq. cbv zeta.
  destruct (load_result_frame w) as [Hfw [Hck [Hsv [Hlog Hu]]]]. cbv zeta in *.
  rewrite Hfw, Hw.
  set (c := fst (load_result w)). set (w0 := snd (load_result w)) in *.
  set (c' := Py.set key (mk_entry (clock w0) ttl v) c).
  eexists. split; [reflexivity|].
  assert (Hk : forall k, kept (clock w0) (Py.dget k c' JNull) = true).
  { intros k. unfold Py.dget, c'. destruct (String.eqb k key) eqn:E.
    - apply String.eqb_eq in E; subst k. rewrite lookup_set_same.
      now apply kept_entry_fresh.
    - rewrite lookup_set_other by exact E. rewrite Hck. apply (load_result_kept w k). }
  split.
  - rewrite cache_get_eq.
    rewrite (load_result_stable (with_cache_file (Content (JObj c')) w0) c' eq_refl Hk).
    simpl fst. simpl snd. unfold Py.dget, c'. rewrite lookup_set_same. reflexivity.
  - unfold same_outside_cache. simpl. auto.
Qed.

(** On a hit the computation is not run. *)
Lemma cache_aside_hit {A} key (f : A -> json) compute w v w1 :
  _cache_get key w = (Ok v, w1) -> v <> JNull ->
  cache_aside key f compute w = (Ok v, w1).
Proof.
  intros Hget Hv. unfold cache_aside. rewrite (bind_ok _ _ _ _ _ Hget).
  destruct v; try reflexivity. contradiction.
Qed.

(** A failed computation is reported as it is and nothing is stored. *)
Lemma cache_aside_failure {A} key (f : A -> json) compute w w1 e w2 :
  _cache_get key w = (Ok JNull, w1) -> compute w1 = (Raise e, w2) ->
  cache_aside key f compute w = (Raise e, w2).
Proof.
  intros Hget Hc. unfold cache_aside. rewrite (bind_ok _ _ _ _ _ Hget). cbv iota beta.
  now rewrite (bind_raise _ _ _ _ _ Hc).
Qed.

(** A computed value is served from the cache by the next call. *)
Lemma cache_aside_memoized {A} key (f : A -> json) compute w w1 v w2 :
  (forall wa r wb, compute wa = (r, wb) -> same_outside_log wa wb) ->
  (forall x, f x <> JNull) ->
  fs_writable w = true ->
  _cache_get key w = (Ok JNull, w1) ->
  cache_aside key f compute w = (Ok v, w2) ->
  cache_aside key f compute w2 = (Ok v, w2).
Proof.
  intros Hframe Hf Hw Hget H. unfold cache_aside in H.
  rewrite (bind_ok _ _ _ _ _ Hget) in H. cbv iota beta in H.
  apply bind_inv_ok in H as [x [w3 [Hc H]]].
  apply bind_inv_ok in H as [[] [w4 [Hset H]]].
  unfold ret in H. inversion H; subst v w4; clear H.
  destruct (cache_get_frame _ _ _ _ Hget) as [_ [_ [Hfw1 _]]].
  destruct (Hframe _ _ _ Hc) as [_ [Hfw3 _]].
  assert (Hw3 : fs_writable w3 = true) by congruence.
  destruct (cache_set_then_get w3 key (f x) CACHE_TTL Hw3) as [w5 [Hset' [Hget' Hso]]].
  { unfold CACHE_TTL. lia. }
  { vm_compute. discriminate. }
  rewrite Hset in Hset'. inversion Hset'; subst w5.
  apply cache_aside_hit; auto.
Qed.

Lemma search_multi_eq key query kind page :
  search_multi key query kind page
  = cache_aside (search_key query kind page) JList (search_fetch key query kind page).
Proof. reflexivity. Qed.

Lemma bind_ext {A B} (m : M A) (f g : A -> M B) w :
  (forall a w1, f a w1 = g a w1) -> bind m f w = bind m g w.
Proof. intros H. unfold bind. destruct (m w) as [[a|e] w1]; auto. Qed.

(** The two detail functions are instances of the cache-aside shape. *)
Lemma details_shape tmdb omdb key path (outf : json -> result dict) w :
  (cached <- _cache_get key ;;
   match cached with
   | JNull =>
       data <- _req tmdb path [("append_to_response", JStr "credits,external_ids")] ;;
       out <- lift (outf data) ;;
       out <- (if Py.truthy (Py.dget "imdb_id" out JNull) && Py.truthy (of_opt omdb)
               then
                 id <- lift (Py.getitem (JObj out) "imdb_id") ;;
                 aw <- _get_awards_from_omdb omdb id ;;
                 ret (Py.set "awards" aw out)
               else ret out) ;;
       _cache_set key (JObj out) CACHE_TTL ;;;
       ret (JObj out)
   | _ => ret cached
   end) w
  = cache_aside key JObj (details_fetch tmdb omdb path outf) w.
Proof.
  unfold cache_aside, details_fetch. apply bind_ext. intros cached w1.
  destruct cached; try reflexivity.
  rewrite bind_assoc. apply bind_ext. intros data w2.
  rewrite bind_assoc. apply bind_ext. intros out w3. reflexivity.
Qed.

Lemma get_movie_details_eq tmdb omdb tmdb_id w :
  get_movie_details tmdb omdb tmdb_id w
  = cache_aside (movie_key tmdb_id) JObj
      (details_fetch tmdb omdb ("/movie/" ++ Py.str_of_Z tmdb_id) movie_out) w.
Proof. apply details_shape. Qed.

Lemma get_tv_details_eq tmdb omdb tmdb_id w :
  get_tv_details tmdb omdb tmdb_id w
  = cache_aside (tv_key tmdb_id) JObj
      (details_fetch tmdb omdb ("/tv/" ++ Py.str_of_Z tmdb_id) tv_out) w.
Proof. apply details_shape. Qed.

Lemma lift_frame {A} (r : result A) w r' w1 : lift r w = (r', w1) -> w1 = w.
Proof. unfold lift. intros H. now inversion H. Qed.

Lemma bind_frame {A B} (P : world -> world -> Prop) (m : M A) (k : A -> M B) w r w2 :
  (forall w, P w w) ->
  (forall a b c, P a b -> P b c -> P a c) ->
  (forall r1 w1, m w = (r1, w1) -> P w w1) ->
  (forall a w1 r2 w2, k a w1 = (r2, w2) -> P w1 w2) ->
  bind m k w = (r, w2) -> P w w2.
Proof.
  intros Hrefl Htrans Hm Hk H. unfold bind in H.
  destruct (m w) as [[a|e] w1] eqn:E.
  - eapply Htrans; [eapply Hm; eauto | eapply Hk; eauto].
  - inversion H; subst. eapply Hm; eauto.
Qed.

Ltac frame_step :=
  eapply (bind_frame same_outside_log);
  [ apply same_outside_log_refl | apply same_outside_log_trans | | | eassumption ].

Lemma awards_frame omdb imdb_id w r w1 :
  _get_awards_from_omdb omdb imdb_id w = (r, w1) -> same_outside_log w w1.
Proof.
  unfold _get_awards_from_omdb.
  destruct (negb (Py.truthy imdb_id) || negb (Py.truthy (of_opt omdb))).
  - unfold ret. intros H; inversion H. apply same_outside_log_refl.
  - unfold try_except, bind, http, resp_json, lift. unfold ret, raise.
    match goal with |- context [server w ?rq] => set (q := rq) end.
    fold (sent q w).
    destruct (server w q) as [msg|resp]; cbv beta iota.
    + intros H; inversion H. apply same_outside_log_sent.
    + destruct (negb (status_code resp =? 200)); cbv beta iota.
      * intros H; inversion H. apply same_outside_log_sent.
      * destruct (json_body resp) as [j|]; cbv beta iota.
        -- destruct (Py.get j "Awards" JNull); intros H; inversion H;
             apply same_outside_log_sent.
        -- intros H; inversion H. apply same_outside_log_sent.
Qed.

Lemma search_branch_frame key path params (body : json -> result (option json)) w r w1 :
  (data <- _req key path params ;;
   items <- lift (Py.get data "results" (JList [])) ;;
   its <- lift (Py.iter items) ;;
   lift (collect body its)) w = (r, w1) ->
  same_outside_log w w1.
Proof.
  intros H. frame_step; [intros; eapply req_frame; eauto|].
  intros data wa r2 wb H2. unfold bind, lift in H2.
  destruct (Py.get data "results" (JList [])); [|inversion H2; apply same_outside_log_refl].
  destruct (Py.iter a); inversion H2; apply same_outside_log_refl.
Qed.

Lemma search_fetch_frame key query kind page w r w1 :
  search_fetch key query kind page w = (r, w1) -> same_outside_log w w1.
Proof.
  unfold search_fetch. destruct (_ || _); cbv zeta; apply search_branch_frame.
Qed.

Lemma enrich_frame omdb out w r w1 :
  enrich omdb out w = (r, w1) -> same_outside_log w w1.
Proof.
  unfold enrich. destruct (_ && _).
  - intros H. unfold bind at 1 in H. unfold lift at 1 in H.
    destruct (Py.getitem (JObj out) "imdb_id"); [|inversion H; apply same_outside_log_refl].
    unfold bind in H.
    destruct (_get_awards_from_omdb omdb a w) as [[aw|e] w2] eqn:E;
      inversion H; subst; eapply awards_frame; eauto.
  - unfold ret. intros H; inversion H. apply same_outside_log_refl.
Qed.

Lemma details_fetch_frame tmdb omdb path outf w r w1 :
  details_fetch tmdb omdb path outf w = (r, w1) -> same_outside_log w w1.
Proof.
  unfold details_fetch. intros H. frame_step; [intros; eapply req_frame; eauto|].
  intros data wa r2 wb H2. unfold bind at 1 in H2. unfold lift in H2.
  destruct (outf data); [eapply enrich_frame; eauto|].
  inversion H2. apply same_outside_log_refl.
Qed.

(** Memoization of [search_multi]: when a search that missed the cache
    returns, repeating it at once returns the same value from the cache
    and leaves the world, hence the request log, untouched. *)
Theorem search_multi_memoized (key : option string) (query kind : string) (page : Z)
    (w w1 : world) (v : json) (w2 : world) :
  fs_writable w = true ->
  _cache_get (search_key query kind page) w = (Ok JNull, w1) ->
  search_multi key query kind page w = (Ok v, w2) ->
  search_multi key query kind page w2 = (Ok v, w2).
Proof.
  intros Hw Hget H. rewrite search_multi_eq in *.
  eapply cache_aside_memoized; eauto.
  - intros; eapply search_fetch_frame; eauto.
  - discriminate.
Qed.

Lemma search_multi_memoized_witness :
  exists v w2,
    search_multi (Some "key") "matrix" "movie" 1 (w_serving (results_body search_rows))
    = (Ok v, w2)
    /\ search_multi (Some "key") "matrix" "movie" 1 w2 = (Ok v, w2)
    /\ List.length (http_log w2) = 1%nat.
Proof.
  eexists. eexists. split; [vm_compute; reflexivity|]. split; [|reflexivity].
  apply (search_multi_memoized (Some "key") "matrix" "movie" 1
           (w_serving (results_body search_rows)) (w_serving (results_body search_rows)));
    vm_compute; reflexivity.
Defined.

(** Memoization of [get_details]: when a detail call that missed the
    cache returns, repeating it at once returns the same object from the
    cache and sends nothing. *)
Theorem get_details_memoized (tmdb omdb : option string) (kind : string) (tmdb_id : Z)
    (w w1 : world) (v : json) (w2 : world) :
  fs_writable w = true ->
  _cache_get (details_key kind tmdb_id) w = (Ok JNull, w1) ->
  get_details tmdb omdb kind tmdb_id w = (Ok v, w2) ->
  get_details tmdb omdb kind tmdb_id w2 = (Ok v, w2).
Proof.
  intros Hw Hget H. unfold get_details in *.
  destruct (String.eqb kind "movie") eqn:Em.
  - apply String.eqb_eq in Em; subst kind.
    change (details_key "movie" tmdb_id) with (movie_key tmdb_id) in Hget.
    rewrite get_movie_details_eq in *.
    eapply cache_aside_memoized; eauto; [|discriminate].
    intros; eapply details_fetch_frame; eauto.
  - destruct (String.eqb kind "tv") eqn:Et; [|discriminate].
    apply String.eqb_eq in Et; subst kind.
    change (details_key "tv" tmdb_id) with (tv_key tmdb_id) in Hget.
    rewrite get_tv_details_eq in *.
    eapply cache_aside_memoized; eauto; [|discriminate].
    intros; eapply details_fetch_frame; eauto.
Qed.

Lemma get_details_memoized_witness :
  exists v w2,
    get_details (Some "key") (Some "omdbkey") "tv" 1399 w_tv = (Ok v, w2)
    /\ get_details (Some "key") (Some "omdbkey") "tv" 1399 w2 = (Ok v, w2)
    /\ List.length (http_log w2) = 2%nat.
Proof.
  eexists. eexists. split; [vm_compute; reflexivity|]. split; [|reflexivity].
  apply (get_details_memoized (Some "key") (Some "omdbkey") "tv" 1399 w_tv w_tv);
    vm_compute; reflexivity.
Defined.

(** A cache hit is served as it is: nothing is fetched or checked, so
    the stored value is returned whatever its shape, and no API key is
    needed. *)
Theorem cache_hit_is_served (tmdb omdb : option string) (query kind : string)
    (page tmdb_id : Z) (w w1 : world) (v : json) :
  v <> JNull ->
  (_cache_get (search_key query kind page) w = (Ok v, w1) ->
   search_multi tmdb query kind page w = (Ok v, w1) /\ http_log w1 = http_log w)
  /\ (_cache_get (movie_key tmdb_id) w = (Ok v, w1) ->
      get_movie_details tmdb omdb tmdb_id w = (Ok v, w1) /\ http_log w1 = http_log w)
  /\ (_cache_get (tv_key tmdb_id) w = (Ok v, w1) ->
      get_tv_details tmdb omdb tmdb_id w = (Ok v, w1) /\ http_log w1 = http_log w).
Proof.
  intros Hv. split; [|split]; intros Hget;
    destruct (cache_get_frame _ _ _ _ Hget) as [_ [Hlog _]]; (split; [|exact Hlog]).
  - rewrite search_multi_eq. now apply cache_aside_hit.
  - rewrite get_movie_details_eq. now apply cache_aside_hit.
  - rewrite get_tv_details_eq. now apply cache_aside_hit.
Qed.

Lemma cache_hit_is_served_witness :
  search_multi None "matrix" "multi" 1 w_cached_search = (Ok (JStr "stale"), w_cached_search)
  /\ http_log w_cached_search = [].
Proof.
  assert (Hv : JStr "stale" <> JNull) by discriminate.
  destruct (cache_hit_is_served None None "matrix" "multi" 1 603
              w_cached_search w_cached_search (JStr "stale") Hv) as [H _].
  destruct (H eq_refl) as [H1 _]. split; [exact H1 | reflexivity].
Defined.

(** Failures are not cached: when the request of a search that missed
    the cache fails, the search raises the same error and the cache file
    is left as the lookup left it. *)
Theorem search_failure_not_cached (key : option string) (query kind : string) (page : Z)
    (w w1 : world) (e : exn) (w2 : world) :
  _cache_get (search_key query kind page) w = (Ok JNull, w1) ->
  _req key (search_path kind) (search_params query page) w1 = (Raise e, w2) ->
  search_multi key query kind page w = (Raise e, w2)
  /\ cache_file w2 = cache_file w1.
Proof.
  intros Hget Hreq. split.
  - rewrite search_multi_eq. eapply cache_aside_failure; eauto.
    unfold search_fetch, search_path in *.
    destruct (String.eqb kind "multi" || String.eqb kind "both"); cbv zeta;
      now rewrite (bind_raise _ _ _ _ _ Hreq).
  - apply req_frame in Hreq. now destruct Hreq.
Qed.

Lemma search_failure_not_cached_witness :
  search_multi (Some "key") "matrix" "movie" 1 w_unauthorized
  = (Raise (TMDbError "TMDB 401: Invalid API key: You must be granted a valid key."),
     sent (tmdb_request "key" "/search/movie" (search_params "matrix" 1)) w_unauthorized)
  /\ cache_file (sent (tmdb_request "key" "/search/movie" (search_params "matrix" 1))
                   w_unauthorized) = cache_file w_unauthorized.
Proof.
  apply (search_failure_not_cached (Some "key") "matrix" "movie" 1
           w_unauthorized w_unauthorized); vm_compute; reflexivity.
Defined.

(** Without the metadata-provider key every metadata operation that has
    to reach the provider fails with [TMDbError "TMDB_API_KEY not set"]
    and sends nothing. *)
Theorem metadata_requires_key (key omdb : option string) (query kind : string)
    (page tmdb_id : Z) (media_type time_window : string) (w w1 : world) :
  Py.truthy (of_opt key) = false ->
  (_cache_get (search_key query kind page) w = (Ok JNull, w1) ->
   search_multi key query kind page w = (Raise (TMDbError "TMDB_API_KEY not set"), w1))
  /\ (_cache_get (movie_key tmdb_id) w = (Ok JNull, w1) ->
      get_movie_details key omdb tmdb_id w = (Raise (TMDbError "TMDB_API_KEY not set"), w1))
  /\ (_cache_get (tv_key tmdb_id) w = (Ok JNull, w1) ->
      get_tv_details key omdb tmdb_id w = (Raise (TMDbError "TMDB_API_KEY not set"), w1))
  /\ (valid_media_type media_type && valid_time_window time_window = true ->
      get_trending key media_type time_window page w
      = (Raise (TMDbError "TMDB_API_KEY not set"), w)).
Proof.
  intros Hk. split; [|split; [|split]].
  - intros Hget. rewrite search_multi_eq. eapply cache_aside_failure; eauto.
    unfold search_fetch. destruct (_ || _); cbv zeta;
      now rewrite (bind_raise _ _ _ _ _ (req_no_key key _ _ w1 Hk)).
  - intros Hget. rewrite get_movie_details_eq. eapply cache_aside_failure; eauto.
    unfold details_fetch. now rewrite (bind_raise _ _ _ _ _ (req_no_key key _ _ w1 Hk)).
  - intros Hget. rewrite get_tv_details_eq. eapply cache_aside_failure; eauto.
    unfold details_fetch. now rewrite (bind_raise _ _ _ _ _ (req_no_key key _ _ w1 Hk)).
  - intros Hv. unfold get_trending, valid_media_type, valid_time_window in *.
    apply andb_prop in Hv as [H1 H2]. rewrite H1, H2. cbn [negb].
    now rewrite (bind_raise _ _ _ _ _ (req_no_key key _ _ w Hk)).
Qed.

Lemma metadata_requires_key_witness :
  search_multi None "matrix" "multi" 1 w_fresh
  = (Raise (TMDbError "TMDB_API_KEY not set"), w_fresh)
  /\ get_trending (Some "") "all" "week" 1 w_fresh
     = (Raise (TMDbError "TMDB_API_KEY not set"), w_fresh).
Proof.
  split.
  - apply (proj1 (metadata_requires_key None None "matrix" "multi" 1 603 "all" "week"
                    w_fresh w_fresh eq_refl)). reflexivity.
  - apply (proj2 (proj2 (proj2 (metadata_requires_key (Some "") None "matrix" "multi" 1 603
                                  "all" "week" w_fresh w_fresh eq_refl)))). reflexivity.
Defined.

(** A computation that succeeds after a miss: its value is returned and stored. *)
Lemma cache_aside_miss {A} key (f : A -> json) compute w w1 x w2 :
  _cache_get key w = (Ok JNull, w1) -> compute w1 = (Ok x, w2) ->
  exists w3, cache_aside key f compute w = (Ok (f x), w3) /\ same_outside_cache w2 w3.
Proof.
  intros Hget Hc. unfold cache_aside. rewrite (bind_ok _ _ _ _ _ Hget). cbv iota beta.
  rewrite (bind_ok _ _ _ _ _ Hc).
  destruct (cache_never_raises_set key (f x) CACHE_TTL w2) as [w3 [Hset Hso]].
  exists w3. rewrite (bind_ok _ _ _ _ _ Hset). auto.
Qed.

Lemma truthy_str ok : Py.truthy (JStr ok) = true -> ok <> "".
Proof. simpl. intros H ->. discriminate. Qed.

(** The awards step in closed form. *)
Lemma enrich_run omdb out w :
  exists w1,
    enrich omdb out w = (Ok (enriched omdb (server w) out), w1)
    /\ http_log w1 = (http_log w ++ awards_requests omdb out)%list
    /\ same_outside_log w w1.
Proof.
  unfold enrich, enriched, awards_requests.
  destruct omdb as [ok|].
  - change (of_opt (Some ok)) with (JStr ok).
    destruct (Py.truthy (Py.dget "imdb_id" out JNull) && Py.truthy (JStr ok)) eqn:Ec.
    + apply andb_prop in Ec as [Eid Eok].
      assert (Hgi : Py.getitem (JObj out) "imdb_id" = Ok (Py.dget "imdb_id" out JNull)).
      { unfold Py.getitem, Py.dget in *. destruct (Py.lookup "imdb_id" out); auto.
        discriminate. }
      unfold bind at 1. unfold lift. rewrite Hgi. cbv beta iota.
      rewrite (bind_ok _ _ _ _ _ (awards_eq ok _ w (truthy_str ok Eok) Eid)).
      eexists. split; [reflexivity|]. split; [reflexivity|].
      apply same_outside_log_sent.
    + exists w. unfold ret. rewrite app_nil_r. split; [reflexivity|]. split; auto.
      apply same_outside_log_refl.
  - change (of_opt None) with JNull. simpl Py.truthy. rewrite andb_false_r.
    exists w. unfold ret. rewrite app_nil_r.
    split; [reflexivity|]. split; auto. apply same_outside_log_refl.
Qed.

Lemma lookup_enriched omdb sv out k :
  String.eqb k "awards" = false -> Py.lookup k (enriched omdb sv out) = Py.lookup k out.
Proof.
  intros H. unfold enriched. destruct omdb; auto.
  destruct (_ && _); auto. now apply lookup_set_other.
Qed.

Lemma tv_out_fields data out :
  tv_out data = Ok out ->
  Py.lookup "runtime" out = Some JNull
  /\ Py.lookup "type" out = Some (JStr "tv")
  /\ Py.lookup "title" out = Some (field data "name").
Proof.
  unfold tv_out. destruct data; try discriminate.
  unfold Py.get at 1 2 3 4 5. unfold rbind at 1 2 3 4 5.
  destruct (genre_names (JObj kvs)); [|discriminate].
  unfold Py.get at 1 2 3. unfold rbind at 1 2 3 4.
  destruct (Py.get _ "imdb_id" JNull); [|discriminate].
  unfold rbind. intros H. inversion H. auto.
Qed.

Lemma movie_out_fields data out :
  movie_out data = Ok out ->
  Py.lookup "runtime" out = Some (field data "runtime")
  /\ Py.lookup "type" out = Some (JStr "movie")
  /\ Py.lookup "title" out = Some (field data "title").
Proof.
  unfold movie_out. destruct data; try discriminate.
  unfold Py.get at 1 2 3 4 5. unfold rbind at 1 2 3 4 5.
  destruct (genre_names (JObj kvs)); [|discriminate].
  unfold Py.get at 1 2 3 4. unfold rbind at 1 2 3 4 5.
  destruct (Py.get _ "imdb_id" JNull); [|discriminate].
  unfold rbind. intros H. inversion H. auto.
Qed.

(** A detail call for a movie or a tv show that misses the cache, on a
    well-formed answer: the metadata request is sent, then one request
    to the secondary provider exactly when the record has an external
    identifier and the secondary key is set; the result is the
    normalized record, with the awards read off the secondary answer in
    that case. A tv record never carries a runtime. *)
Theorem get_details_requests (tmdb omdb : option string) (kind : string) (tmdb_id : Z)
    (w w1 : world) (k : string) (r : response) (data : json) (out : dict) :
  kind = "movie" \/ kind = "tv" ->
  tmdb = Some k -> k <> "" ->
  _cache_get (details_key kind tmdb_id) w = (Ok JNull, w1) ->
  server w (tmdb_request k (details_path kind tmdb_id) details_params) = Reply r ->
  status_code r = 200 ->
  json_body r = Some data ->
  details_out kind data = Ok out ->
  exists w',
    get_details tmdb omdb kind tmdb_id w = (Ok (JObj (enriched omdb (server w) out)), w')
    /\ http_log w' = (http_log w
                      ++ tmdb_request k (details_path kind tmdb_id) details_params
                         :: awards_requests omdb out)%list
    /\ Py.lookup "type" (enriched omdb (server w) out) = Some (JStr kind)
    /\ (kind = "tv" -> Py.lookup "runtime" (enriched omdb (server w) out) = Some JNull).
Proof.
  intros Hkind -> Hk Hget Hs H200 Hj Hout.
  destruct (cache_get_frame _ _ _ _ Hget) as [Hsv [Hlog _]]. rewrite <- Hsv in *.
  set (rq := tmdb_request k (details_path kind tmdb_id) details_params) in *.
  assert (Hfetch : exists w3,
             details_fetch (Some k) omdb (details_path kind tmdb_id) (details_out kind) w1
             = (Ok (enriched omdb (server w1) out), w3)
             /\ http_log w3 = (http_log w1 ++ rq :: awards_requests omdb out)%list).
  { unfold details_fetch.
    rewrite (bind_ok _ _ _ _ _ (req_ok k _ details_params w1 r data Hk Hs H200 Hj)).
    fold rq. unfold bind at 1. unfold lift. rewrite Hout.
    destruct (enrich_run omdb out (sent rq w1)) as [w3 [He [Hl _]]].
    exists w3. split; [exact He|]. rewrite Hl. simpl. now rewrite <- app_assoc. }
  destruct Hfetch as [w3 [Hfetch Hl3]].
  assert (Hrun : exists w',
             get_details (Some k) omdb kind tmdb_id w
             = (Ok (JObj (enriched omdb (server w1) out)), w')
             /\ http_log w' = http_log w3).
  { destruct Hkind as [-> | ->].
    - change (get_details (Some k) omdb "movie" tmdb_id)
        with (get_movie_details (Some k) omdb tmdb_id).
      rewrite get_movie_details_eq.
      destruct (cache_aside_miss (movie_key tmdb_id) JObj _ w w1 _ w3 Hget Hfetch)
        as [w4 [H4 [_ [_ [_ [Hl4 _]]]]]]. eauto.
    - change (get_details (Some k) omdb "tv" tmdb_id)
        with (get_tv_details (Some k) omdb tmdb_id).
      rewrite get_tv_details_eq.
      destruct (cache_aside_miss (tv_key tmdb_id) JObj _ w w1 _ w3 Hget Hfetch)
        as [w4 [H4 [_ [_ [_ [Hl4 _]]]]]]. eauto. }
  destruct Hrun as [w' [Hrun Hl']].
  exists w'. split; [exact Hrun|]. split; [now rewrite Hl', Hl3, Hlog|].
  rewrite !lookup_enriched by reflexivity. unfold details_out in Hout.
  destruct Hkind as [-> | ->]; simpl in Hout.
  - destruct (movie_out_fields _ _ Hout) as [_ [Ht _]]. split; [exact Ht|]. discriminate.
  - destruct (tv_out_fields _ _ Hout) as [Hr [Ht _]]. auto.
Qed.

Lemma get_details_requests_witness :
  exists w',
    get_details (Some "key") (Some "omdbkey") "tv" 1399 w_tv
    = (Ok (JObj (enriched (Some "omdbkey") tv_server
                   [("type", JStr "tv"); ("id", JNum 1399); ("title", JStr "Game of Thrones");
                    ("overview", JNull); ("poster", JNull); ("backdrop", JNull);
                    ("genres", JList []); ("runtime", JNull); ("rating", JNull);
                    ("credits", JObj []); ("imdb_id", JStr "tt0944947")])), w')
    /\ http_log w' = [tmdb_request "key" "/tv/1399" details_params;
                      omdb_request "omdbkey" (JStr "tt0944947")].
Proof.
  edestruct (get_details_requests (Some "key") (Some "omdbkey") "tv" 1399 w_tv w_tv "key"
               (mkResponse 200 "" (Some got_thrones_body)) got_thrones_body)
    as [w' [H1 [H2 _]]]; try reflexivity; [right; reflexivity | discriminate |].
  exists w'. split; [exact H1 | exact H2].
Defined.

Lemma trending_item_fields mt r :
  trending_record_ok r = true ->
  exists item, trending_item mt r = Ok (Some item) /\ trending_fields mt r item.
Proof.
  destruct r as [| | | | |d|]; try discriminate. intros Hok.
  unfold trending_record_ok in Hok.
  unfold trending_item, trending_fields, or_else, Py.or_, Py.get, Py.getitem, rbind, field.
  unfold Py.dget in Hok.
  assert (Hp : Py.dget "poster_path" d JNull
               = match Py.lookup "poster_path" d with Some v => v | None => JNull end)
    by reflexivity.
  destruct (String.eqb mt "all"); cbn [negb];
    destruct (Py.lookup "poster_path" d) as [[| | |p| | |]|]; try discriminate;
    rewrite Hp; cbn [Py.truthy]; try destruct (String.eqb p "") eqn:?;
    cbn [negb]; repeat break_if;
    (eexists; split; [reflexivity|]; cbn; auto).
Qed.

Lemma trending_items_fields mt rs :
  forallb trending_record_ok rs = true ->
  exists items,
    collect (trending_item mt) rs = Ok items /\ Forall2 (trending_fields mt) rs items.
Proof.
  induction rs as [|r rs IH]; simpl; intros H.
  - exists []. split; auto.
  - apply andb_prop in H as [Hr Hrs].
    destruct (trending_item_fields mt r Hr) as [item [Hi Hn]].
    destruct (IH Hrs) as [items [Hc Hf]].
    exists (item :: items). rewrite Hi. simpl. rewrite Hc. simpl. auto.
Qed.

(** A successful run of [get_trending], given the items the loop yields. *)
Lemma get_trending_run k media_type time_window page w r data rs items :
  valid_media_type media_type && valid_time_window time_window = true ->
  k <> "" ->
  server w (tmdb_request k ("/trending/" ++ media_type ++ "/" ++ time_window)
              [("page", JNum page)]) = Reply r ->
  status_code r = 200 ->
  json_body r = Some (JObj data) ->
  Py.dget "results" data (JList []) = JList rs ->
  collect (trending_item media_type) rs = Ok items ->
  get_trending (Some k) media_type time_window page w
  = (Ok (JList items),
     sent (tmdb_request k ("/trending/" ++ media_type ++ "/" ++ time_window)
             [("page", JNum page)]) w).
Proof.
  intros H Hk Hs H200 Hj Hres Hc. unfold get_trending, valid_media_type, valid_time_window in *.
  apply andb_prop in H as [H1 H2]. rewrite H1, H2. cbn [negb].
  unfold bind. rewrite (req_ok k _ _ w r (JObj data) Hk Hs H200 Hj).
  unfold lift, ret, Py.get. rewrite Hres. simpl Py.iter. cbv iota beta.
  rewrite Hc. reflexivity.
Qed.

(** The media type and date of a trending item: for a media type other
    than ["all"], a record without a media type takes the requested one;
    the release date is the release date, else the first air date, else
    the empty string, never null. *)
Theorem get_trending_fields (k media_type time_window : string) (page : Z) (w : world)
    (r : response) (data : dict) (rs : list json) :
  valid_media_type media_type && valid_time_window time_window = true ->
  k <> "" ->
  server w (tmdb_request k ("/trending/" ++ media_type ++ "/" ++ time_window)
              [("page", JNum page)]) = Reply r ->
  status_code r = 200 ->
  json_body r = Some (JObj data) ->
  Py.dget "results" data (JList []) = JList rs ->
  forallb trending_record_ok rs = true ->
  exists items w',
    get_trending (Some k) media_type time_window page w = (Ok (JList items), w')
    /\ Forall2 (trending_fields media_type) rs items.
Proof.
  intros H Hk Hs H200 Hj Hres Hok.
  destruct (trending_items_fields media_type rs Hok) as [items [Hc Hf]].
  exists items. eexists. split; [|exact Hf].
  eapply get_trending_run; eauto.
Qed.

Lemma get_trending_fields_witness :
  exists items w',
    get_trending (Some "key") "movie" "day" 1 (w_serving (results_body trending_rows))
    = (Ok (JList items), w')
    /\ Forall2 (trending_fields "movie") trending_rows items.
Proof.
  apply (get_trending_fields "key" "movie" "day" 1 (w_serving (results_body trending_rows))
           (mkResponse 200 "" (Some (results_body trending_rows)))
           [("results", JList trending_rows)] trending_rows);
    try reflexivity. discriminate.
Defined.

(** Trending results are not cached: the cache file is never touched and
    a repeated call sends its request again. *)
Theorem get_trending_not_cached (k media_type time_window : string) (page : Z) (w : world)
    (r : response) (data : dict) (rs : list json) :
  valid_media_type media_type && valid_time_window time_window = true ->
  k <> "" ->
  let rq := tmdb_request k ("/trending/" ++ media_type ++ "/" ++ time_window)
              [("page", JNum page)] in
  server w rq = Reply r ->
  status_code r = 200 ->
  json_body r = Some (JObj data) ->
  Py.dget "results" data (JList []) = JList rs ->
  forallb trending_record_ok rs = true ->
  exists items,
    get_trending (Some k) media_type time_window page w = (Ok (JList items), sent rq w)
    /\ get_trending (Some k) media_type time_window page (sent rq w)
       = (Ok (JList items), sent rq (sent rq w))
    /\ cache_file (sent rq (sent rq w)) = cache_file w.
Proof.
  intros H Hk rq Hs H200 Hj Hres Hok.
  destruct (trending_items_fields media_type rs Hok) as [items [Hc _]].
  exists items. split; [|split]; [| |reflexivity].
  - eapply get_trending_run; eauto.
  - eapply get_trending_run; eauto.
Qed.

Lemma get_trending_not_cached_witness :
  exists items w2,
    get_trending (Some "key") "all" "week" 1 (w_serving (results_body trending_rows))
    = (Ok (JList items),
       sent (tmdb_request "key" "/trending/all/week" [("page", JNum 1)])
         (w_serving (results_body trending_rows)))
    /\ get_trending (Some "key") "all" "week" 1
         (sent (tmdb_request "key" "/trending/all/week" [("page", JNum 1)])
            (w_serving (results_body trending_rows)))
       = (Ok (JList items), w2)
    /\ List.length (http_log w2) = 2%nat.
Proof.
  assert (Hk : "key" <> "") by discriminate.
  destruct (get_trending_not_cached "key" "all" "week" 1
              (w_serving (results_body trending_rows))
              (mkResponse 200 "" (Some (results_body trending_rows)))
              [("results", JList trending_rows)] trending_rows
              eq_refl Hk eq_refl eq_refl eq_refl eq_refl eq_refl) as [items [H1 [H2 _]]].
  exists items. eexists. split; [exact H1|]. split; [exact H2 | reflexivity].
Defined.

Lemma single_item_fields kind it :
  is_obj it = true ->
  exists item, single_item kind it = Ok (Some item) /\ single_fields kind it item.
Proof.
  destruct it as [| | | | |d|]; try discriminate. intros _.
  unfold single_item, single_fields, or_else, Py.or_, Py.get, rbind, field.
  repeat break_if; (eexists; split; [reflexivity|]; cbn; auto 6).
Qed.

Lemma single_items_fields kind its :
  forallb is_obj its = true ->
  exists results,
    collect (single_item kind) its = Ok results
    /\ Forall2 (single_fields kind) its results.
Proof.
  induction its as [|it its IH]; simpl; intros H.
  - exists []. auto.
  - apply andb_prop in H as [Hi His].
    destruct (IH His) as [rs [Hc Hf]].
    destruct (single_item_fields kind it Hi) as [item [Hm Hn]].
    exists (item :: rs). rewrite Hm. simpl. rewrite Hc. simpl. auto.
Qed.

Lemma multi_item_fields it :
  is_obj it = true ->
  if is_movie_or_tv it
  then exists item, multi_item it = Ok (Some item) /\ multi_fields it item
  else multi_item it = Ok None.
Proof.
  destruct it as [| | | | |d|]; try discriminate. intros _.
  unfold is_movie_or_tv, multi_item, multi_fields, or_else, Py.or_, Py.get, rbind, field.
  destruct (eq_str (Py.dget "media_type" d JNull) "movie") eqn:Em.
  - cbn [orb negb]. repeat break_if; (eexists; split; [reflexivity|]; cbn; auto).
  - destruct (eq_str (Py.dget "media_type" d JNull) "tv") eqn:Et; cbn [orb negb].
    + repeat break_if; (eexists; split; [reflexivity|]; cbn; auto).
    + reflexivity.
Qed.

Lemma multi_items_fields its :
  forallb is_obj its = true ->
  exists results,
    collect multi_item its = Ok results
    /\ Forall2 multi_fields (filter is_movie_or_tv its) results.
Proof.
  induction its as [|it its IH]; simpl; intros H.
  - exists []. auto.
  - apply andb_prop in H as [Hi His].
    destruct (IH His) as [rs [Hc Hf]].
    assert (Hm := multi_item_fields it Hi).
    destruct (is_movie_or_tv it).
    + destruct Hm as [item [Hm Hn]].
      exists (item :: rs). rewrite Hm. simpl. rewrite Hc. simpl. auto.
    + exists rs. rewrite Hm. simpl. rewrite Hc. simpl. auto.
Qed.

(** A run of [search_multi] that misses the cache, given what the loop yields. *)
Lemma search_run k query kind page w w1 r data its results :
  k <> "" ->
  _cache_get (search_key query kind page) w = (Ok JNull, w1) ->
  server w (tmdb_request k (search_path kind) (search_params query page)) = Reply r ->
  status_code r = 200 ->
  json_body r = Some (JObj data) ->
  Py.dget "results" data (JList []) = JList its ->
  collect (if String.eqb kind "multi" || String.eqb kind "both"
           then multi_item else single_item kind) its = Ok results ->
  exists w',
    search_multi (Some k) query kind page w = (Ok (JList results), w')
    /\ http_log w' = (http_log w
                      ++ [tmdb_request k (search_path kind) (search_params query page)])%list.
Proof.
  intros Hk Hget Hs H200 Hj Hres Hc.
  destruct (cache_get_frame _ _ _ _ Hget) as [Hsv [Hlog _]]. rewrite <- Hsv in Hs.
  set (rq := tmdb_request k (search_path kind) (search_params query page)) in *.
  assert (Hf : search_fetch (Some k) query kind page w1 = (Ok results, sent rq w1)).
  { unfold search_fetch. subst rq. unfold search_path in *.
    destruct (String.eqb kind "multi" || String.eqb kind "both"); cbv zeta;
      eapply search_branch_ok; eauto. }
  rewrite search_multi_eq.
  destruct (cache_aside_miss (search_key query kind page) JList _ w w1 _ _ Hget Hf)
    as [w3 [H3 [_ [_ [_ [Hl3 _]]]]]].
  exists w3. split; [exact H3|]. rewrite Hl3. simpl. now rewrite Hlog.
Qed.

(** A search for one kind, movie or tv: the endpoint of that kind is
    queried once and every provider item is returned, in order and
    unfiltered, labelled with the kind, its title being the item's
    title or else its name. *)
Theorem search_single_kind (k query kind : string) (page : Z) (w w1 : world)
    (r : response) (data : dict) (its : list json) :
  kind = "movie" \/ kind = "tv" ->
  k <> "" ->
  _cache_get (search_key query kind page) w = (Ok JNull, w1) ->
  server w (tmdb_request k ("/search/" ++ kind) (search_params query page)) = Reply r ->
  status_code r = 200 ->
  json_body r = Some (JObj data) ->
  Py.dget "results" data (JList []) = JList its ->
  forallb is_obj its = true ->
  exists results w',
    search_multi (Some k) query kind page w = (Ok (JList results), w')
    /\ http_log w' = (http_log w
                      ++ [tmdb_request k ("/search/" ++ kind) (search_params query page)])%list
    /\ Forall2 (single_fields kind) its results.
Proof.
  intros Hkind Hk Hget Hs H200 Hj Hres Hobj.
  destruct (single_items_fields kind its Hobj) as [results [Hc Hf]].
  assert (Hp : search_path kind = "/search/" ++ kind /\
               String.eqb kind "multi" || String.eqb kind "both" = false)
    by (destruct Hkind as [-> | ->]; split; reflexivity).
  destruct Hp as [Hp Hb]. rewrite <- Hp in *.
  destruct (search_run k query kind page w w1 r data its results) as [w' [H1 H2]]; auto.
  { now rewrite Hb. }
  exists results, w'. auto.
Qed.

Lemma search_single_kind_witness :
  exists results w',
    search_multi (Some "key") "matrix" "movie" 1 (w_serving (results_body search_rows))
    = (Ok (JList results), w')
    /\ http_log w' = (http_log (w_serving (results_body search_rows))
                      ++ [tmdb_request "key" ("/search/" ++ "movie")
                            (search_params "matrix" 1)])%list
    /\ Forall2 (single_fields "movie") search_rows results.
Proof.
  apply (search_single_kind "key" "matrix" "movie" 1
           (w_serving (results_body search_rows)) (w_serving (results_body search_rows))
           (mkResponse 200 "" (Some (results_body search_rows)))
           [("results", JList search_rows)] search_rows);
    try reflexivity; [left; reflexivity | discriminate].
Defined.

(** The summaries of the combined search: a movie takes its title from
    [title] and a tv show from [name], without falling back on the other
    field; the date is the release date or else the first air date. *)
Theorem search_multi_summaries (k query : string) (page : Z) (w w1 : world)
    (r : response) (data : dict) (its : list json) :
  k <> "" ->
  _cache_get (search_key query "multi" page) w = (Ok JNull, w1) ->
  server w (tmdb_request k "/search/multi" (search_params query page)) = Reply r ->
  status_code r = 200 ->
  json_body r = Some (JObj data) ->
  Py.dget "results" data (JList []) = JList its ->
  forallb is_obj its = true ->
  exists results w',
    search_multi (Some k) query "multi" page w = (Ok (JList results), w')
    /\ Forall2 multi_fields (filter is_movie_or_tv its) results.
Proof.
  intros Hk Hget Hs H200 Hj Hres Hobj.
  destruct (multi_items_fields its Hobj) as [results [Hc Hf]].
  destruct (search_run k query "multi" page w w1 r data its results) as [w' [H1 H2]]; auto.
  exists results, w'. auto.
Qed.

Lemma search_multi_summaries_witness :
  exists results w',
    search_multi (Some "key") "matrix" "multi" 1 (w_serving (results_body search_rows))
    = (Ok (JList results), w')
    /\ Forall2 multi_fields (filter is_movie_or_tv search_rows) results.
Proof.
  apply (search_multi_summaries "key" "matrix" 1
           (w_serving (results_body search_rows)) (w_serving (results_body search_rows))
           (mkResponse 200 "" (Some (results_body search_rows)))
           [("results", JList search_rows)] search_rows);
    try reflexivity. discriminate.
Defined.

(** A provider item that is not an object makes the search raise
    [AttributeError], and nothing is stored in the cache. *)
Theorem search_malformed_item (k query kind : string) (page : Z) (w w1 : world)
    (r : response) (data : dict) (its : list json) :
  k <> "" ->
  _cache_get (search_key query kind page) w = (Ok JNull, w1) ->
  server w (tmdb_request k (search_path kind) (search_params query page)) = Reply r ->
  status_code r = 200 ->
  json_body r = Some (JObj data) ->
  Py.dget "results" data (JList []) = JList its ->
  forallb is_obj its = false ->
  search_multi (Some k) query kind page w
  = (Raise AttributeError,
     sent (tmdb_request k (search_path kind) (search_params query page)) w1).
Proof.
  intros Hk Hget Hs H200 Hj Hres Hobj.
  destruct (cache_get_frame _ _ _ _ Hget) as [Hsv _]. rewrite <- Hsv in Hs.
  rewrite search_multi_eq. eapply cache_aside_failure; eauto.
  assert (Hc : forall body : json -> result (option json),
             (forall it, is_obj it = true -> exists o, body it = Ok o) ->
             (forall it, is_obj it = false -> body it = Raise AttributeError) ->
             collect body its = Raise AttributeError).
  { intros body Hgood Hbad. clear Hres. induction its as [|it its IH]; [discriminate|].
    simpl in *. destruct (is_obj it) eqn:Ei.
    - destruct (Hgood it Ei) as [o ->]. simpl. rewrite IH; auto.
    - now rewrite (Hbad it Ei). }
  assert (Hmulti : collect multi_item its = Raise AttributeError).
  { apply Hc.
    - intros it Hi. assert (H := multi_item_ok it Hi).
      destruct (is_movie_or_tv it); [destruct H as [item [H _]]|]; eauto.
    - intros it Hi. destruct it; try reflexivity. discriminate. }
  assert (Hsingle : collect (single_item kind) its = Raise AttributeError).
  { apply Hc.
    - intros it Hi. destruct (single_item_ok kind it Hi) as [item [H _]]. eauto.
    - intros it Hi. destruct it; try reflexivity. discriminate. }
  unfold search_fetch, search_path in *.
  destruct (String.eqb kind "multi" || String.eqb kind "both"); cbv zeta.
  - erewrite bind_ok by (eapply req_ok; eauto).
    unfold bind, lift, Py.get. rewrite Hres. simpl Py.iter. cbv iota beta.
    now rewrite Hmulti.
  - erewrite bind_ok by (eapply req_ok; eauto).
    unfold bind, lift, Py.get. rewrite Hres. simpl Py.iter. cbv iota beta.
    now rewrite Hsingle.
Qed.

Lemma search_malformed_item_witness :
  search_multi (Some "key") "matrix" "multi" 1
    (w_serving (results_body [JObj [("media_type", JStr "movie")]; JStr "oops"]))
  = (Raise AttributeError,
     sent (tmdb_request "key" (search_path "multi") (search_params "matrix" 1))
       (w_serving (results_body [JObj [("media_type", JStr "movie")]; JStr "oops"]))).
Proof.
  apply (search_malformed_item "key" "matrix" "multi" 1 _ _
           (mkResponse 200 ""
              (Some (results_body [JObj [("media_type", JStr "movie")]; JStr "oops"])))
           [("results", JList [JObj [("media_type", JStr "movie")]; JStr "oops"])]
           [JObj [("media_type", JStr "movie")]; JStr "oops"]);
    try reflexivity. discriminate.
Defined.

(** ** The auth and watchlist client *)

Lemma truthy_dget_nonempty k sess :
  Py.truthy (Py.dget k sess JNull) = true -> Py.truthy (JObj sess) = true.
Proof. destruct sess; [discriminate | reflexivity]. Qed.

Lemma id_token_session w sess :
  user w = JObj sess -> Py.truthy (JObj sess) = true ->
  id_token w = (Ok (Py.dget "idToken" sess JNull), w).
Proof.
  intros Hu Ht. unfold id_token, bind, get_user. rewrite Hu, Ht. reflexivity.
Qed.

Lemma user_id_session w sess :
  user w = JObj sess -> Py.truthy (JObj sess) = true ->
  user_id w = (Ok (Py.dget "localId" sess JNull), w).
Proof.
  intros Hu Ht. unfold user_id, bind, get_user. rewrite Hu, Ht. reflexivity.
Qed.

Lemma user_path_session db_url path w sess :
  user w = JObj sess ->
  Py.truthy (Py.dget "localId" sess JNull) = true ->
  _user_path db_url path w
  = (Ok (db_url ++ "/users/" ++ Py.str (Py.dget "localId" sess JNull) ++ "/" ++ path ++ ".json"),
     w).
Proof.
  intros Hu Hid. assert (Ht := truthy_dget_nonempty _ _ Hid).
  unfold _user_path. rewrite (bind_ok _ _ _ _ _ (user_id_session w sess Hu Ht)).
  rewrite Hid. cbn [negb]. rewrite (bind_ok _ _ _ _ _ (user_id_session w sess Hu Ht)).
  reflexivity.
Qed.

(** With a session that holds a token and a user id, [get_watchlist]
    sends one GET to the user's watchlist document with the token; it
    returns the body of a 200 answer, an empty dict standing for a null
    or otherwise falsy body, and raises [FirebaseAuthError] on any other
    status. *)
Theorem get_watchlist_request (db_url : string) (w : world) (sess : dict) :
  user w = JObj sess ->
  Py.truthy (Py.dget "idToken" sess JNull) = true ->
  Py.truthy (Py.dget "localId" sess JNull) = true ->
  let rq := mkRequest GET
              (user_url db_url (Py.dget "localId" sess JNull) "watchlist"
                 (Py.dget "idToken" sess JNull)) [] JNull in
  (forall r data,
     server w rq = Reply r -> status_code r = 200 -> json_body r = Some data ->
     get_watchlist db_url w = (Ok (if Py.truthy data then data else JObj []), sent rq w))
  /\ (forall r,
        server w rq = Reply r -> status_code r <> 200 ->
        get_watchlist db_url w
        = (Raise (FirebaseAuthError (JStr "Failed to fetch watchlist")), sent rq w)).
Proof.
  intros Hu Htok Hid rq. assert (Ht := truthy_dget_nonempty _ _ Htok).
  assert (Hpre : forall k : string -> M json,
             (tok <- id_token ;;
              if negb (Py.truthy tok)
              then raise (FirebaseAuthError (JStr "User not authenticated"))
              else p <- _user_path db_url "watchlist" ;; tok <- id_token ;;
                   k (p ++ "?auth=" ++ Py.str tok)) w
             = k (req_url rq) w).
  { intros k. rewrite (bind_ok _ _ _ _ _ (id_token_session w sess Hu Ht)).
    rewrite Htok. cbn [negb].
    rewrite (bind_ok _ _ _ _ _ (user_path_session db_url "watchlist" w sess Hu Hid)).
    rewrite (bind_ok _ _ _ _ _ (id_token_session w sess Hu Ht)). reflexivity. }
  unfold get_watchlist. split.
  - intros r data Hs H200 Hj.
    rewrite (Hpre (fun url => resp <- http (mkRequest GET url [] JNull) ;; _)).
    unfold bind, http. change (mkRequest GET (req_url rq) [] JNull) with rq.
    rewrite Hs. cbv beta iota. rewrite H200. cbn [negb Z.eqb Pos.eqb].
    unfold resp_json. rewrite Hj. reflexivity.
  - intros r Hs Hne.
    rewrite (Hpre (fun url => resp <- http (mkRequest GET url [] JNull) ;; _)).
    unfold bind, http. change (mkRequest GET (req_url rq) [] JNull) with rq.
    rewrite Hs. cbv beta iota. apply Z.eqb_neq in Hne. rewrite Hne. reflexivity.
Qed.

Lemma get_watchlist_request_witness :
  get_watchlist "https://db.example.com" w_signed_in
  = (Ok (JObj []),
     sent (mkRequest GET
             "https://db.example.com/users/uid789/watchlist.json?auth=tok123" [] JNull)
       w_signed_in).
Proof.
  destruct (get_watchlist_request "https://db.example.com" w_signed_in neo_session
              eq_refl eq_refl eq_refl) as [H _].
  apply (H (mkResponse 200 "null" (Some JNull)) JNull); reflexivity.
Defined.

(** With a session that holds a token and a user id, [add_to_watchlist]
    sends one PUT of the item to the document of that identifier under
    the user's watchlist; it returns on status 200 or 204 and raises
    [FirebaseAuthError] on any other status. *)
Theorem add_to_watchlist_request (db_url imdb_id : string) (movie_data : json)
    (w : world) (sess : dict) :
  user w = JObj sess ->
  Py.truthy (Py.dget "idToken" sess JNull) = true ->
  Py.truthy (Py.dget "localId" sess JNull) = true ->
  let rq := mkRequest PUT
              (user_url db_url (Py.dget "localId" sess JNull) ("watchlist/" ++ imdb_id)
                 (Py.dget "idToken" sess JNull)) [] movie_data in
  forall r,
    server w rq = Reply r ->
    add_to_watchlist db_url imdb_id movie_data w
    = (if (status_code r =? 200) || (status_code r =? 204) then Ok tt
       else Raise (FirebaseAuthError (JStr "Failed to save to watchlist")),
       sent rq w).
Proof.
  intros Hu Htok Hid rq r Hs. assert (Ht := truthy_dget_nonempty _ _ Htok).
  unfold add_to_watchlist.
  rewrite (bind_ok _ _ _ _ _ (id_token_session w sess Hu Ht)).
  rewrite Htok. cbn [negb].
  rewrite (bind_ok _ _ _ _ _
             (user_path_session db_url ("watchlist/" ++ imdb_id) w sess Hu Hid)).
  rewrite (bind_ok _ _ _ _ _ (id_token_session w sess Hu Ht)). cbv zeta.
  unfold bind, http. fold (user_url db_url (Py.dget "localId" sess JNull)
                             ("watchlist/" ++ imdb_id) (Py.dget "idToken" sess JNull)).
  fold rq. rewrite Hs. cbv beta iota.
  destruct ((status_code r =? 200) || (status_code r =? 204)); reflexivity.
Qed.

Lemma add_to_watchlist_request_witness :
  add_to_watchlist "https://db.example.com" "tt0133093"
    (JObj [("title", JStr "The Matrix")]) w_signed_in
  = (Ok tt,
     sent (mkRequest PUT
             "https://db.example.com/users/uid789/watchlist/tt0133093.json?auth=tok123"
             [] (JObj [("title", JStr "The Matrix")]))
       w_signed_in).
Proof.
  apply (add_to_watchlist_request "https://db.example.com" "tt0133093"
           (JObj [("title", JStr "The Matrix")]) w_signed_in neo_session
           eq_refl eq_refl eq_refl (mkResponse 200 "null" (Some JNull))).
  reflexivity.
Defined.

(** A session with a token but no user id: both watchlist operations
    raise [FirebaseAuthError "No authenticated user"] and send nothing. *)
Theorem watchlist_token_without_user_id (db_url imdb_id : string) (movie_data : json)
    (w : world) (sess : dict) :
  user w = JObj sess ->
  Py.truthy (Py.dget "idToken" sess JNull) = true ->
  Py.truthy (Py.dget "localId" sess JNull) = false ->
  get_watchlist db_url w = (Raise (FirebaseAuthError (JStr "No authenticated user")), w)
  /\ add_to_watchlist db_url imdb_id movie_data w
     = (Raise (FirebaseAuthError (JStr "No authenticated user")), w).
Proof.
  intros Hu Htok Hid. assert (Ht := truthy_dget_nonempty _ _ Htok).
  assert (Hp : forall path,
             _user_path db_url path w
             = (Raise (FirebaseAuthError (JStr "No authenticated user")), w)).
  { intros path. unfold _user_path.
    rewrite (bind_ok _ _ _ _ _ (user_id_session w sess Hu Ht)). now rewrite Hid. }
  split.
  - unfold get_watchlist. rewrite (bind_ok _ _ _ _ _ (id_token_session w sess Hu Ht)).
    rewrite Htok. cbn [negb]. now rewrite (bind_raise _ _ _ _ _ (Hp _)).
  - unfold add_to_watchlist. rewrite (bind_ok _ _ _ _ _ (id_token_session w sess Hu Ht)).
    rewrite Htok. cbn [negb]. now rewrite (bind_raise _ _ _ _ _ (Hp _)).
Qed.

Lemma watchlist_token_without_user_id_witness :
  get_watchlist "https://db.example.com"
    (with_user (JObj [("idToken", JStr "tok123")]) w_fresh)
  = (Raise (FirebaseAuthError (JStr "No authenticated user")),
     with_user (JObj [("idToken", JStr "tok123")]) w_fresh).
Proof.
  apply (proj1 (watchlist_token_without_user_id "https://db.example.com" "tt0133093" JNull
                  (with_user (JObj [("idToken", JStr "tok123")]) w_fresh)
                  [("idToken", JStr "tok123")] eq_refl eq_refl eq_refl)).
Defined.

(** The life of a session: a sign-in answered with status 200 and an
    object stores that object, after which the client is authenticated
    and the token, user id and email are those of the object; after
    [sign_out] the client is no longer authenticated and the watchlist
    is refused without any request. *)
Theorem session_lifecycle (api_key db_url email password : string) (w : world)
    (r : response) (sess : dict) :
  server w (sign_in_request api_key email password) = Reply r ->
  status_code r = 200 ->
  json_body r = Some (JObj sess) ->
  Py.truthy (JObj sess) = true ->
  let w1 := with_user (JObj sess) (sent (sign_in_request api_key email password) w) in
  let w2 := with_user JNull w1 in
  sign_in api_key email password w = (Ok (JObj sess), w1)
  /\ is_authenticated w1 = (Ok true, w1)
  /\ id_token w1 = (Ok (Py.dget "idToken" sess JNull), w1)
  /\ user_id w1 = (Ok (Py.dget "localId" sess JNull), w1)
  /\ get_user_email w1 = (Ok (Py.dget "email" sess JNull), w1)
  /\ sign_out w1 = (Ok tt, w2)
  /\ is_authenticated w2 = (Ok false, w2)
  /\ get_watchlist db_url w2
     = (Raise (FirebaseAuthError (JStr "User not authenticated")), w2).
Proof.
  intros Hs H200 Hj Ht w1 w2. unfold sign_in_request in Hs.
  split; [|split; [|split; [|split; [|split; [|split; [|split]]]]]].
  - unfold sign_in, bind, http. rewrite Hs. cbv beta iota.
    unfold resp_json. rewrite Hj. unfold ret at 1. cbv beta iota.
    rewrite H200. reflexivity.
  - reflexivity.
  - apply id_token_session; auto.
  - apply user_id_session; auto.
  - unfold get_user_email, bind, get_user. change (user w1) with (JObj sess).
    rewrite Ht. reflexivity.
  - reflexivity.
  - reflexivity.
  - reflexivity.
Qed.

Lemma session_lifecycle_witness :
  sign_in "fbkey" "neo@example.com" "secret" w_firebase
  = (Ok (JObj neo_session),
     with_user (JObj neo_session)
       (sent (sign_in_request "fbkey" "neo@example.com" "secret") w_firebase))
  /\ get_user_email
       (with_user (JObj neo_session)
          (sent (sign_in_request "fbkey" "neo@example.com" "secret") w_firebase))
     = (Ok (JStr "neo@example.com"),
        with_user (JObj neo_session)
          (sent (sign_in_request "fbkey" "neo@example.com" "secret") w_firebase)).
Proof.
  destruct (session_lifecycle "fbkey" "https://db.example.com" "neo@example.com" "secret"
              w_firebase (mkResponse 200 "" (Some (JObj neo_session))) neo_session
              eq_refl eq_refl eq_refl eq_refl) as [H1 [_ [_ [_ [H5 _]]]]].
  split; [exact H1 | exact H5].
Defined.

(** A sign-up answered with a status other than 200 and a JSON object
    raises: [FirebaseAuthError] with the provider's message, or
    ["Sign up failed"] when there is none, if the [error] member is
    absent or an object; [AttributeError] if the [error] member is
    anything else. The session is left as it was and no profile is
    written: the sign-up request is the only one sent. *)
Theorem sign_up_failure (api_key db_url email password : string) (w : world)
    (r : response) (data : dict) :
  server w (sign_up_request api_key email password) = Reply r ->
  status_code r <> 200 ->
  json_body r = Some (JObj data) ->
  sign_up api_key db_url email password w
  = (Raise (match Py.dget "error" data (JObj []) with
            | JObj err =>
                FirebaseAuthError
                  (match Py.lookup "message" err with
                   | Some m => m
                   | None => JStr "Sign up failed"
                   end)
            | _ => AttributeError
            end),
     sent (sign_up_request api_key email password) w).
Proof.
  intros Hs Hne Hj. unfold sign_up_request in Hs.
  unfold sign_up, bind, http. rewrite Hs. cbv beta iota.
  unfold resp_json. rewrite Hj. unfold ret at 1. cbv beta iota.
  apply Z.eqb_neq in Hne. rewrite Hne. cbn [negb].
  unfold lift, Py.get.
  destruct (Py.dget "error" data (JObj [])); reflexivity.
Qed.

Lemma sign_up_failure_witness :
  sign_up "fbkey" "https://db.example.com" "neo@example.com" "secret" w_email_exists
  = (Raise (FirebaseAuthError (JStr "EMAIL_EXISTS")),
     sent (sign_up_request "fbkey" "neo@example.com" "secret") w_email_exists).
Proof.
  apply (sign_up_failure "fbkey" "https://db.example.com" "neo@example.com" "secret"
           w_email_exists email_exists
           [("error", JObj [("code", JNum 400); ("message", JStr "EMAIL_EXISTS")])]);
    try reflexivity. discriminate.
Defined.

Lemma init_profile_session db_url w sess :
  user w = JObj sess ->
  Py.truthy (Py.dget "idToken" sess JNull) = true ->
  Py.truthy (Py.dget "localId" sess JNull) = true ->
  _init_user_profile db_url w
  = (match server w (profile_request db_url sess) with
     | NetFail msg => Raise (RequestException msg)
     | Reply _ => Ok tt
     end, sent (profile_request db_url sess) w).
Proof.
  intros Hu Htok Hid. assert (Ht := truthy_dget_nonempty _ _ Htok).
  unfold _init_user_profile.
  rewrite (bind_ok _ _ _ _ _ (id_token_session w sess Hu Ht)). rewrite Htok. cbn [negb].
  rewrite (bind_ok _ _ _ _ _ (user_id_session w sess Hu Ht)). rewrite Hid. cbn [negb].
  rewrite (bind_ok _ _ _ _ _ (user_path_session db_url "" w sess Hu Hid)).
  unfold bind at 1. unfold get_user. rewrite Hu.
  unfold bind at 1. unfold lift, Py.get.
  rewrite (bind_ok _ _ _ _ _ (id_token_session w sess Hu Ht)).
  unfold bind, http.
  fold (user_url db_url (Py.dget "localId" sess JNull) "" (Py.dget "idToken" sess JNull)).
  fold (profile_request db_url sess).
  destruct (server w (profile_request db_url sess)); reflexivity.
Qed.

(** A sign-up answered with status 200 and a session that holds a token
    and a user id stores the session, then seeds the user's profile with
    one PATCH of the email and an empty watchlist. Whatever status that
    PATCH is answered with, [sign_up] returns the session; when the
    PATCH cannot be sent, [sign_up] raises the transport's exception
    although the session is already stored. *)
Theorem sign_up_seeds_profile (api_key db_url email password : string) (w : world)
    (r : response) (sess : dict) :
  server w (sign_up_request api_key email password) = Reply r ->
  status_code r = 200 ->
  json_body r = Some (JObj sess) ->
  Py.truthy (Py.dget "idToken" sess JNull) = true ->
  Py.truthy (Py.dget "localId" sess JNull) = true ->
  let w2 := sent (profile_request db_url sess)
              (with_user (JObj sess) (sent (sign_up_request api_key email password) w)) in
  user w2 = JObj sess
  /\ (forall r2,
        server w (profile_request db_url sess) = Reply r2 ->
        sign_up api_key db_url email password w = (Ok (JObj sess), w2))
  /\ (forall msg,
        server w (profile_request db_url sess) = NetFail msg ->
        sign_up api_key db_url email password w = (Raise (RequestException msg), w2)).
Proof.
  intros Hs H200 Hj Htok Hid w2. unfold sign_up_request in Hs.
  assert (Hrun : sign_up api_key db_url email password w
                 = (x <- _init_user_profile db_url ;; ret (JObj sess))
                     (with_user (JObj sess)
                        (sent (sign_up_request api_key email password) w))).
  { unfold sign_up, bind at 1, http. rewrite Hs. cbv beta iota.
    unfold bind at 1. unfold resp_json. rewrite Hj. unfold ret at 1. cbv beta iota.
    rewrite H200. reflexivity. }
  rewrite Hrun. unfold bind.
  rewrite (init_profile_session db_url
             (with_user (JObj sess) (sent (sign_up_request api_key email password) w))
             sess eq_refl Htok Hid).
  change (server (with_user (JObj sess) (sent (sign_up_request api_key email password) w)))
    with (server w).
  split; [reflexivity|]. split.
  - intros r2 H2. rewrite H2. reflexivity.
  - intros msg H2. rewrite H2. reflexivity.
Qed.

Lemma sign_up_seeds_profile_witness :
  (exists w2,
     sign_up "fbkey" "https://db.example.com" "neo@example.com" "secret" w_firebase
     = (Ok (JObj neo_session), w2)
     /\ http_log w2 = [sign_up_request "fbkey" "neo@example.com" "secret";
                       profile_request "https://db.example.com" neo_session])
  /\ (exists w2,
        sign_up "fbkey" "https://db.example.com" "neo@example.com" "secret" w_db_down
        = (Raise (RequestException "connection refused"), w2)
        /\ user w2 = JObj neo_session).
Proof.
  split.
  - destruct (sign_up_seeds_profile "fbkey" "https://db.example.com" "neo@example.com"
                "secret" w_firebase (mkResponse 200 "" (Some (JObj neo_session)))
                neo_session eq_refl eq_refl eq_refl eq_refl eq_refl) as [_ [H _]].
    eexists. split; [apply (H (mkResponse 200 "null" (Some JNull))); reflexivity|].
    reflexivity.
  - destruct (sign_up_seeds_profile "fbkey" "https://db.example.com" "neo@example.com"
                "secret" w_db_down (mkResponse 200 "" (Some (JObj neo_session)))
                neo_session eq_refl eq_refl eq_refl eq_refl eq_refl) as [_ [_ H]].
    eexists. split; [apply (H "connection refused"); reflexivity|]. reflexivity.
Defined.

(** The failures of [sign_in] that are not auth errors: a transport
    failure is raised as it is, a body that is not JSON raises a decode
    error whatever the status, and an error body that is not an object
    raises [AttributeError]. In each case the session is untouched. *)
Theorem sign_in_untyped_failures (api_key email password : string) (w : world) :
  let rq := sign_in_request api_key email password in
  (forall msg, server w rq = NetFail msg ->
     sign_in api_key email password w = (Raise (RequestException msg), sent rq w))
  /\ (forall r, server w rq = Reply r -> json_body r = None ->
        sign_in api_key email password w = (Raise JSONDecodeError, sent rq w))
  /\ (forall r data,
        server w rq = Reply r -> status_code r <> 200 -> json_body r = Some data ->
        is_obj data = false ->
        sign_in api_key email password w = (Raise AttributeError, sent rq w)).
Proof.
  intros rq. unfold rq, sign_in_request, sign_in, bind, http.
  split; [|split].
  - intros msg Hs. rewrite Hs. reflexivity.
  - intros r Hs Hj. rewrite Hs. cbv beta iota. unfold resp_json. rewrite Hj. reflexivity.
  - intros r data Hs Hne Hj Hobj. rewrite Hs. cbv beta iota.
    unfold resp_json. rewrite Hj. unfold ret at 1. cbv beta iota.
    apply Z.eqb_neq in Hne. rewrite Hne. cbn [negb].
    destruct data; try discriminate; reflexivity.
Qed.

Lemma sign_in_untyped_failures_witness :
  sign_in "fbkey" "neo@example.com" "secret" w_bad_gateway
  = (Raise JSONDecodeError,
     sent (sign_in_request "fbkey" "neo@example.com" "secret") w_bad_gateway)
  /\ sign_in "fbkey" "neo@example.com" "secret" w_fresh
     = (Raise (RequestException "unreachable"),
        sent (sign_in_request "fbkey" "neo@example.com" "secret") w_fresh).
Proof.
  destruct (sign_in_untyped_failures "fbkey" "neo@example.com" "secret" w_bad_gateway)
    as [_ [H _]].
  destruct (sign_in_untyped_failures "fbkey" "neo@example.com" "secret" w_fresh)
    as [H' _].
  split.
  - apply (H (mkResponse 502 "<html>Bad Gateway</html>" None)); reflexivity.
  - apply (H' "unreachable"). reflexivity.
Defined.

(** ** The awards lookup *)

(** [_get_awards_from_omdb] never raises and touches nothing but the
    request log. Without an identifier or a key it returns [None] and
    sends nothing; otherwise it sends one request and returns the
    [Awards] member of a 200 answer that is a JSON object, [None] for
    any other answer and for a transport failure. *)
Theorem awards_lookup_outcome (omdb : option string) (imdb_id : json) (w : world) :
  exists aw w1,
    _get_awards_from_omdb omdb imdb_id w = (Ok aw, w1)
    /\ same_outside_log w w1
    /\ (Py.truthy imdb_id && Py.truthy (of_opt omdb) = false -> aw = JNull /\ w1 = w)
    /\ (forall ok,
          omdb = Some ok -> Py.truthy imdb_id && Py.truthy (JStr ok) = true ->
          aw = awards_of (server w (omdb_request ok imdb_id))
          /\ w1 = sent (omdb_request ok imdb_id) w).
Proof.
  destruct (awards_total omdb imdb_id w) as [aw [w1 H]].
  exists aw, w1. split; [exact H|]. split; [eapply awards_frame; eauto|]. split.
  - intros Hc. unfold _get_awards_from_omdb in H.
    assert (Hn : negb (Py.truthy imdb_id) || negb (Py.truthy (of_opt omdb)) = true).
    { rewrite <- negb_andb. now rewrite Hc. }
    rewrite Hn in H. unfold ret in H. inversion H. auto.
  - intros ok -> Hc. apply andb_prop in Hc as [Hid Hok].
    rewrite (awards_eq ok imdb_id w (truthy_str ok Hok) Hid) in H.
    inversion H. auto.
Qed.

Lemma awards_lookup_outcome_witness :
  _get_awards_from_omdb (Some "omdbkey") (JStr "tt0133093") w_omdb_down
  = (Ok JNull, sent (omdb_request "omdbkey" (JStr "tt0133093")) w_omdb_down)
  /\ _get_awards_from_omdb (Some "") (JStr "tt0133093") w_omdb_up = (Ok JNull, w_omdb_up).
Proof.
  split.
  - destruct (awards_lookup_outcome (Some "omdbkey") (JStr "tt0133093") w_omdb_down)
      as [aw [w1 [H [_ [_ Hyes]]]]].
    destruct (Hyes "omdbkey" eq_refl eq_refl) as [-> ->]. exact H.
  - destruct (awards_lookup_outcome (Some "") (JStr "tt0133093") w_omdb_up)
      as [aw [w1 [H [_ [Hno _]]]]].
    destruct (Hno eq_refl) as [-> ->]. exact H.
Defined.

(** ** Configuration *)

(** Loading [config] reports the first required variable that is unset
    or empty, in the order OMDB_API_KEY, FIREBASE_API_KEY,
    FIREBASE_DB_URL; when the three are set it binds them and the AI key
    as the environment gives them, the AI key being possibly unset. *)
Theorem config_reports_first_missing (env : config.environ) :
  (missing env "OMDB_API_KEY" = true ->
   config.import env
   = Raise (ConfigError "Missing required environment variable: OMDB_API_KEY"))
  /\ (missing env "OMDB_API_KEY" = false ->
      missing env "FIREBASE_API_KEY" = true ->
      config.import env
      = Raise (ConfigError "Missing required environment variable: FIREBASE_API_KEY"))
  /\ (missing env "OMDB_API_KEY" = false ->
      missing env "FIREBASE_API_KEY" = false ->
      missing env "FIREBASE_DB_URL" = true ->
      config.import env
      = Raise (ConfigError "Missing required environment variable: FIREBASE_DB_URL"))
  /\ (missing env "OMDB_API_KEY" = false ->
      missing env "FIREBASE_API_KEY" = false ->
      missing env "FIREBASE_DB_URL" = false ->
      config.import env
      = Ok (config.mkModule (env "OMDB_API_KEY") (env "FIREBASE_API_KEY")
              (env "FIREBASE_DB_URL") (env "PERPLEXITY_API_KEY"))).
Proof.
  unfold config.import, config._get, config.getenv, missing, rbind.
  destruct (env "OMDB_API_KEY") as [[|c1 s1]|];
    destruct (env "FIREBASE_API_KEY") as [[|c2 s2]|];
    destruct (env "FIREBASE_DB_URL") as [[|c3 s3]|];
    cbn [of_opt Py.truthy String.eqb negb andb orb];
    (split; [|split; [|split]]); intros; try discriminate; try reflexivity.
  destruct (env "PERPLEXITY_API_KEY"); reflexivity.
Qed.

Lemma config_reports_first_missing_witness :
  config.import env_omdb_only
  = Raise (ConfigError "Missing required environment variable: FIREBASE_API_KEY")
  /\ config.import env_no_tmdb
     = Ok (config.mkModule (Some "omdbkey") (Some "fbkey")
             (Some "https://db.example.com/") None).
Proof.
  split.
  - apply (proj1 (proj2 (config_reports_first_missing env_omdb_only))); reflexivity.
  - apply (proj2 (proj2 (proj2 (config_reports_first_missing env_no_tmdb)))); reflexivity.
Defined.
